(** * gemma-fncall-flow: schema validation, function registry and dispatch

    A shallow embedding of [validation.py] and [function_calling.py].

    The Python code is dynamically typed: raw schema definitions are plain
    dictionaries whose entries may hold any value.  The embedding therefore
    starts with a small universe of Python values and the handful of
    built-in operations the two modules apply to them (truthiness, [==],
    [<], [in], [str], [repr], [type], [re.match]); exceptions are an
    explicit error type and mutable objects are passed as explicit state. *)

From Stdlib Require Import ZArith List String Ascii Bool Lia.
From Stdlib Require Import DecimalString SpecFloat.
Import ListNotations.

Local Open Scope list_scope.
Local Open Scope string_scope.

(* ------------------------------------------------------------------ *)
(** ** Exceptions and the error monad *)

(** The exception classes the two modules raise themselves carry their
    message; the ones raised by the interpreter on ill-typed operands
    ([TypeError], [AttributeError], [KeyError]) and [re.error], raised by
    [re.match] on a malformed pattern, are never inspected by the code
    and carry no message.  [BaseException] is an exception raised by a
    registered callable that is not an instance of [Exception]
    ([KeyboardInterrupt], [SystemExit], ...), known by its class name and
    its [str].

    [Unmodelled] is not an exception of Python: it is the answer of the
    embedding where [re.match] is given a pattern that uses a part of the
    [re] syntax left out of the model below.  What the interpreter does
    there is not described. *)
Inductive exn : Type :=
| ValidationError (msg : string)
| ValueError (msg : string)
| RuntimeError (msg : string)
| TypeError
| AttributeError
| KeyError (key : string)
| ReError
| BaseException (class : string) (msg : string)
| Unmodelled.

Inductive result (A : Type) : Type :=
| Ok (a : A)
| Raise (e : exn).
Arguments Ok {A} a.
Arguments Raise {A} e.

Definition bind {A B : Type} (c : result A) (k : A -> result B) : result B :=
  match c with
  | Ok a => k a
  | Raise e => Raise e
  end.

Declare Scope py_scope.
Delimit Scope py_scope with py.
Notation "x <- c ;; k" := (bind c (fun x => k))
  (at level 61, c at next level, right associativity) : py_scope.
Notation "c ;;; k" := (bind c (fun _ => k))
  (at level 61, right associativity) : py_scope.
Local Open Scope py_scope.

Definition is_ok {A : Type} (c : result A) : bool :=
  match c with Ok _ => true | Raise _ => false end.

(** [for x in xs: body(x)] where the body may raise. *)
Section ForEach.
Context {A : Type} (body : A -> result unit).

Fixpoint for_each (xs : list A) : result unit :=
  match xs with
  | [] => Ok tt
  | x :: rest => body x ;;; for_each rest
  end.
End ForEach.

(* ------------------------------------------------------------------ *)
(** ** Insertion-ordered dictionaries with string keys

    A Python [dict] iterates in insertion order; assigning to a key that is
    already present keeps its position. *)

Definition dict (A : Type) : Type := list (string * A).

Section Dict.
Context {A : Type}.

Fixpoint dict_get (k : string) (d : dict A) : option A :=
  match d with
  | [] => None
  | (k', v) :: rest => if String.eqb k k' then Some v else dict_get k rest
  end.

Definition dict_has (k : string) (d : dict A) : bool :=
  match dict_get k d with Some _ => true | None => false end.

(** [d[k] = v] *)
Fixpoint dict_set (k : string) (v : A) (d : dict A) : dict A :=
  match d with
  | [] => [(k, v)]
  | (k', v') :: rest =>
      if String.eqb k k' then (k', v) :: rest
      else (k', v') :: dict_set k v rest
  end.

(** [del d[k]] (the callers check membership first) *)
Fixpoint dict_del (k : string) (d : dict A) : dict A :=
  match d with
  | [] => []
  | (k', v') :: rest =>
      if String.eqb k k' then rest else (k', v') :: dict_del k rest
  end.

Definition dict_keys (d : dict A) : list string := map fst d.

(** [body(d[k]) if k in d else default], written so that a recursive
    [body] is seen to be applied to a component of [d]. *)
Section WithEntry.
Context {B : Type} (k : string) (body : A -> B) (default : B).

Fixpoint dict_with (d : dict A) : B :=
  match d with
  | [] => default
  | (k', v) :: rest => if String.eqb k k' then body v else dict_with rest
  end.
End WithEntry.
End Dict.

(* ------------------------------------------------------------------ *)
(** ** Python values *)

(** [class ParameterType(Enum)] *)
Inductive ParameterType : Type :=
| STRING | NUMBER | BOOLEAN | ARRAY | OBJECT | ENUM.

(** [member.value] *)
Definition ParameterType_value (t : ParameterType) : string :=
  match t with
  | STRING => "string"
  | NUMBER => "number"
  | BOOLEAN => "boolean"
  | ARRAY => "array"
  | OBJECT => "object"
  | ENUM => "enum"
  end.

Definition ParameterType_name (t : ParameterType) : string :=
  match t with
  | STRING => "STRING"
  | NUMBER => "NUMBER"
  | BOOLEAN => "BOOLEAN"
  | ARRAY => "ARRAY"
  | OBJECT => "OBJECT"
  | ENUM => "ENUM"
  end.

Definition ParameterType_eqb (a b : ParameterType) : bool :=
  match a, b with
  | STRING, STRING | NUMBER, NUMBER | BOOLEAN, BOOLEAN
  | ARRAY, ARRAY | OBJECT, OBJECT | ENUM, ENUM => true
  | _, _ => false
  end.

(** The values that occur as arguments and inside raw schema definitions:
    JSON-like data, with Python's distinction between [bool], [int] and
    [float], plus the members of [ParameterType] (the tests pass them as
    [type=]).  Floats are IEEE values; dictionaries have string keys. *)
#[warnings="-register-all"]
Inductive value : Type :=
| VNone
| VBool (b : bool)
| VInt (n : Z)
| VFloat (x : spec_float)
| VStr (s : string)
| VList (items : list value)
| VDict (entries : list (string * value))
| VType (t : ParameterType).

(** [isinstance(v, str)], [isinstance(v, bool)], ... As in Python, [bool]
    is a subclass of [int]: [isinstance(True, int)] holds. *)
Definition isinstance_str (v : value) : bool :=
  match v with VStr _ => true | _ => false end.

Definition isinstance_bool (v : value) : bool :=
  match v with VBool _ => true | _ => false end.

Definition isinstance_int (v : value) : bool :=
  match v with VInt _ | VBool _ => true | _ => false end.

Definition isinstance_float (v : value) : bool :=
  match v with VFloat _ => true | _ => false end.

Definition isinstance_list (v : value) : bool :=
  match v with VList _ => true | _ => false end.

Definition isinstance_dict (v : value) : bool :=
  match v with VDict _ => true | _ => false end.

(** [bool(v)] *)
Definition truthy (v : value) : bool :=
  match v with
  | VNone => false
  | VBool b => b
  | VInt n => negb (Z.eqb n 0)
  | VFloat (S754_zero _) => false
  | VFloat _ => true
  | VStr s => negb (String.eqb s "")
  | VList l => match l with [] => false | _ => true end
  | VDict d => match d with [] => false | _ => true end
  | VType _ => true
  end.

(** [v is None] *)
Definition is_None (v : value) : bool :=
  match v with VNone => true | _ => false end.

(** [a or b] *)
Definition py_or (a b : value) : value := if truthy a then a else b.

(* ------------------------------------------------------------------ *)
(** ** Numbers

    Python compares [bool], [int] and [float] operands by their exact
    mathematical value; a NaN is unordered and unequal to everything. *)

Local Open Scope Z_scope.

Inductive num : Type :=
| NNaN
| NInf (negative : bool)
| NFin (m e : Z).               (* m * 2^e *)

Definition num_of (v : value) : option num :=
  match v with
  | VBool b => Some (NFin (if b then 1 else 0) 0)
  | VInt n => Some (NFin n 0)
  | VFloat S754_nan => Some NNaN
  | VFloat (S754_infinity s) => Some (NInf s)
  | VFloat (S754_zero _) => Some (NFin 0 0)
  | VFloat (S754_finite s m e) =>
      Some (NFin (if s then Z.neg m else Z.pos m) e)
  | _ => None
  end.

Definition num_compare (a b : num) : option comparison :=
  match a, b with
  | NNaN, _ | _, NNaN => None
  | NInf s1, NInf s2 =>
      Some (match s1, s2 with
            | true, false => Lt
            | false, true => Gt
            | _, _ => Eq
            end)
  | NInf s, NFin _ _ => Some (if s then Lt else Gt)
  | NFin _ _, NInf s => Some (if s then Gt else Lt)
  | NFin m1 e1, NFin m2 e2 =>
      let e := Z.min e1 e2 in
      Some (Z.compare (m1 * 2 ^ (e1 - e)) (m2 * 2 ^ (e2 - e)))
  end.

(** [a < b] and [a > b] for a left operand that already passed
    [isinstance(a, (int, float))]; a non-numeric right operand makes the
    interpreter raise [TypeError]. *)
Definition py_lt (a b : value) : result bool :=
  match num_of a, num_of b with
  | Some x, Some y =>
      Ok (match num_compare x y with Some Lt => true | _ => false end)
  | _, _ => Raise TypeError
  end.

Definition py_gt (a b : value) : result bool :=
  match num_of a, num_of b with
  | Some x, Some y =>
      Ok (match num_compare x y with Some Gt => true | _ => false end)
  | _, _ => Raise TypeError
  end.

(** [a == b].  Numbers compare across [bool]/[int]/[float]; lists compare
    element-wise; dictionaries compare as mappings, whatever the insertion
    order; an enum member equals only itself. *)
Fixpoint py_eq (a b : value) {struct a} : bool :=
  match a, b with
  | VNone, VNone => true
  | VStr s, VStr t => String.eqb s t
  | VType s, VType t => ParameterType_eqb s t
  | VList xs, VList ys =>
      (fix all2 (xs ys : list value) : bool :=
         match xs, ys with
         | [], [] => true
         | x :: xs', y :: ys' => py_eq x y && all2 xs' ys'
         | _, _ => false
         end) xs ys
  | VDict d, VDict d' =>
      (Nat.eqb (List.length d) (List.length d')) &&
      (fix sub (d : list (string * value)) : bool :=
         match d with
         | [] => true
         | (k, v) :: rest =>
             match dict_get k d' with
             | Some w => py_eq v w
             | None => false
             end && sub rest
         end) d
  | _, _ =>
      match num_of a, num_of b with
      | Some x, Some y =>
          match num_compare x y with Some Eq => true | _ => false end
      | _, _ => false
      end
  end.

(* ------------------------------------------------------------------ *)
(** ** Text: [str], [repr] and [type] *)

Definition str_of_Z (n : Z) : string := NilZero.string_of_int (Z.to_int n).

Fixpoint repeat_string (n : nat) (s : string) : string :=
  match n with
  | O => ""
  | S n' => s ++ repeat_string n' s
  end.

Fixpoint string_take (n : nat) (s : string) : string :=
  match n, s with
  | S n', String c s' => String c (string_take n' s')
  | _, _ => ""
  end.

Fixpoint string_drop (n : nat) (s : string) : string :=
  match n, s with
  | S n', String _ s' => string_drop n' s'
  | _, _ => s
  end.

Fixpoint string_rev_onto (s acc : string) : string :=
  match s with
  | "" => acc
  | String c s' => string_rev_onto s' (String c acc)
  end.

Fixpoint drop_leading_zeros (s : string) : string :=
  match s with
  | String "0" s' => drop_leading_zeros s'
  | _ => s
  end.

Definition strip_trailing_zeros (s : string) : string :=
  string_rev_onto (drop_leading_zeros (string_rev_onto s "")) "".

(** *** [repr] of a float

    CPython prints the shortest decimal string that reads back as the same
    binary64 value (the nearest one when several are that short), in
    fixed notation when the decimal point falls within [-4 < p <= 16] and
    in exponent notation otherwise.  A positive finite float [m * 2^e] is
    handled as the fraction [X / D]; [LO / D] and [HI / D] bound the reals
    that round to it.  The search for the decimal exponent starts from an
    under-estimate taken from the binary logarithm. *)

Definition lt_pow10 (X D k : Z) : bool :=
  if 0 <=? k then X <? 10 ^ k * D else X * 10 ^ (- k) <? D.

Fixpoint dec_exponent (fuel : nat) (X D k : Z) : Z :=
  match fuel with
  | O => k
  | S fuel' =>
      if lt_pow10 X D k then k else dec_exponent fuel' X D (k + 1)
  end.

(** [floor ((X / D) / 10^j)] *)
Definition scaled_floor (X D j : Z) : Z :=
  if 0 <=? j then X / (D * 10 ^ j) else (X * 10 ^ (- j)) / D.

(** [d * 10^j] compared with [Y / D] *)
Definition cmp_dec (d j Y D : Z) : comparison :=
  if 0 <=? j then Z.compare (d * 10 ^ j * D) Y
  else Z.compare (d * D) (Y * 10 ^ (- j)).

Definition in_interval (closed : bool) (LO HI D d j : Z) : bool :=
  match cmp_dec d j LO D, cmp_dec d j HI D with
  | Gt, Lt => true
  | Eq, Lt | Gt, Eq => closed
  | _, _ => false
  end.

(** The [n]-digit decimal nearest to [X / D] that lies in the rounding
    interval, if there is one. *)
Definition digits_at (closed : bool) (X LO HI D k : Z) (n : Z) : option Z :=
  let j := k - n in
  let d := scaled_floor X D j in
  let below := in_interval closed LO HI D d j in
  let above := in_interval closed LO HI D (d + 1) j in
  match below, above with
  | true, false => Some d
  | false, true => Some (d + 1)
  | false, false => None
  | true, true =>
      match cmp_dec (2 * d + 1) j (2 * X) D with
      | Gt => Some d
      | Lt => Some (d + 1)
      | Eq => Some (if Z.even d then d else d + 1)
      end
  end.

Fixpoint shortest_digits (fuel : nat) (closed : bool) (X LO HI D k n : Z)
  : Z * Z :=
  match fuel with
  | O => (scaled_floor X D (k - n), n)
  | S fuel' =>
      match digits_at closed X LO HI D k n with
      | Some d => (d, n)
      | None => shortest_digits fuel' closed X LO HI D k (n + 1)
      end
  end.

Fixpoint normalize_float (fuel : nat) (m e : Z) : Z * Z :=
  match fuel with
  | O => (m, e)
  | S fuel' =>
      if (m <? 2 ^ 52) && (-1074 <? e)
      then normalize_float fuel' (2 * m) (e - 1)
      else (m, e)
  end.

Definition format_digits (digits : string) (decpt : Z) : string :=
  let len := Z.of_nat (String.length digits) in
  if (-4 <? decpt) && (decpt <=? 16) then
    if decpt <=? 0 then
      "0." ++ repeat_string (Z.to_nat (- decpt)) "0" ++ digits
    else if len <=? decpt then
      digits ++ repeat_string (Z.to_nat (decpt - len)) "0" ++ ".0"
    else
      string_take (Z.to_nat decpt) digits ++ "." ++
      string_drop (Z.to_nat decpt) digits
  else
    let e := decpt - 1 in
    let mag := str_of_Z (Z.abs e) in
    string_take 1 digits ++
    (if 1 <? len then "." ++ string_drop 1 digits else "") ++
    "e" ++ (if e <? 0 then "-" else "+") ++
    (if Z.abs e <? 10 then "0" ++ mag else mag).

Definition float_repr_pos (m0 e0 : Z) : string :=
  let '(m, e) := normalize_float 64 m0 e0 in
  let P := if 0 <=? e then 2 ^ e else 1 in
  let D := if 0 <=? e then 4 else 4 * 2 ^ (- e) in
  let X := 4 * m * P in
  let HI := (4 * m + 2) * P in
  let LO :=
    if (m =? 2 ^ 52) && (-1074 <? e) then (4 * m - 1) * P
    else (4 * m - 2) * P in
  let b := Z.log2 X - Z.log2 D - 1 in
  let k0 := Z.min (b * 30102 / 100000) (b * 30103 / 100000) in
  let k := dec_exponent 8 X D k0 in
  let '(d, n) := shortest_digits 17 (Z.even m) X LO HI D k 1 in
  let ds := str_of_Z d in
  let decpt := Z.of_nat (String.length ds) + k - n in
  format_digits (strip_trailing_zeros ds) decpt.

Definition float_repr (x : spec_float) : string :=
  match x with
  | S754_nan => "nan"
  | S754_infinity s => if s then "-inf" else "inf"
  | S754_zero s => if s then "-0.0" else "0.0"
  | S754_finite s m e =>
      (if s then "-" else "") ++ float_repr_pos (Z.pos m) e
  end.

Local Close Scope Z_scope.

(** *** [repr] of a string

    Single quotes unless the text holds a single quote and no double
    quote; backslash, the chosen quote and the characters that are not
    printable are escaped.  A character is a code point below 256; the
    ones [str.isprintable] refuses are the control characters below 32,
    127 to 160 and 173. *)

Definition dquote : ascii := ascii_of_nat 34.
Definition squote : ascii := ascii_of_nat 39.
Definition backslash : ascii := ascii_of_nat 92.

Fixpoint string_mem (c : ascii) (s : string) : bool :=
  match s with
  | "" => false
  | String c' s' => Ascii.eqb c c' || string_mem c s'
  end.

Definition hex_digit (n : nat) : ascii :=
  if Nat.ltb n 10 then ascii_of_nat (48 + n) else ascii_of_nat (87 + n).

Definition escape_char (quote c : ascii) : string :=
  let n := nat_of_ascii c in
  if Ascii.eqb c backslash then String backslash (String backslash "")
  else if Ascii.eqb c quote then String backslash (String quote "")
  else if Nat.eqb n 9 then String backslash "t"
  else if Nat.eqb n 10 then String backslash "n"
  else if Nat.eqb n 13 then String backslash "r"
  else if Nat.ltb n 32 || (Nat.leb 127 n && Nat.leb n 160) || Nat.eqb n 173
  then
    String backslash
      (String "x"
         (String (hex_digit (Nat.div n 16))
            (String (hex_digit (Nat.modulo n 16)) "")))
  else String c "".

Fixpoint escape_string (quote : ascii) (s : string) : string :=
  match s with
  | "" => ""
  | String c s' => escape_char quote c ++ escape_string quote s'
  end.

Definition str_repr (s : string) : string :=
  let quote :=
    if string_mem squote s && negb (string_mem dquote s) then dquote
    else squote in
  String quote (escape_string quote s ++ String quote "").

(** [repr(v)] *)
Fixpoint py_repr (v : value) : string :=
  match v with
  | VNone => "None"
  | VBool b => if b then "True" else "False"
  | VInt n => str_of_Z n
  | VFloat x => float_repr x
  | VStr s => str_repr s
  | VList items => "[" ++ String.concat ", " (map py_repr items) ++ "]"
  | VDict entries =>
      "{" ++
      String.concat ", "
        (map (fun kv => str_repr (fst kv) ++ ": " ++ py_repr (snd kv))
           entries) ++
      "}"
  | VType t =>
      "<ParameterType." ++ ParameterType_name t ++ ": '" ++
      ParameterType_value t ++ "'>"
  end.

(** [str(v)], which is also what an f-string field [{v}] prints. *)
Definition py_str (v : value) : string :=
  match v with
  | VStr s => s
  | VType t => "ParameterType." ++ ParameterType_name t
  | _ => py_repr v
  end.

(** [str(type(v))], printed by the "Expected ..., got ..." messages. *)
Definition type_repr (v : value) : string :=
  match v with
  | VNone => "<class 'NoneType'>"
  | VBool _ => "<class 'bool'>"
  | VInt _ => "<class 'int'>"
  | VFloat _ => "<class 'float'>"
  | VStr _ => "<class 'str'>"
  | VList _ => "<class 'list'>"
  | VDict _ => "<class 'dict'>"
  | VType _ => "<enum 'ParameterType'>"
  end.

(* ------------------------------------------------------------------ *)
(** ** Containers: [in], iteration, [.items()], subscription *)

Fixpoint string_prefix (p s : string) : bool :=
  match p, s with
  | "", _ => true
  | String a p', String b s' => Ascii.eqb a b && string_prefix p' s'
  | _, _ => false
  end.

Fixpoint is_substring (p s : string) : bool :=
  string_prefix p s ||
  match s with
  | "" => false
  | String _ s' => is_substring p s'
  end.

Definition hashable (v : value) : bool :=
  match v with VList _ | VDict _ => false | _ => true end.

(** [k in d] for a dictionary with string keys and any key operand. *)
Definition key_in {A : Type} (k : value) (d : dict A) : result bool :=
  match k with
  | VStr s => Ok (dict_has s d)
  | _ => if hashable k then Ok false else Raise TypeError
  end.

(** [x in c] *)
Definition py_in (x c : value) : result bool :=
  match c with
  | VList items => Ok (existsb (py_eq x) items)
  | VDict entries => key_in x entries
  | VStr s =>
      match x with
      | VStr p => Ok (is_substring p s)
      | _ => Raise TypeError
      end
  | _ => Raise TypeError
  end.

Fixpoint chars_of (s : string) : list value :=
  match s with
  | "" => []
  | String c s' => VStr (String c "") :: chars_of s'
  end.

(** The elements a [for] loop over [c] visits. *)
Definition py_iter (c : value) : result (list value) :=
  match c with
  | VList items => Ok items
  | VDict entries => Ok (map (fun kv => VStr (fst kv)) entries)
  | VStr s => Ok (chars_of s)
  | _ => Raise TypeError
  end.

(** [c.items()] *)
Definition py_items (c : value) : result (dict value) :=
  match c with
  | VDict entries => Ok entries
  | _ => Raise AttributeError
  end.

(** [d[k]] on a dictionary *)
Definition dict_getitem {A : Type} (k : string) (d : dict A) : result A :=
  match dict_get k d with
  | Some v => Ok v
  | None => Raise (KeyError k)
  end.

(** [c[k]] for a string subscript [k]. *)
Definition py_getitem (c : value) (k : string) : result value :=
  match c with
  | VDict entries => dict_getitem k entries
  | _ => Raise TypeError
  end.

(* ------------------------------------------------------------------ *)
(** ** Regular expressions: [re.match]

    A model of [re.match(pattern, string)] for a pattern given as a
    string, without flags.  Only whether a match is found is modelled,
    which is all the validator looks at.

    The model covers literals, [.], [^], [$], [\A], [\Z], character sets
    with ranges, the classes [\d \w \s \D \W \S], the escapes
    [\a \f \n \r \t \v] (and [\b] inside a set), an escaped character
    that is no letter and no digit, the groups [( )] and [(?: )], [|],
    and the quantifiers [* + ?] and [{m} {m,} {,n} {m,n}], greedy or
    followed by [?]; a [{] that starts no quantifier is a literal.  A
    pattern that [re] refuses with [re.error] is [Malformed].  The rest
    of the syntax is [Unsupported]: inline flags, look-around, named
    groups, comments, back-references, numeric and named escapes, [\b]
    and [\B] outside a set, possessive quantifiers and atomic groups
    (which exist from Python 3.11 on only), and repeat counts from
    [2^31 - 1] on (where [re] raises [OverflowError] on some
    platforms).  A character is a code point below 256. *)

Inductive charclass : Type := Digit | Word | Space.

(** A member of a set: a range of characters or a class. *)
Inductive set_item : Type :=
| Range (lo hi : ascii)
| Class (negated : bool) (cl : charclass).

Inductive regex : Type :=
| REmpty
| RChar (c : ascii)
| RAny
| RSet (negated : bool) (items : list set_item)
| RBol
| REol
| REnd
| RSeq (r1 r2 : regex)
| RAlt (r1 r2 : regex)
| RStar (r : regex)
| ROpt (r : regex).

Definition newline : ascii := ascii_of_nat 10.

Definition code_in (c : ascii) (lo hi : nat) : bool :=
  Nat.leb lo (nat_of_ascii c) && Nat.leb (nat_of_ascii c) hi.

(** The classes of a [str] pattern: decimal digits, what [str.isalnum]
    accepts and the underscore, and white space. *)
Definition in_class (cl : charclass) (c : ascii) : bool :=
  match cl with
  | Digit => code_in c 48 57
  | Word =>
      code_in c 48 57 || code_in c 65 90 || code_in c 95 95
      || code_in c 97 122 || code_in c 170 170 || code_in c 178 179
      || code_in c 181 181 || code_in c 185 186 || code_in c 188 190
      || code_in c 192 214 || code_in c 216 246 || code_in c 248 255
  | Space =>
      code_in c 9 13 || code_in c 28 32 || code_in c 133 133
      || code_in c 160 160
  end.

Definition in_item (c : ascii) (i : set_item) : bool :=
  match i with
  | Range lo hi => code_in c (nat_of_ascii lo) (nat_of_ascii hi)
  | Class negated cl => xorb negated (in_class cl c)
  end.

Definition in_set (c : ascii) (items : list set_item) : bool :=
  existsb (in_item c) items.

(** Where [$] matches: at the end of the subject and before a newline
    that ends it. *)
Definition at_end (s : string) : bool :=
  match s with
  | "" => true
  | String c "" => Ascii.eqb c newline
  | _ => false
  end.

Definition is_empty (s : string) : bool :=
  match s with "" => true | _ => false end.

(** *** The matcher *)

(** Zero or more rounds of [step]; a round that consumes nothing is not
    repeated. *)
Fixpoint star (step : (bool -> string -> bool) -> bool -> string -> bool)
    (k : bool -> string -> bool) (fuel : nat) (bol : bool) (s : string)
  : bool :=
  match fuel with
  | O => k bol s
  | S fuel' =>
      if step (fun bol' s' =>
                 if Nat.ltb (String.length s') (String.length s)
                 then star step k fuel' bol' s'
                 else false) bol s
      then true
      else k bol s
  end.

(** [rmatch r k bol s]: [r] matches a prefix of [s] such that the
    continuation [k] accepts what follows; [bol] tells whether [s] starts
    at position 0 of the subject.  Alternatives are tried in turn. *)
Fixpoint rmatch (r : regex) (k : bool -> string -> bool)
    (bol : bool) (s : string) {struct r} : bool :=
  match r with
  | REmpty => k bol s
  | RChar c =>
      match s with
      | String c' s' => if Ascii.eqb c c' then k false s' else false
      | "" => false
      end
  | RAny =>
      match s with
      | String c' s' => if Ascii.eqb c' newline then false else k false s'
      | "" => false
      end
  | RSet negated items =>
      match s with
      | String c' s' =>
          if xorb negated (in_set c' items) then k false s' else false
      | "" => false
      end
  | RBol => if bol then k bol s else false
  | REol => if at_end s then k bol s else false
  | REnd => if is_empty s then k bol s else false
  | RSeq r1 r2 => rmatch r1 (fun bol' s' => rmatch r2 k bol' s') bol s
  | RAlt r1 r2 => if rmatch r1 k bol s then true else rmatch r2 k bol s
  | RStar r1 => star (rmatch r1) k (String.length s) bol s
  | ROpt r1 => if rmatch r1 k bol s then true else k bol s
  end.

(** *** What an expression matches

    [matches r pre u v]: the expression [r] matches the part [u] of the
    subject [pre ++ u ++ v].  This is the meaning of the expression,
    stated without reference to the matcher. *)
Inductive matches : regex -> string -> string -> string -> Prop :=
| matches_empty pre v : matches REmpty pre "" v
| matches_char c pre v : matches (RChar c) pre (String c "") v
| matches_any c pre v :
    Ascii.eqb c newline = false -> matches RAny pre (String c "") v
| matches_set negated items c pre v :
    xorb negated (in_set c items) = true ->
    matches (RSet negated items) pre (String c "") v
| matches_bol v : matches RBol "" "" v
| matches_eol pre v : at_end v = true -> matches REol pre "" v
| matches_end pre : matches REnd pre "" ""
| matches_seq r1 r2 pre u1 u2 v :
    matches r1 pre u1 (u2 ++ v) ->
    matches r2 (pre ++ u1) u2 v ->
    matches (RSeq r1 r2) pre (u1 ++ u2) v
| matches_alt_l r1 r2 pre u v :
    matches r1 pre u v -> matches (RAlt r1 r2) pre u v
| matches_alt_r r1 r2 pre u v :
    matches r2 pre u v -> matches (RAlt r1 r2) pre u v
| matches_star_nil r pre v : matches (RStar r) pre "" v
| matches_star_cons r pre u1 u2 v :
    matches r pre u1 (u2 ++ v) ->
    matches (RStar r) (pre ++ u1) u2 v ->
    matches (RStar r) pre (u1 ++ u2) v
| matches_opt_nil r pre v : matches (ROpt r) pre "" v
| matches_opt_some r pre u v :
    matches r pre u v -> matches (ROpt r) pre u v.

(** [r] matches at position 0 of [s], as [re.match] asks: some prefix of
    [s] is matched. *)
Definition matches_at_start (r : regex) (s : string) : Prop :=
  exists u v, s = u ++ v /\ matches r "" u v.

(** *** Parsing a pattern *)

(** The outcome of parsing: an expression, a pattern [re] refuses with
    [re.error], or a pattern outside the model. *)
Inductive parsed (A : Type) : Type :=
| Parsed (a : A)
| Malformed
| Unsupported.
Arguments Parsed {A} a.
Arguments Malformed {A}.
Arguments Unsupported {A}.

Definition and_then {A B : Type} (c : parsed A) (k : A -> parsed B)
  : parsed B :=
  match c with
  | Parsed a => k a
  | Malformed => Malformed
  | Unsupported => Unsupported
  end.

Definition is_ascii_letter (c : ascii) : bool :=
  code_in c 65 90 || code_in c 97 122.

Definition is_digit (c : ascii) : bool := code_in c 48 57.

(** What a backslash and the character after it stand for. *)
Inductive escape : Type :=
| EClass (negated : bool) (cl : charclass)
| EChar (c : ascii).

(** The escapes that mean the same inside and outside a set.  A letter
    or digit without a meaning here is refused or means something the
    model leaves out; any other character stands for itself. *)
Definition common_escape (c : ascii) : option escape :=
  if Ascii.eqb c "d" then Some (EClass false Digit)
  else if Ascii.eqb c "D" then Some (EClass true Digit)
  else if Ascii.eqb c "w" then Some (EClass false Word)
  else if Ascii.eqb c "W" then Some (EClass true Word)
  else if Ascii.eqb c "s" then Some (EClass false Space)
  else if Ascii.eqb c "S" then Some (EClass true Space)
  else if Ascii.eqb c "a" then Some (EChar (ascii_of_nat 7))
  else if Ascii.eqb c "f" then Some (EChar (ascii_of_nat 12))
  else if Ascii.eqb c "n" then Some (EChar newline)
  else if Ascii.eqb c "r" then Some (EChar (ascii_of_nat 13))
  else if Ascii.eqb c "t" then Some (EChar (ascii_of_nat 9))
  else if Ascii.eqb c "v" then Some (EChar (ascii_of_nat 11))
  else if is_ascii_letter c || is_digit c then None
  else Some (EChar c).

(** An escape outside a set. *)
Definition parse_escape (c : ascii) : parsed regex :=
  if Ascii.eqb c "A" then Parsed RBol
  else if Ascii.eqb c "Z" then Parsed REnd
  else
    match common_escape c with
    | Some (EClass negated cl) => Parsed (RSet false [Class negated cl])
    | Some (EChar x) => Parsed (RChar x)
    | None => Unsupported
    end.

(** An escape inside a set, where [\b] is the backspace character. *)
Definition class_escape (c : ascii) : parsed escape :=
  if Ascii.eqb c "b" then Parsed (EChar (ascii_of_nat 8))
  else
    match common_escape c with
    | Some e => Parsed e
    | None => Unsupported
    end.

(** One member of a set, a character or an escape, and what follows
    it. *)
Definition set_atom (s : string) : parsed (escape * string) :=
  match s with
  | "" => Malformed
  | String c rest =>
      if Ascii.eqb c backslash then
        match rest with
        | "" => Malformed
        | String e rest' =>
            and_then (class_escape e) (fun x => Parsed (x, rest'))
        end
      else Parsed (EChar c, rest)
  end.

Definition item_of (e : escape) : set_item :=
  match e with
  | EChar c => Range c c
  | EClass negated cl => Class negated cl
  end.

(** The members of a set [[...]], after the opening bracket and the
    optional [^].  A [']'] ends the set unless it comes first; a [-]
    between two characters makes a range, and before the closing bracket
    it is a literal. *)
Fixpoint parse_set_items (fuel : nat) (s : string) (acc : list set_item)
  : parsed (list set_item * string) :=
  match fuel with
  | O => Unsupported
  | S fuel' =>
      match s, acc with
      | String "]" rest, _ :: _ => Parsed (rev acc, rest)
      | _, _ =>
          and_then (set_atom s) (fun '(code1, s1) =>
            match s1 with
            | String "-" "" => Malformed
            | String "-" (String "]" rest) =>
                Parsed (rev (Range "-" "-" :: item_of code1 :: acc), rest)
            | String "-" s2 =>
                and_then (set_atom s2) (fun '(code2, s3) =>
                  match code1, code2 with
                  | EChar lo, EChar hi =>
                      if Nat.ltb (nat_of_ascii hi) (nat_of_ascii lo)
                      then Malformed
                      else parse_set_items fuel' s3 (Range lo hi :: acc)
                  | _, _ => Malformed
                  end)
            | _ => parse_set_items fuel' s1 (item_of code1 :: acc)
            end)
      end
  end.

Definition parse_set (s : string) : parsed (regex * string) :=
  let '(negated, s1) :=
    match s with
    | String "^" s' => (true, s')
    | _ => (false, s)
    end in
  and_then (parse_set_items (S (String.length s1)) s1 [])
    (fun '(items, rest) => Parsed (RSet negated items, rest)).

(** The decimal number [s] starts with, if it starts with a digit, and
    what follows it. *)
Fixpoint digits (s : string) (acc : option N) : option N * string :=
  match s with
  | String c rest =>
      if is_digit c then
        digits rest
          (Some (10 * match acc with Some n => n | None => 0 end
                 + N.of_nat (nat_of_ascii c - 48))%N)
      else (acc, s)
  | "" => (acc, s)
  end.

(** What follows a [{]: not the body of a quantifier, so that the brace
    is a literal; a count that is too large; a minimum above the
    maximum; or the bounds of a quantifier and the rest of the
    pattern. *)
Inductive counted : Type :=
| NotCounted
| TooLarge
| MinAboveMax
| Counted (lo : nat) (hi : option nat) (rest : string).

Definition too_large (n : option N) : bool :=
  match n with
  | Some x => (2147483647 <=? x)%N
  | None => false
  end.

Definition parse_counted (s : string) : counted :=
  match s with
  | String "}" _ => NotCounted
  | _ =>
      let '(lo, s1) := digits s None in
      let '(hi, s2) :=
        match s1 with
        | String "," s1' => digits s1' None
        | _ => (lo, s1)
        end in
      match s2 with
      | String "}" rest =>
          if too_large lo || too_large hi then TooLarge
          else
            let min := match lo with Some n => n | None => 0%N end in
            match hi with
            | Some max =>
                if (max <? min)%N then MinAboveMax
                else Counted (N.to_nat min) (Some (N.to_nat max)) rest
            | None => Counted (N.to_nat min) None rest
            end
      | _ => NotCounted
      end
  end.

(** [a] repeated: [n] times and then [tail]; up to [n] times; between
    [lo] and [hi] times, or [lo] times at least. *)
Fixpoint times (n : nat) (a tail : regex) : regex :=
  match n with
  | O => tail
  | S n' => RSeq a (times n' a tail)
  end.

Fixpoint upto (n : nat) (a : regex) : regex :=
  match n with
  | O => REmpty
  | S n' => ROpt (RSeq a (upto n' a))
  end.

Definition repeat (a : regex) (lo : nat) (hi : option nat) : regex :=
  match hi with
  | None => times lo a (RStar a)
  | Some max => times lo a (upto (max - lo) a)
  end.

(** The quantifier [s] starts with, if any: its bounds and what follows
    it. *)
Definition quantifier (s : string)
  : parsed (option (nat * option nat * string)) :=
  match s with
  | String c rest =>
      if Ascii.eqb c "*" then Parsed (Some (0%nat, None, rest))
      else if Ascii.eqb c "+" then Parsed (Some (1%nat, None, rest))
      else if Ascii.eqb c "?" then Parsed (Some (0%nat, Some 1%nat, rest))
      else if Ascii.eqb c "{" then
        match parse_counted rest with
        | NotCounted => Parsed None
        | TooLarge => Unsupported
        | MinAboveMax => Malformed
        | Counted lo hi rest' => Parsed (Some (lo, hi, rest'))
        end
      else Parsed None
  | "" => Parsed None
  end.

(** [^], [$], [\A] and [\Z] cannot be repeated. *)
Definition repeatable (r : regex) : bool :=
  match r with RBol | REol | REnd => false | _ => true end.

(** An optional quantifier after the item [a].  A [?] after the
    quantifier makes it lazy, which does not change whether there is a
    match; a [+] after it is outside the model. *)
Definition parse_quant (a : regex) (s : string) : parsed (regex * string) :=
  and_then (quantifier s) (fun q =>
    match q with
    | None => Parsed (a, s)
    | Some (lo, hi, rest) =>
        if negb (repeatable a) then Malformed
        else
          match rest with
          | String "?" rest' => Parsed (repeat a lo hi, rest')
          | String "+" _ => Unsupported
          | _ => Parsed (repeat a lo hi, rest)
          end
    end).

(** A branch of an alternation ends at the end of the pattern, at [|]
    and at [)]. *)
Definition ends_branch (s : string) : bool :=
  match s with
  | "" => true
  | String c _ => Ascii.eqb c "|" || Ascii.eqb c ")"
  end.

(** An alternation, a branch and an item.  An item is followed by its
    quantifier, so a quantifier met where an item starts has nothing to
    repeat or repeats a quantifier. *)
Fixpoint parse_alt (fuel : nat) (s : string) {struct fuel}
  : parsed (regex * string) :=
  match fuel with
  | O => Unsupported
  | S fuel' =>
      and_then (parse_seq fuel' s) (fun '(r, s1) =>
        match s1 with
        | String "|" s' =>
            and_then (parse_alt fuel' s')
              (fun '(r', s'') => Parsed (RAlt r r', s''))
        | _ => Parsed (r, s1)
        end)
  end
with parse_seq (fuel : nat) (s : string) {struct fuel}
  : parsed (regex * string) :=
  match fuel with
  | O => Unsupported
  | S fuel' =>
      if ends_branch s then Parsed (REmpty, s)
      else
        and_then (parse_atom fuel' s) (fun '(a, s1) =>
          and_then (parse_quant a s1) (fun '(q, s2) =>
            and_then (parse_seq fuel' s2)
              (fun '(r, s3) => Parsed (RSeq q r, s3))))
  end
with parse_atom (fuel : nat) (s : string) {struct fuel}
  : parsed (regex * string) :=
  match fuel with
  | O => Unsupported
  | S fuel' =>
      match s with
      | "" => Malformed
      | String c rest =>
          if Ascii.eqb c "(" then
            let body :=
              match rest with
              | String "?" (String ":" rest') => Parsed rest'
              | String "?" _ => Unsupported
              | _ => Parsed rest
              end in
            and_then body (fun b =>
              and_then (parse_alt fuel' b) (fun '(r, s1) =>
                match s1 with
                | String ")" s' => Parsed (r, s')
                | _ => Malformed
                end))
          else if Ascii.eqb c "[" then parse_set rest
          else if Ascii.eqb c "." then Parsed (RAny, rest)
          else if Ascii.eqb c "^" then Parsed (RBol, rest)
          else if Ascii.eqb c "$" then Parsed (REol, rest)
          else if Ascii.eqb c backslash then
            match rest with
            | String e rest' =>
                and_then (parse_escape e) (fun r => Parsed (r, rest'))
            | "" => Malformed
            end
          else if Ascii.eqb c "*" || Ascii.eqb c "+" || Ascii.eqb c "?"
          then Malformed
          else if Ascii.eqb c "{" then
            match parse_counted rest with
            | NotCounted => Parsed (RChar c, rest)
            | TooLarge => Unsupported
            | MinAboveMax | Counted _ _ _ => Malformed
            end
          else Parsed (RChar c, rest)
      end
  end.

(** [re.compile(pattern)].  What is left after an alternation at the
    top is a [)] without its [(]. *)
Definition re_compile (pattern : string) : parsed regex :=
  and_then (parse_alt (4 * String.length pattern + 4) pattern)
    (fun '(r, rest) =>
       match rest with
       | "" => Parsed r
       | _ => Malformed
       end).

(** [re.match(pattern, s) is not None] for two strings. *)
Definition re_match_str (pattern s : string) : parsed bool :=
  and_then (re_compile pattern)
    (fun r => Parsed (rmatch r (fun _ _ => true) true s)).

(** [bool(re.match(pattern, s))] where [s] is a string and [pattern] any
    value: anything but a string pattern is a [TypeError]. *)
Definition re_match (pattern : value) (s : string) : result bool :=
  match pattern with
  | VStr p =>
      match re_match_str p s with
      | Parsed b => Ok b
      | Malformed => Raise ReError
      | Unsupported => Raise Unmodelled
      end
  | _ => Raise TypeError
  end.

(* ------------------------------------------------------------------ *)
(** ** validation.py *)

(** [ParameterType(x)]: the member whose value is [x], or [x] itself when
    it already is a member; [ValueError] otherwise. *)
Definition ParameterType_call (x : value) : result ParameterType :=
  let not_valid :=
    Raise (ValueError (py_repr x ++ " is not a valid ParameterType")) in
  match x with
  | VType t => Ok t
  | VStr s =>
      match
        find (fun t => String.eqb (ParameterType_value t) s)
          [STRING; NUMBER; BOOLEAN; ARRAY; OBJECT; ENUM]
      with
      | Some t => Ok t
      | None => not_valid
      end
  | _ => not_valid
  end.

Module ParameterSchema.

(** The attributes [__init__] stores.  Nothing checks what the caller
    passes, so every attribute holds an arbitrary value. *)
Record t : Type := mk {
  type : value;
  description : value;
  required : value;
  minimum : value;
  maximum : value;
  pattern : value;
  enum_values : value;
  items : value;
  properties : value
}.

(** [__init__(self, type, description, required=False, minimum=None,
    maximum=None, pattern=None, enum_values=None, items=None,
    properties=None)] *)
Definition init (type description required minimum maximum pattern
    enum_values items properties : value) : result t :=
  type' <- (if isinstance_str type
            then (m <- ParameterType_call type ;; Ok (VType m))
            else Ok type) ;;
  Ok (mk type' description required minimum maximum pattern enum_values
        items properties).

Definition keywords : list string :=
  ["type"; "description"; "required"; "minimum"; "maximum"; "pattern";
   "enum_values"; "items"; "properties"].

Definition keyword (k : string) (default : value) (d : dict value)
  : value :=
  match dict_get k d with Some v => v | None => default end.

(** The constructor applied to unpacked keyword arguments, as in
    [ParameterSchema( **self.items )]: the interpreter raises [TypeError]
    when [kwargs] is not a mapping, names an unknown keyword, or leaves
    out [type] or [description]. *)
Definition call (kwargs : value) : result t :=
  match kwargs with
  | VDict d =>
      if forallb (fun kv => existsb (String.eqb (fst kv)) keywords) d
         && dict_has "type" d && dict_has "description" d
      then
        init (keyword "type" VNone d) (keyword "description" VNone d)
          (keyword "required" (VBool false) d)
          (keyword "minimum" VNone d) (keyword "maximum" VNone d)
          (keyword "pattern" VNone d) (keyword "enum_values" VNone d)
          (keyword "items" VNone d) (keyword "properties" VNone d)
      else Raise TypeError
  | _ => Raise TypeError
  end.

(** [self.type == ParameterType.X] *)
Definition type_is (self : t) (k : ParameterType) : bool :=
  py_eq (type self) (VType k).

(** [validate(self, value)] *)
Fixpoint validate (self : t) (v : value) {struct v} : result unit :=
  if is_None v then
    if truthy (required self)
    then Raise (ValidationError "Required parameter is missing")
    else Ok tt
  else if type_is self STRING then
    match v with
    | VStr s =>
        if truthy (pattern self) then
          matched <- re_match (pattern self) s ;;
          if negb matched
          then Raise (ValidationError
                        ("String does not match pattern: " ++
                         py_str (pattern self)))
          else Ok tt
        else Ok tt
    | _ => Raise (ValidationError ("Expected string, got " ++ type_repr v))
    end
  else if type_is self NUMBER then
    if negb (isinstance_int v || isinstance_float v)
    then Raise (ValidationError ("Expected number, got " ++ type_repr v))
    else
      below <- (if negb (is_None (minimum self))
                then py_lt v (minimum self) else Ok false) ;;
      if below
      then Raise (ValidationError
                    ("Value " ++ py_str v ++ " is less than minimum " ++
                     py_str (minimum self)))
      else
        above <- (if negb (is_None (maximum self))
                  then py_gt v (maximum self) else Ok false) ;;
        if above
        then Raise (ValidationError
                      ("Value " ++ py_str v ++
                       " is greater than maximum " ++
                       py_str (maximum self)))
        else Ok tt
  else if type_is self BOOLEAN then
    if negb (isinstance_bool v)
    then Raise (ValidationError ("Expected boolean, got " ++ type_repr v))
    else Ok tt
  else if type_is self ARRAY then
    match v with
    | VList elements =>
        if truthy (items self) then
          item_validator <- call (items self) ;;
          for_each (validate item_validator) elements
        else Ok tt
    | _ => Raise (ValidationError ("Expected array, got " ++ type_repr v))
    end
  else if type_is self OBJECT then
    match v with
    | VDict entries =>
        if truthy (properties self) then
          props <- py_items (properties self) ;;
          for_each
            (fun prop : string * value =>
               dict_with (fst prop)
                 (fun prop_value =>
                    prop_validator <- call (snd prop) ;;
                    validate prop_validator prop_value)
                 (Ok tt) entries)
            props
        else Ok tt
    | _ => Raise (ValidationError ("Expected object, got " ++ type_repr v))
    end
  else if type_is self ENUM then
    if is_None (enum_values self)
    then Raise (ValidationError "Enum values not specified in schema")
    else
      member <- py_in v (enum_values self) ;;
      if negb member
      then Raise (ValidationError
                    ("Value " ++ py_str v ++ " not in enum values: " ++
                     py_str (enum_values self)))
      else Ok tt
  else Ok tt.

End ParameterSchema.

Module FunctionSchema.

Record t : Type := mk {
  name : value;
  description : value;
  parameters : dict ParameterSchema.t;
  required : value
}.

(** The dictionary comprehension of [__init__]: one [ParameterSchema]
    per entry, in order, stopping at the first that cannot be built. *)
Fixpoint build_parameters (entries : dict value)
  : result (dict ParameterSchema.t) :=
  match entries with
  | [] => Ok []
  | (name, param_schema) :: rest =>
      p <- ParameterSchema.call param_schema ;;
      ps <- build_parameters rest ;;
      Ok ((name, p) :: ps)
  end.

(** [__init__(self, name, description, parameters, required=None)] *)
Definition init (name description parameters required : value)
  : result t :=
  entries <- py_items parameters ;;
  ps <- build_parameters entries ;;
  Ok (mk name description ps (py_or required (VList []))).

(** The first loop of [validate_parameters]. *)
Definition check_required (params : dict value) (param_name : value)
  : result unit :=
  present <- key_in param_name params ;;
  if negb present
  then Raise (ValidationError
                ("Required parameter '" ++ py_str param_name ++
                 "' is missing"))
  else Ok tt.

(** The body of the second loop of [validate_parameters]. *)
Definition check_provided (self : t) (item : string * value)
  : result unit :=
  let '(param_name, param_value) := item in
  if negb (dict_has param_name (parameters self))
  then Raise (ValidationError ("Unknown parameter: " ++ param_name))
  else
    schema <- dict_getitem param_name (parameters self) ;;
    match ParameterSchema.validate schema param_value with
    | Raise (ValidationError e) =>
        Raise (ValidationError
                 ("Invalid value for parameter '" ++ param_name ++
                  "': " ++ e))
    | other => other
    end.

(** [validate_parameters(self, params)] *)
Definition validate_parameters (self : t) (params : dict value)
  : result unit :=
  names <- py_iter (required self) ;;
  for_each (check_required params) names ;;;
  for_each (check_provided self) params.

End FunctionSchema.

Module FunctionValidator.

Definition check_field (schema : dict value) (field : string)
  : result unit :=
  if negb (dict_has field schema)
  then Raise (ValidationError
                ("Missing required field in function definition: " ++
                 field))
  else Ok tt.

Definition check_parameter (item : string * value) : result unit :=
  let '(param_name, param_schema) := item in
  has_type <- py_in (VStr "type") param_schema ;;
  if negb has_type
  then Raise (ValidationError
                ("Parameter '" ++ param_name ++ "' missing type"))
  else
    has_description <- py_in (VStr "description") param_schema ;;
    if negb has_description
    then Raise (ValidationError
                  ("Parameter '" ++ param_name ++ "' missing description"))
    else
      declared <- py_getitem param_schema "type" ;;
      match ParameterType_call declared with
      | Ok _ => Ok tt
      | Raise (ValueError _) =>
          Raise (ValidationError
                   ("Invalid parameter type for '" ++ param_name ++
                    "': " ++ py_str declared))
      | Raise e => Raise e
      end.

(** [validate_function_definition(schema)] *)
Definition validate_function_definition (schema : dict value)
  : result unit :=
  for_each (check_field schema) ["name"; "description"; "parameters"] ;;;
  parameters <- dict_getitem "parameters" schema ;;
  if negb (isinstance_dict parameters)
  then Raise (ValidationError "Parameters must be an object")
  else
    entries <- py_items parameters ;;
    for_each check_parameter entries.

Definition infer_type (param_name : string) (param_value : value)
  : result ParameterType :=
  if isinstance_str param_value then Ok STRING
  else if isinstance_bool param_value then Ok BOOLEAN
  else if isinstance_int param_value || isinstance_float param_value
  then Ok NUMBER
  else if isinstance_list param_value then Ok ARRAY
  else if isinstance_dict param_value then Ok OBJECT
  else Raise (ValidationError
                ("Unsupported parameter type for '" ++ param_name ++
                 "': " ++ type_repr param_value)).

Fixpoint infer_entries (schema : dict value) (entries : dict value)
  : result (dict value) :=
  match entries with
  | [] => Ok schema
  | (param_name, param_value) :: rest =>
      param_type <- infer_type param_name param_value ;;
      infer_entries
        (dict_set param_name
           (VDict [("type", VStr (ParameterType_value param_type));
                   ("description", VStr ("Parameter: " ++ param_name))])
           schema)
        rest
  end.

(** [create_schema_from_parameters(params)] *)
Definition create_schema_from_parameters (params : dict value)
  : result (dict value) :=
  infer_entries [] params.

End FunctionValidator.

(* ------------------------------------------------------------------ *)
(** ** function_calling.py *)

(** What the module hands to [logger]. *)
Inductive log_level : Type := INFO | WARNING | ERROR.

Record log_record : Type := { level : log_level; message : string }.

Definition log (l : log_level) (m : string) : log_record :=
  {| level := l; message := m |}.

(** An exception raised by a registered callable is known by its class
    name, its [str] and whether it is an instance of [Exception], the
    class the retry loop catches. *)
Record pyexc : Type := {
  exc_class : string;
  exc_str : string;
  exc_is_Exception : bool
}.

Inductive outcome : Type :=
| Returned (v : value)
| Raised (e : pyexc).

(** What is registered as a callable is opaque to the registry and the
    dispatcher, and nothing checks that it is a function: it is any
    object.  The dispatcher does two things with it.  It tests its truth
    value ([if not function]): a function is true, but [None] and an
    object whose [__bool__] or [__len__] says so are false.  And it calls
    it with keyword arguments.  The object may keep state between calls
    (a mock counting its calls, a database): a call maps the state of its
    world and the arguments to what the call does, return a value or
    raise an exception, and the next state; the truth value is read off
    the state. *)
Record Callable (W : Type) : Type := {
  truth : W -> bool;
  invoke :> W -> dict value -> outcome * W
}.
Arguments truth {W} _ _.
Arguments invoke {W} _ _ _.

Module FunctionRegistry.
Section Registry.
Context {W : Type}.

Record t : Type := mk {
  _functions : dict (Callable W);
  _schemas : dict FunctionSchema.t
}.

(** [__init__(self)] *)
Definition init : t := mk [] [].

(** The body both [register] and [update_function] run under [try]. *)
Definition build_schema (schema : dict value) : result FunctionSchema.t :=
  FunctionValidator.validate_function_definition schema ;;;
  name <- dict_getitem "name" schema ;;
  description <- dict_getitem "description" schema ;;
  parameters <- dict_getitem "parameters" schema ;;
  FunctionSchema.init name description parameters
    (match dict_get "required" schema with
     | Some r => r
     | None => VList []
     end).

(** [register(self, name, func, schema)] *)
Definition register (name : string) (func : Callable W)
    (schema : dict value) (self : t)
  : result unit * t * list log_record :=
  if dict_has name (_functions self) then
    (Raise (ValidationError
              ("Function '" ++ name ++ "' is already registered")),
     self, [])
  else
    match build_schema schema with
    | Ok function_schema =>
        (Ok tt,
         mk (dict_set name func (_functions self))
            (dict_set name function_schema (_schemas self)),
         [log INFO ("Successfully registered function: " ++ name)])
    | Raise (ValidationError e) =>
        (Raise (ValidationError e), self,
         [log ERROR ("Failed to register function " ++ name ++ ": " ++ e)])
    | Raise e => (Raise e, self, [])
    end.

(** [unregister(self, name)] *)
Definition unregister (name : string) (self : t)
  : result unit * t * list log_record :=
  if negb (dict_has name (_functions self)) then
    (Raise (ValueError ("Function " ++ name ++ " not found in registry")),
     self, [])
  else
    let functions := dict_del name (_functions self) in
    if dict_has name (_schemas self) then
      (Ok tt, mk functions (dict_del name (_schemas self)),
       [log INFO ("Successfully unregistered function: " ++ name)])
    else (Raise (KeyError name), mk functions (_schemas self), []).

(** [update_function(self, name, new_func, new_schema)] *)
Definition update_function (name : string) (new_func : Callable W)
    (new_schema : dict value) (self : t)
  : result unit * t * list log_record :=
  if negb (dict_has name (_functions self)) then
    (Raise (ValueError ("Function " ++ name ++ " not found in registry")),
     self, [])
  else
    match build_schema new_schema with
    | Ok function_schema =>
        (Ok tt,
         mk (dict_set name new_func (_functions self))
            (dict_set name function_schema (_schemas self)),
         [log INFO ("Successfully updated function: " ++ name)])
    | Raise (ValidationError e) =>
        (Raise (ValidationError e), self,
         [log ERROR ("Failed to update function " ++ name ++ ": " ++ e)])
    | Raise e => (Raise e, self, [])
    end.

(** [get_function(self, name)]; [None] is Python's [None]. *)
Definition get_function (name : string) (self : t) : option (Callable W) :=
  dict_get name (_functions self).

(** [get_schema(self, name)] *)
Definition get_schema (name : string) (self : t)
  : option FunctionSchema.t :=
  dict_get name (_schemas self).

(** [list_functions(self)] *)
Definition list_functions (self : t) : list (dict value) :=
  map (fun entry : string * FunctionSchema.t =>
         [("name", VStr (fst entry));
          ("description", FunctionSchema.description (snd entry))])
    (_schemas self).

End Registry.
Arguments t W : clear implicits.
End FunctionRegistry.

Module GemmaFunctionCaller.
Section Caller.
Context {W : Type}.

(** The dispatcher holds a reference to a registry object, which other
    code may hold too, and its cached prompt. *)
Record t : Type := mk {
  registry : FunctionRegistry.t W;
  _system_prompt : string
}.

Definition nl : string := String newline "".

Definition prompt_line (prompt : string) (func : dict value)
  : result string :=
  name <- dict_getitem "name" func ;;
  description <- dict_getitem "description" func ;;
  Ok (prompt ++ "- " ++ py_str name ++ ": " ++ py_str description ++ nl).

Fixpoint prompt_lines (prompt : string) (functions : list (dict value))
  : result string :=
  match functions with
  | [] => Ok prompt
  | func :: rest =>
      prompt' <- prompt_line prompt func ;;
      prompt_lines prompt' rest
  end.

(** [_build_system_prompt(self)], a function of the registry alone. *)
Definition _build_system_prompt (reg : FunctionRegistry.t W)
  : result string :=
  let functions := FunctionRegistry.list_functions reg in
  match functions with
  | [] => Ok "No functions are currently available."
  | _ => prompt_lines ("Available functions:" ++ nl ++ nl) functions
  end.

(** [__init__(self, registry)] *)
Definition init (reg : FunctionRegistry.t W) : result t :=
  prompt <- _build_system_prompt reg ;;
  Ok (mk reg prompt).

(** [update_system_prompt(self)] *)
Definition update_system_prompt (self : t) : result unit * t :=
  match _build_system_prompt (registry self) with
  | Ok prompt => (Ok tt, mk (registry self) prompt)
  | Raise e => (Raise e, self)
  end.

(** [get_system_prompt(self)] *)
Definition get_system_prompt (self : t) : string := _system_prompt self.

(** [str(last_error)] *)
Definition str_last_error (last_error : option pyexc) : string :=
  match last_error with
  | None => "None"
  | Some e => exc_str e
  end.

(** The [while retries < max_retries] loop and what follows it.
    [remaining] is [max_retries - retries], the number of rounds the
    loop condition still allows.  [except Exception] catches the
    instances of [Exception]; any other exception leaves the loop and
    the method as it is. *)
Fixpoint attempt (function : Callable W) (name : string)
    (parameters : dict value) (max_retries : Z) (remaining : nat)
    (retries : Z) (last_error : option pyexc) (w : W)
  : result value * W * list log_record :=
  match remaining with
  | O =>
      (Raise (RuntimeError
                ("Function execution failed: " ++
                 str_last_error last_error)),
       w,
       [log ERROR ("Function " ++ name ++ " failed after " ++
                   str_of_Z max_retries ++ " attempts")])
  | S remaining' =>
      match function w parameters with
      | (Returned result, w') =>
          (Ok result, w',
           [log INFO ("Successfully called function " ++ name)])
      | (Raised e, w') =>
          if exc_is_Exception e then
            let retries' := (retries + 1)%Z in
            let '(r, w'', logs) :=
              attempt function name parameters max_retries remaining'
                retries' (Some e) w' in
            (r, w'',
             log WARNING ("Attempt " ++ str_of_Z retries' ++
                          " failed for " ++ name ++ ": " ++ exc_str e)
             :: logs)
          else (Raise (BaseException (exc_class e) (exc_str e)), w', [])
      end
  end.

(** [call_function(self, name, parameters, max_retries=3)].
    [if not function] holds for [None], which [get_function] returns for
    a name without an entry, and for a registered object whose truth
    value is false.  A schema is an instance of [FunctionSchema], a class
    without [__bool__] or [__len__]: [if not schema] holds for [None]
    only. *)
Definition call_function (name : string) (parameters : dict value)
    (max_retries : Z) (self : t) (w : W)
  : result value * W * list log_record :=
  match FunctionRegistry.get_function name (registry self) with
  | None => (Raise (ValueError ("Function " ++ name ++ " not found")), w, [])
  | Some function =>
      if negb (truth function w) then
        (Raise (ValueError ("Function " ++ name ++ " not found")), w, [])
      else
        match FunctionRegistry.get_schema name (registry self) with
        | None =>
            (Raise (ValueError
                      ("Schema for function " ++ name ++ " not found")),
             w, [])
        | Some schema =>
            match FunctionSchema.validate_parameters schema parameters with
            | Raise (ValidationError e) =>
                (Raise (ValidationError e), w,
                 [log ERROR ("Parameter validation failed for " ++ name ++
                             ": " ++ e)])
            | Raise e => (Raise e, w, [])
            | Ok _ =>
                attempt function name parameters max_retries
                  (Z.to_nat max_retries) 0%Z None w
            end
        end
  end.

(** A registry method called through the dispatcher, followed by
    [self.update_system_prompt()] unless the method raised. *)
Definition then_update (self : t)
    (step : result unit * FunctionRegistry.t W * list log_record)
  : result unit * t * list log_record :=
  let '(r, reg, logs) := step in
  let self' := mk reg (_system_prompt self) in
  match r with
  | Raise e => (Raise e, self', logs)
  | Ok _ =>
      let '(r', self'') := update_system_prompt self' in
      (r', self'', logs)
  end.

(** [register_function(self, name, func, schema)] *)
Definition register_function (name : string) (func : Callable W)
    (schema : dict value) (self : t) : result unit * t * list log_record :=
  then_update self
    (FunctionRegistry.register name func schema (registry self)).

(** [unregister_function(self, name)] *)
Definition unregister_function (name : string) (self : t)
  : result unit * t * list log_record :=
  then_update self (FunctionRegistry.unregister name (registry self)).

(** [update_function(self, name, new_func, new_schema)] *)
Definition update_function (name : string) (new_func : Callable W)
    (new_schema : dict value) (self : t)
  : result unit * t * list log_record :=
  then_update self
    (FunctionRegistry.update_function name new_func new_schema
       (registry self)).

End Caller.
Arguments t W : clear implicits.
End GemmaFunctionCaller.

(* ------------------------------------------------------------------ *)
(** ** Vocabulary of the properties *)

(** *** Registry histories *)

Module RegistryOps.
Section Ops.
Context {W : Type}.

(** One call of a [FunctionRegistry] method. *)
Inductive op : Type :=
| Register (name : string) (func : Callable W) (schema : dict value)
| Unregister (name : string)
| UpdateFunction (name : string) (func : Callable W) (schema : dict value)
| GetFunction (name : string)
| GetSchema (name : string)
| ListFunctions.

(** The registry after the call, whether it returned or raised. *)
Definition run (o : op) (self : FunctionRegistry.t W)
  : FunctionRegistry.t W :=
  match o with
  | Register name func schema =>
      snd (fst (FunctionRegistry.register name func schema self))
  | Unregister name => snd (fst (FunctionRegistry.unregister name self))
  | UpdateFunction name func schema =>
      snd (fst (FunctionRegistry.update_function name func schema self))
  | GetFunction _ | GetSchema _ | ListFunctions => self
  end.

Definition run_all (ops : list op) (self : FunctionRegistry.t W)
  : FunctionRegistry.t W :=
  fold_left (fun r o => run o r) ops self.

(** The two maps hold the same names, each once. *)
Definition paired (self : FunctionRegistry.t W) : Prop :=
  dict_keys (FunctionRegistry._functions self) =
  dict_keys (FunctionRegistry._schemas self)
  /\ NoDup (dict_keys (FunctionRegistry._functions self)).
End Ops.
Arguments op W : clear implicits.
End RegistryOps.

(** *** Dispatcher calls and the listing *)

Module DispatcherCalls.
Section Calls.
Context {W : Type}.

(** One call of a registration entry point of the dispatcher. *)
Inductive call : Type :=
| RegisterFunction (name : string) (func : Callable W)
    (schema : dict value)
| UnregisterFunction (name : string)
| UpdateFunction (name : string) (func : Callable W)
    (schema : dict value).

Definition run (c : call) (self : GemmaFunctionCaller.t W)
  : result unit * GemmaFunctionCaller.t W * list log_record :=
  match c with
  | RegisterFunction name func schema =>
      GemmaFunctionCaller.register_function name func schema self
  | UnregisterFunction name =>
      GemmaFunctionCaller.unregister_function name self
  | UpdateFunction name func schema =>
      GemmaFunctionCaller.update_function name func schema self
  end.

(** The registry changed behind the dispatcher's back: the dispatcher
    and the other code hold the same registry object. *)
Definition out_of_band (o : RegistryOps.op W)
    (self : GemmaFunctionCaller.t W) : GemmaFunctionCaller.t W :=
  GemmaFunctionCaller.mk
    (RegistryOps.run o (GemmaFunctionCaller.registry self))
    (GemmaFunctionCaller._system_prompt self).

(** The listing as the specification words it: the sentinel, or a
    header and one line per registered function. *)
Definition listing_line (entry : string * FunctionSchema.t) : string :=
  "- " ++ fst entry ++ ": " ++
  py_str (FunctionSchema.description (snd entry)) ++
  GemmaFunctionCaller.nl.

Definition listing (reg : FunctionRegistry.t W) : string :=
  match FunctionRegistry._schemas reg with
  | [] => "No functions are currently available."
  | entries =>
      "Available functions:" ++ GemmaFunctionCaller.nl ++
      GemmaFunctionCaller.nl ++
      String.concat "" (map listing_line entries)
  end.

Definition in_sync (self : GemmaFunctionCaller.t W) : Prop :=
  GemmaFunctionCaller.get_system_prompt self =
  listing (GemmaFunctionCaller.registry self).
End Calls.
Arguments call W : clear implicits.
End DispatcherCalls.

(** *** Invocations of a callable *)

Section Invocations.
Context {W : Type} (function : Callable W) (parameters : dict value).

(** The world after [n] invocations in a row. *)
Fixpoint world_after (n : nat) (w : W) : W :=
  match n with
  | O => w
  | S n' => world_after n' (snd (function w parameters))
  end.

(** What invocation number [n + 1] does. *)
Definition outcome_at (n : nat) (w : W) : outcome :=
  fst (function (world_after n w) parameters).

(** Invocation number [n + 1] raises an instance of [Exception]. *)
Definition fails_at (n : nat) (w : W) : Prop :=
  exists e, outcome_at n w = Raised e /\ exc_is_Exception e = true.

(** The warning logged when attempt number [n + 1] fails. *)
Definition warning_at (name : string) (w : W) (n : nat) : log_record :=
  log WARNING
    ("Attempt " ++ str_of_Z (Z.of_nat n + 1) ++ " failed for " ++ name ++
     ": " ++
     match outcome_at n w with
     | Raised e => exc_str e
     | Returned _ => ""
     end).

(** The warnings of the first [k] attempts, in order. *)
Definition warnings (name : string) (k : nat) (w : W) : list log_record :=
  map (warning_at name w) (seq 0 k).

(** The same warnings numbered from [retries + 1], for a loop that is
    entered with its counter at [retries]. *)
Definition warnings_from (name : string) (retries : Z) (k : nat) (w : W)
  : list log_record :=
  map (fun i =>
         log WARNING
           ("Attempt " ++ str_of_Z (retries + Z.of_nat i + 1) ++
            " failed for " ++ name ++ ": " ++
            match outcome_at i w with
            | Raised e => exc_str e
            | Returned _ => ""
            end))
    (seq 0 k).
End Invocations.

(** *** Fixtures, after the repository's tests *)

Module Fixtures.

(** The raw definition built by [create_test_function]. *)
Definition test_schema : dict value :=
  [("name", VStr "test_func");
   ("description", VStr "A test function");
   ("parameters",
    VDict
      [("name",
        VDict [("type", VStr "string");
               ("description", VStr "The name parameter")]);
       ("age",
        VDict [("type", VStr "number");
               ("description", VStr "The age parameter");
               ("minimum", VInt 0)])]);
   ("required", VList [VStr "name"])].

(** The [FunctionSchema] the registry builds from it. *)
Definition test_function_schema : FunctionSchema.t :=
  FunctionSchema.mk (VStr "test_func") (VStr "A test function")
    [("name",
      ParameterSchema.mk (VType STRING) (VStr "The name parameter")
        (VBool false) VNone VNone VNone VNone VNone VNone);
     ("age",
      ParameterSchema.mk (VType NUMBER) (VStr "The age parameter")
        (VBool false) (VInt 0) VNone VNone VNone VNone VNone)]
    (VList [VStr "name"]).

(** A schema of the given type with the given constraints, the other
    attributes at their defaults. *)
Definition schema_of (type : ParameterType) : ParameterSchema.t :=
  ParameterSchema.mk (VType type) (VStr "A parameter") (VBool false)
    VNone VNone VNone VNone VNone VNone.

Definition string_schema (pattern : string) : ParameterSchema.t :=
  ParameterSchema.mk (VType STRING) (VStr "A string parameter")
    (VBool false) VNone VNone (VStr pattern) VNone VNone VNone.

(** A string schema whose own [required] flag is set. *)
Definition required_string : ParameterSchema.t :=
  ParameterSchema.mk (VType STRING) (VStr "A required string")
    (VBool true) VNone VNone VNone VNone VNone VNone.

Definition number_schema (minimum : value) : ParameterSchema.t :=
  ParameterSchema.mk (VType NUMBER) (VStr "A number parameter")
    (VBool false) minimum VNone VNone VNone VNone VNone.

(** The number and enum schemas of [test_parameter_schema_validation]. *)
Definition percent_schema : ParameterSchema.t :=
  ParameterSchema.mk (VType NUMBER) (VStr "A number parameter")
    (VBool false) (VInt 0) (VInt 100) VNone VNone VNone VNone.

Definition enum_schema : ParameterSchema.t :=
  ParameterSchema.mk (VType ENUM) (VStr "An enum parameter") (VBool false)
    VNone VNone VNone (VList [VStr "red"; VStr "green"; VStr "blue"])
    VNone VNone.

Definition array_of_strings : ParameterSchema.t :=
  ParameterSchema.mk (VType ARRAY) (VStr "An array parameter")
    (VBool false) VNone VNone VNone VNone
    (VDict [("type", VStr "string"); ("description", VStr "Array item")])
    VNone.

Definition object_with_name : ParameterSchema.t :=
  ParameterSchema.mk (VType OBJECT) (VStr "An object parameter")
    (VBool false) VNone VNone VNone VNone VNone
    (VDict [("name",
             VDict [("type", VStr "string");
                    ("description", VStr "Name field")])]).

(** A callable that counts its calls in the world, raises [ValueError]
    on the first [failures] of them and returns ["success"] afterwards,
    like the [Mock] of [test_function_retry_logic]. *)
Definition flaky (failures : nat) : Callable nat :=
  {| truth := fun _ => true;
     invoke := fun calls _ =>
       (if Nat.ltb calls failures
        then Raised {| exc_class := "ValueError"; exc_str := "";
                       exc_is_Exception := true |}
        else Returned (VStr "success"),
        S calls) |}.

(** An instance of [ValueError] with a message. *)
Definition value_error (msg : string) : pyexc :=
  {| exc_class := "ValueError"; exc_str := msg; exc_is_Exception := true |}.

(** [KeyboardInterrupt()], which is not an instance of [Exception]. *)
Definition keyboard_interrupt : pyexc :=
  {| exc_class := "KeyboardInterrupt"; exc_str := "";
     exc_is_Exception := false |}.

(** A callable that counts its calls and goes through a list of
    outcomes, one per call, like a [Mock] whose [side_effect] is a list;
    past the end of the list the mock raises [StopIteration]. *)
Definition scripted (side_effect : list outcome) : Callable nat :=
  {| truth := fun _ => true;
     invoke := fun calls _ =>
       (nth calls side_effect
          (Raised {| exc_class := "StopIteration"; exc_str := "";
                     exc_is_Exception := true |}),
        S calls) |}.

(** [None] registered in the place of a callable: false as a truth
    value, and calling it is a [TypeError]. *)
Definition none_object : Callable nat :=
  {| truth := fun _ => false;
     invoke := fun calls _ =>
       (Raised {| exc_class := "TypeError";
                  exc_str := "'NoneType' object is not callable";
                  exc_is_Exception := true |},
        calls) |}.

Definition retry_schema : dict value :=
  [("name", VStr "retry_func");
   ("description", VStr "A function to test retry logic");
   ("parameters", VDict [])].

Definition empty_caller : GemmaFunctionCaller.t nat :=
  GemmaFunctionCaller.mk FunctionRegistry.init
    "No functions are currently available.".

(** The dispatcher after [register_function("retry_func", ...)]. *)
Definition retry_caller (failures : nat) : GemmaFunctionCaller.t nat :=
  snd (fst (GemmaFunctionCaller.register_function "retry_func"
              (flaky failures) retry_schema empty_caller)).

(** The dispatcher after [register_function("retry_func", func, ...)]
    for any object [func]. *)
Definition caller_of (func : Callable nat) : GemmaFunctionCaller.t nat :=
  snd (fst (GemmaFunctionCaller.register_function "retry_func" func
              retry_schema empty_caller)).

(** The dispatcher after [register_function("test_func", ...)]. *)
Definition test_caller : GemmaFunctionCaller.t nat :=
  snd (fst (GemmaFunctionCaller.register_function "test_func"
              (flaky 0) test_schema empty_caller)).

(** A function ["f"] with description ["d"]. *)
Definition f_schema : dict value :=
  [("name", VStr "f"); ("description", VStr "d");
   ("parameters", VDict [])].

(** A dispatcher created on an empty registry, after which
    [registry.register("f", ...)] was called on the registry itself. *)
Definition stale_caller : GemmaFunctionCaller.t nat :=
  DispatcherCalls.out_of_band
    (RegistryOps.Register "f" (flaky 0) f_schema) empty_caller.

End Fixtures.

(** *** Validation *)

(** [isinstance(v, T)] for the Python type [T] a kind checks; the [Enum]
    kind checks none. *)
Definition has_runtime_type (k : ParameterType) (v : value) : bool :=
  match k with
  | STRING => isinstance_str v
  | NUMBER => isinstance_int v || isinstance_float v
  | BOOLEAN => isinstance_bool v
  | ARRAY => isinstance_list v
  | OBJECT => isinstance_dict v
  | ENUM => true
  end.

(** What a listed property of an object schema does with the entries of
    the value: the body of the loop over [self.properties.items()]. *)
Definition check_property (entries : dict value) (prop : string * value)
  : result unit :=
  dict_with (fst prop)
    (fun prop_value =>
       prop_validator <- ParameterSchema.call (snd prop) ;;
       ParameterSchema.validate prop_validator prop_value)
    (Ok tt) entries.

(** [validate_parameters] as the specification orders it, in three
    passes: all required names, then all keys, then all values. *)
Definition check_known (self : FunctionSchema.t) (item : string * value)
  : result unit :=
  if negb (dict_has (fst item) (FunctionSchema.parameters self))
  then Raise (ValidationError ("Unknown parameter: " ++ fst item))
  else Ok tt.

Definition check_value (self : FunctionSchema.t) (item : string * value)
  : result unit :=
  match dict_get (fst item) (FunctionSchema.parameters self) with
  | Some schema =>
      match ParameterSchema.validate schema (snd item) with
      | Raise (ValidationError e) =>
          Raise (ValidationError
                   ("Invalid value for parameter '" ++ fst item ++
                    "': " ++ e))
      | other => other
      end
  | None => Ok tt
  end.

Definition validate_parameters_in_three_passes (self : FunctionSchema.t)
    (params : dict value) : result unit :=
  names <- py_iter (FunctionSchema.required self) ;;
  for_each (FunctionSchema.check_required params) names ;;;
  for_each (check_known self) params ;;;
  for_each (check_value self) params.

(** *** Plain patterns: no character with a meaning of its own *)

Definition is_meta (c : ascii) : bool :=
  Ascii.eqb c "(" || Ascii.eqb c ")" || Ascii.eqb c "[" || Ascii.eqb c "."
  || Ascii.eqb c "^" || Ascii.eqb c "$" || Ascii.eqb c backslash
  || Ascii.eqb c "|" || Ascii.eqb c "*" || Ascii.eqb c "+"
  || Ascii.eqb c "?" || Ascii.eqb c "{".

Fixpoint plain (p : string) : bool :=
  match p with
  | "" => true
  | String c p' => negb (is_meta c) && plain p'
  end.

(** The expression a plain pattern stands for: its characters in a row. *)
Fixpoint literal (p : string) : regex :=
  match p with
  | "" => REmpty
  | String c p' => RSeq (RChar c) (literal p')
  end.

(** *** Histories of dispatcher calls *)

Definition dispatcher_run_all {W : Type}
    (calls : list (DispatcherCalls.call W)) (self : GemmaFunctionCaller.t W)
  : GemmaFunctionCaller.t W :=
  fold_left (fun d c => snd (fst (DispatcherCalls.run c d))) calls self.

(** *** Raw definitions *)

(** The example values [create_schema_from_parameters] has a kind for. *)
Definition inferable (v : value) : bool :=
  match v with
  | VNone | VType _ => false
  | _ => true
  end.

(** The raw entry [create_schema_from_parameters] writes for a parameter
    of kind [t]. *)
Definition inferred_entry (param_name : string) (t : ParameterType) : value :=
  VDict [("type", VStr (ParameterType_value t));
         ("description", VStr ("Parameter: " ++ param_name))].

(** A raw parameter definition that is a dictionary with no other keys
    than the keyword arguments of [ParameterSchema.__init__]. *)
Definition uses_keywords (param_schema : value) : bool :=
  match param_schema with
  | VDict d =>
      forallb
        (fun kv => existsb (String.eqb (fst kv)) ParameterSchema.keywords) d
  | _ => false
  end.

(* ================================================================== *)
(** * Properties *)

(** ** Dictionaries *)

Section DictFacts.
Context {A : Type}.
Implicit Types (d : dict A) (k : string).

Lemma dict_has_In k d : dict_has k d = true <-> In k (dict_keys d).
Proof.
  unfold dict_has. induction d as [|[k' v] d IH]; simpl.
  - split; [discriminate | contradiction].
  - destruct (String.eqb_spec k k') as [->|Hne].
    + split; auto.
    + rewrite IH. split; [auto | intros [Heq|H]; congruence].
Qed.

Lemma dict_has_false_In k d : dict_has k d = false <-> ~ In k (dict_keys d).
Proof.
  rewrite <- dict_has_In. destruct (dict_has k d); split; congruence.
Qed.

Lemma dict_keys_set_present k v d :
  dict_has k d = true -> dict_keys (dict_set k v d) = dict_keys d.
Proof.
  unfold dict_has. induction d as [|[k' v'] d IH]; simpl.
  - discriminate.
  - destruct (String.eqb k k'); simpl; [reflexivity|].
    intros H. now rewrite IH.
Qed.

Lemma dict_keys_set_absent k v d :
  dict_has k d = false -> dict_keys (dict_set k v d) = (dict_keys d ++ [k])%list.
Proof.
  unfold dict_has. induction d as [|[k' v'] d IH]; simpl.
  - reflexivity.
  - destruct (String.eqb k k'); simpl; [discriminate|].
    intros H. now rewrite IH.
Qed.

Lemma dict_get_set_same k v d : dict_get k (dict_set k v d) = Some v.
Proof.
  induction d as [|[k' v'] d IH]; simpl.
  - now rewrite String.eqb_refl.
  - destruct (String.eqb k k') eqn:E; simpl; rewrite E; auto.
Qed.

Lemma dict_get_set_other k k' v d :
  k <> k' -> dict_get k' (dict_set k v d) = dict_get k' d.
Proof.
  intros Hne. induction d as [|[k0 v0] d IH]; simpl.
  - destruct (String.eqb_spec k' k); congruence.
  - destruct (String.eqb_spec k k0) as [->|Hk]; simpl.
    + destruct (String.eqb_spec k' k0); congruence.
    + now rewrite IH.
Qed.
End DictFacts.

(** Two dictionaries with the same key list keep the same key list under
    the same assignment or deletion. *)
Section DictPairs.
Context {A B : Type}.
Implicit Types (d : dict A) (e : dict B).

Lemma same_keys_has k d e :
  dict_keys d = dict_keys e -> dict_has k d = dict_has k e.
Proof.
  intros H. destruct (dict_has k e) eqn:E.
  - apply dict_has_In. rewrite H. now apply dict_has_In.
  - apply dict_has_false_In. rewrite H. now apply dict_has_false_In.
Qed.

Lemma same_keys_set k (v : A) (u : B) d e :
  dict_keys d = dict_keys e ->
  dict_keys (dict_set k v d) = dict_keys (dict_set k u e).
Proof.
  intros H. destruct (dict_has k d) eqn:E.
  - rewrite !dict_keys_set_present; auto.
    now rewrite <- (same_keys_has k d e).
  - rewrite !dict_keys_set_absent; try congruence.
    now rewrite <- (same_keys_has k d e).
Qed.

Lemma same_keys_del k d e :
  dict_keys d = dict_keys e ->
  dict_keys (dict_del k d) = dict_keys (dict_del k e).
Proof.
  revert e. induction d as [|[k0 v0] d IH]; intros [|[k1 v1] e] H;
    simpl in *; try discriminate; auto.
  injection H as -> H.
  destruct (String.eqb k k1); simpl; [assumption|].
  f_equal. now apply IH.
Qed.
End DictPairs.

Lemma NoDup_dict_set {A : Type} k (v : A) (d : dict A) :
  NoDup (dict_keys d) -> NoDup (dict_keys (dict_set k v d)).
Proof.
  intros H. destruct (dict_has k d) eqn:E.
  - now rewrite dict_keys_set_present.
  - rewrite dict_keys_set_absent by assumption.
    apply NoDup_app; [assumption | repeat constructor; auto |].
    intros x Hx [<-|[]]. now apply dict_has_false_In in E.
Qed.

Lemma dict_keys_del_incl {A : Type} k (d : dict A) x :
  In x (dict_keys (dict_del k d)) -> In x (dict_keys d).
Proof.
  induction d as [|[k0 v0] d IH]; simpl; auto.
  destruct (String.eqb k k0); simpl; intuition.
Qed.

Lemma NoDup_dict_del {A : Type} k (d : dict A) :
  NoDup (dict_keys d) -> NoDup (dict_keys (dict_del k d)).
Proof.
  induction d as [|[k0 v0] d IH]; simpl; auto.
  intros H. inversion H as [|? ? Hnotin Hd]; subst.
  destruct (String.eqb k k0); simpl; auto.
  constructor; auto.
  intros Hin. apply Hnotin. eapply dict_keys_del_incl; eauto.
Qed.

(* ------------------------------------------------------------------ *)
(** ** The registry *)

Section RegistryFacts.
Context {W : Type}.
Import FunctionRegistry RegistryOps.
Implicit Types (self : FunctionRegistry.t W).

(** What [register] does, by cases. *)
Lemma register_outcome name (func : Callable W) schema self :
  let '(r, self', _) := register name func schema self in
  (exists e, r = Raise e /\ self' = self)
  \/ (exists fs, r = Ok tt
      /\ dict_has name (_functions self) = false
      /\ build_schema schema = Ok fs
      /\ self' = mk (dict_set name func (_functions self))
                    (dict_set name fs (_schemas self))).
Proof.
  unfold register.
  destruct (dict_has name (_functions self)) eqn:Hhas.
  - left. eauto.
  - destruct (build_schema schema) as [fs|[]] eqn:Hb;
      solve [left; eauto | right; eauto].
Qed.

Lemma update_function_outcome name (func : Callable W) schema self :
  let '(r, self', _) := update_function name func schema self in
  (exists e, r = Raise e /\ self' = self)
  \/ (exists fs, r = Ok tt
      /\ dict_has name (_functions self) = true
      /\ build_schema schema = Ok fs
      /\ self' = mk (dict_set name func (_functions self))
                    (dict_set name fs (_schemas self))).
Proof.
  unfold update_function.
  destruct (dict_has name (_functions self)) eqn:Hhas; simpl.
  - destruct (build_schema schema) as [fs|[]] eqn:Hb;
      solve [left; eauto | right; eauto].
  - left. eauto.
Qed.

Lemma register_raise_unchanged name (func : Callable W) schema self e :
  fst (fst (register name func schema self)) = Raise e ->
  snd (fst (register name func schema self)) = self.
Proof.
  pose proof (register_outcome name func schema self) as H.
  destruct (register name func schema self) as [[r self'] logs]; simpl.
  destruct H as [(e' & _ & ->)|(fs & -> & _)]; [auto | discriminate].
Qed.

Lemma update_function_raise_unchanged name (func : Callable W) schema
    self e :
  fst (fst (update_function name func schema self)) = Raise e ->
  snd (fst (update_function name func schema self)) = self.
Proof.
  pose proof (update_function_outcome name func schema self) as H.
  destruct (update_function name func schema self) as [[r self'] logs];
    simpl.
  destruct H as [(e' & _ & ->)|(fs & -> & _)]; [auto | discriminate].
Qed.

Lemma paired_init : paired (W:=W) init.
Proof. split; [reflexivity | constructor]. Qed.

Lemma paired_set name (func : Callable W) fs self :
  paired self ->
  paired (mk (dict_set name func (_functions self))
             (dict_set name fs (_schemas self))).
Proof.
  intros [Hk Hn]. split; simpl.
  - now apply same_keys_set.
  - now apply NoDup_dict_set.
Qed.

(** Every method keeps the two maps paired, whether it returns or
    raises. *)
Lemma paired_run (o : op W) self : paired self -> paired (run o self).
Proof.
  intros Hp. destruct o as [name func schema|name|name func schema| | |];
    simpl; auto.
  - pose proof (register_outcome name func schema self) as H.
    destruct (register name func schema self) as [[r self'] logs]; simpl.
    destruct H as [(e & _ & ->)|(fs & _ & _ & _ & ->)]; auto.
    now apply paired_set.
  - unfold unregister.
    destruct (dict_has name (_functions self)) eqn:Hhas; simpl; auto.
    destruct Hp as [Hk Hn].
    rewrite <- (same_keys_has name _ _ Hk), Hhas. simpl. split; simpl.
    + now apply same_keys_del.
    + now apply NoDup_dict_del.
  - pose proof (update_function_outcome name func schema self) as H.
    destruct (update_function name func schema self) as [[r self'] logs];
      simpl.
    destruct H as [(e & _ & ->)|(fs & _ & _ & _ & ->)]; auto.
    now apply paired_set.
Qed.

Lemma paired_run_all (ops : list (op W)) self :
  paired self -> paired (run_all ops self).
Proof.
  unfold run_all. revert self.
  induction ops as [|o ops IH]; simpl; intros self Hp; auto.
  apply IH. now apply paired_run.
Qed.

(** C6. Along every history of registry calls (register, unregister,
    update_function, get_function, get_schema, list_functions, each
    returning or raising) from a fresh registry, the callable map and
    the schema map hold the same names, each name once: a lookup finds
    a callable exactly when it finds a schema. *)
Theorem C6_registry_maps_stay_paired (ops : list (op W)) :
  let r := run_all ops init in
  dict_keys (_functions r) = dict_keys (_schemas r)
  /\ NoDup (dict_keys (_functions r))
  /\ NoDup (dict_keys (_schemas r))
  /\ forall name, get_function name r = None <-> get_schema name r = None.
Proof.
  intros r.
  destruct (paired_run_all ops init paired_init) as [Hk Hn].
  fold r in Hk, Hn.
  repeat split; auto.
  - now rewrite <- Hk.
  - unfold get_function, get_schema. intros H.
    pose proof (same_keys_has name _ _ Hk) as Hh. unfold dict_has in Hh.
    rewrite H in Hh. now destruct (dict_get name (_schemas r)).
  - unfold get_function, get_schema. intros H.
    pose proof (same_keys_has name _ _ Hk) as Hh. unfold dict_has in Hh.
    rewrite H in Hh. now destruct (dict_get name (_functions r)).
Qed.

(** C7. A registry call that fails leaves the registry as it was:
    [register] on a name already present raises without touching the
    entry, whatever callable is offered; [update_function] on an absent
    name raises without creating it; and whenever [register] or
    [update_function] raises, in particular because the raw definition
    does not validate, the registry afterwards is the registry before. *)
Theorem C7_registry_failures_keep_state
    (name : string) (func : Callable W) (schema : dict value) self :
  (dict_has name (_functions self) = true ->
   register name func schema self =
     (Raise (ValidationError
               ("Function '" ++ name ++ "' is already registered")),
      self, []))
  /\ (dict_has name (_functions self) = false ->
      update_function name func schema self =
        (Raise (ValueError
                  ("Function " ++ name ++ " not found in registry")),
         self, []))
  /\ (forall e, fst (fst (register name func schema self)) = Raise e ->
                snd (fst (register name func schema self)) = self)
  /\ (forall e,
        fst (fst (update_function name func schema self)) = Raise e ->
        snd (fst (update_function name func schema self)) = self)
  /\ (forall e,
        FunctionValidator.validate_function_definition schema = Raise e ->
        (exists e', fst (fst (register name func schema self)) = Raise e')
        /\ (exists e',
              fst (fst (update_function name func schema self)) = Raise e')
        /\ snd (fst (register name func schema self)) = self
        /\ snd (fst (update_function name func schema self)) = self).
Proof.
  pose proof (register_raise_unchanged name func schema self) as Hreg.
  pose proof (update_function_raise_unchanged name func schema self)
    as Hupd.
  split; [|split; [|split; [|split]]]; auto.
  - intros H. unfold register. now rewrite H.
  - intros H. unfold update_function. now rewrite H.
  - intros e He.
    assert (Hb : build_schema schema = Raise e).
    { unfold build_schema. now rewrite He. }
    assert (Hr : exists e',
               fst (fst (register name func schema self)) = Raise e').
    { unfold register.
      destruct (dict_has name (_functions self)); simpl; [eauto|].
      rewrite Hb. destruct e; simpl; eauto. }
    assert (Hu : exists e',
               fst (fst (update_function name func schema self)) = Raise e').
    { unfold update_function.
      destruct (dict_has name (_functions self)); simpl; [|eauto].
      rewrite Hb. destruct e; simpl; eauto. }
    destruct Hr as [e1 Hr], Hu as [e2 Hu]. eauto 10.
Qed.
End RegistryFacts.

(* ------------------------------------------------------------------ *)
(** ** The dispatcher: capability listing *)

Lemma append_assoc (a b c : string) : (a ++ b) ++ c = a ++ (b ++ c).
Proof. induction a as [|x a IH]; simpl; [reflexivity | now rewrite IH]. Qed.

Lemma append_empty_r (a : string) : a ++ "" = a.
Proof. induction a as [|x a IH]; simpl; [reflexivity | now rewrite IH]. Qed.

Lemma concat_empty_cons (x : string) (xs : list string) :
  String.concat "" (x :: xs) = x ++ String.concat "" xs.
Proof. destruct xs; simpl; [now rewrite append_empty_r | reflexivity]. Qed.

Section ListingFacts.
Context {W : Type}.
Import GemmaFunctionCaller DispatcherCalls.
Implicit Types (self : GemmaFunctionCaller.t W).

Lemma prompt_lines_listing (entries : dict FunctionSchema.t) prompt :
  prompt_lines prompt
    (map (fun entry : string * FunctionSchema.t =>
            [("name", VStr (fst entry));
             ("description", FunctionSchema.description (snd entry))])
       entries)
  = Ok (prompt ++ String.concat "" (map listing_line entries)).
Proof.
  revert prompt. induction entries as [|[n s] entries IH]; intros prompt.
  - simpl. rewrite append_empty_r. reflexivity.
  - rewrite map_cons, (map_cons listing_line), concat_empty_cons.
    cbn [prompt_lines].
    change (prompt_line prompt _)
      with (Ok (A:=string) (prompt ++ listing_line (n, s))).
    cbn [bind]. rewrite IH, append_assoc. reflexivity.
Qed.

(** [_build_system_prompt] never raises and computes the listing. *)
Lemma build_system_prompt_listing (reg : FunctionRegistry.t W) :
  _build_system_prompt reg = Ok (listing reg).
Proof.
  unfold _build_system_prompt, listing, FunctionRegistry.list_functions.
  destruct (FunctionRegistry._schemas reg) as [|entry entries];
    [reflexivity|].
  etransitivity;
    [exact (prompt_lines_listing (entry :: entries)
              ("Available functions:" ++ nl ++ nl))|].
  rewrite !append_assoc. reflexivity.
Qed.

Lemma then_update_ok self reg logs :
  then_update self (Ok tt, reg, logs)
  = (Ok tt, mk reg (listing reg), logs).
Proof.
  unfold then_update, update_system_prompt. simpl.
  now rewrite build_system_prompt_listing.
Qed.

Lemma then_update_raise self e reg logs :
  then_update self (Raise e, reg, logs)
  = (Raise e, mk reg (_system_prompt self), logs).
Proof. reflexivity. Qed.

(** A registry method that raises leaves the schema map, and so the
    listing, as it was. *)
Lemma registry_failure_keeps_listing (o : RegistryOps.op W) reg :
  (forall name func schema e,
      o = RegistryOps.Register name func schema ->
      fst (fst (FunctionRegistry.register name func schema reg)) = Raise e ->
      listing (RegistryOps.run o reg) = listing reg)
  /\ (forall name e,
        o = RegistryOps.Unregister name ->
        fst (fst (FunctionRegistry.unregister name reg)) = Raise e ->
        listing (RegistryOps.run o reg) = listing reg)
  /\ (forall name func schema e,
        o = RegistryOps.UpdateFunction name func schema ->
        fst (fst (FunctionRegistry.update_function name func schema reg))
        = Raise e ->
        listing (RegistryOps.run o reg) = listing reg).
Proof.
  repeat split.
  - intros name func schema e -> H. simpl.
    now rewrite (register_raise_unchanged name func schema reg e H).
  - intros name e -> H. simpl. revert H.
    unfold FunctionRegistry.unregister.
    destruct (dict_has name (FunctionRegistry._functions reg)); simpl;
      [|reflexivity].
    destruct (dict_has name (FunctionRegistry._schemas reg)); simpl;
      [discriminate | reflexivity].
  - intros name func schema e -> H. simpl.
    now rewrite (update_function_raise_unchanged name func schema reg e H).
Qed.
End ListingFacts.

Section DispatcherFacts.
Context {W : Type}.
Import GemmaFunctionCaller DispatcherCalls.
Implicit Types (self : GemmaFunctionCaller.t W).

Lemma run_success (c : call W) self :
  fst (fst (run c self)) = Ok tt -> in_sync (snd (fst (run c self))).
Proof.
  unfold in_sync, get_system_prompt.
  destruct c as [name func schema|name|name func schema]; simpl;
    unfold register_function, unregister_function, update_function.
  - destruct (FunctionRegistry.register name func schema (registry self))
      as [[[[]|e] reg] logs].
    + now rewrite then_update_ok.
    + rewrite then_update_raise. discriminate.
  - destruct (FunctionRegistry.unregister name (registry self))
      as [[[[]|e] reg] logs].
    + now rewrite then_update_ok.
    + rewrite then_update_raise. discriminate.
  - destruct (FunctionRegistry.update_function name func schema
                (registry self)) as [[[[]|e] reg] logs].
    + now rewrite then_update_ok.
    + rewrite then_update_raise. discriminate.
Qed.

Lemma run_failure (c : call W) self e :
  fst (fst (run c self)) = Raise e ->
  get_system_prompt (snd (fst (run c self))) = get_system_prompt self
  /\ listing (registry (snd (fst (run c self)))) = listing (registry self).
Proof.
  destruct c as [name func schema|name|name func schema]; simpl;
    unfold register_function, unregister_function, update_function.
  - pose proof (proj1 (registry_failure_keeps_listing
                         (RegistryOps.Register name func schema)
                         (registry self)) name func schema) as K.
    simpl in K. revert K.
    destruct (FunctionRegistry.register name func schema (registry self))
      as [[[[]|e'] reg] logs].
    + rewrite then_update_ok. discriminate.
    + rewrite then_update_raise. simpl. intros K _. split; eauto.
  - pose proof (proj1 (proj2 (registry_failure_keeps_listing
                                (RegistryOps.Unregister name)
                                (registry self))) name) as K.
    simpl in K. revert K.
    destruct (FunctionRegistry.unregister name (registry self))
      as [[[[]|e'] reg] logs].
    + rewrite then_update_ok. discriminate.
    + rewrite then_update_raise. simpl. intros K _. split; eauto.
  - pose proof (proj2 (proj2 (registry_failure_keeps_listing
                                (RegistryOps.UpdateFunction name func schema)
                                (registry self))) name func schema) as K.
    simpl in K. revert K.
    destruct (FunctionRegistry.update_function name func schema
                (registry self)) as [[[[]|e'] reg] logs].
    + rewrite then_update_ok. discriminate.
    + rewrite then_update_raise. simpl. intros K _. split; eauto.
Qed.

(** C8. The listing is the sentinel text when no function is
    registered and otherwise the header followed by one
    [- name: description] line per function in [list_functions()]
    order; a dispatcher is created with it.  [register_function],
    [unregister_function] and [update_function] recompute it after the
    registry method has returned: after a call that returns,
    [get_system_prompt] is the listing of the registry.  A call that
    raises changes neither the prompt nor what the registry lists.  So
    after any of these calls, returning or raising, on a dispatcher
    whose prompt was the listing of its registry, [get_system_prompt]
    is again the listing of the registry as it is then. *)
Theorem C8_listing_follows_dispatcher_calls (c : call W) self :
  (forall reg : FunctionRegistry.t W,
      _build_system_prompt reg = Ok (listing reg))
  /\ (forall reg : FunctionRegistry.t W,
        init reg = Ok (mk reg (listing reg)))
  /\ (fst (fst (run c self)) = Ok tt -> in_sync (snd (fst (run c self))))
  /\ (forall e,
        fst (fst (run c self)) = Raise e ->
        get_system_prompt (snd (fst (run c self))) = get_system_prompt self
        /\ listing (registry (snd (fst (run c self))))
           = listing (registry self))
  /\ (in_sync self -> in_sync (snd (fst (run c self)))).
Proof.
  split; [|split; [|split; [|split]]].
  - apply build_system_prompt_listing.
  - intros reg. unfold init. now rewrite build_system_prompt_listing.
  - apply run_success.
  - apply run_failure.
  - intros Hs. destruct (fst (fst (run c self))) as [[]|e] eqn:E.
    + now apply run_success.
    + destruct (run_failure c self e E) as [Hp Hl].
      unfold in_sync in *. congruence.
Qed.
End DispatcherFacts.

(** C8 on the listing test: registering ["f"] with description ["d"]
    through a fresh dispatcher gives a prompt with the line for ["f"];
    registering ["f"] again raises and the prompt is still the listing;
    unregistering it gives back the sentinel. *)
Lemma C8_witness :
  let register_f :=
    DispatcherCalls.RegisterFunction "f" (Fixtures.flaky 0)
      Fixtures.f_schema in
  let after d c := snd (fst (DispatcherCalls.run c d)) in
  let d1 := after Fixtures.empty_caller register_f in
  (GemmaFunctionCaller.get_system_prompt d1
   = "Available functions:" ++ GemmaFunctionCaller.nl ++
     GemmaFunctionCaller.nl ++ "- f: d" ++ GemmaFunctionCaller.nl)
  /\ (fst (fst (DispatcherCalls.run register_f d1))
      = Raise (ValidationError "Function 'f' is already registered")
      /\ GemmaFunctionCaller.get_system_prompt (after d1 register_f)
         = DispatcherCalls.listing
             (GemmaFunctionCaller.registry (after d1 register_f)))
  /\ (GemmaFunctionCaller.get_system_prompt
        (after d1 (DispatcherCalls.UnregisterFunction "f"))
      = "No functions are currently available.").
Proof.
  intros register_f after d1. split; [|split; [split|]].
  - apply (proj1 (proj2 (proj2
             (C8_listing_follows_dispatcher_calls register_f
                Fixtures.empty_caller)))).
    reflexivity.
  - reflexivity.
  - apply (proj2 (proj2 (proj2 (proj2
             (C8_listing_follows_dispatcher_calls register_f d1))))).
    reflexivity.
  - apply (proj1 (proj2 (proj2
             (C8_listing_follows_dispatcher_calls
                (DispatcherCalls.UnregisterFunction "f") d1)))).
    reflexivity.
Defined.

(** The case the listing is not meant to follow: after
    [registry.register("f", ...)] was called on the registry itself,
    behind the dispatcher, the prompt is still the sentinel although the
    registry lists ["f"], and a dispatcher call that raises leaves it
    so. *)
Remark out_of_band_registration_is_not_listed :
  GemmaFunctionCaller.get_system_prompt Fixtures.stale_caller
  = "No functions are currently available."
  /\ GemmaFunctionCaller._build_system_prompt
       (GemmaFunctionCaller.registry Fixtures.stale_caller)
     = Ok ("Available functions:" ++ GemmaFunctionCaller.nl ++
           GemmaFunctionCaller.nl ++ "- f: d" ++ GemmaFunctionCaller.nl)
  /\ GemmaFunctionCaller.get_system_prompt
       (snd (fst (DispatcherCalls.run
                    (DispatcherCalls.RegisterFunction "f" (Fixtures.flaky 0)
                       Fixtures.f_schema)
                    Fixtures.stale_caller)))
     = "No functions are currently available.".
Proof. repeat split; reflexivity. Qed.

(* ------------------------------------------------------------------ *)
(** ** The dispatcher: [call_function] *)

Section CallFacts.
Context {W : Type}.
Import GemmaFunctionCaller.
Variables (function : Callable W) (name : string)
  (parameters : dict value) (max_retries : Z).

Local Abbreviation fails := (fails_at function parameters).
Local Abbreviation outcome_of := (outcome_at function parameters).
Local Abbreviation world := (world_after function parameters).
Local Abbreviation loop := (attempt function name parameters max_retries).

(** The counter [remaining] of [attempt] stands for the loop condition:
    with [remaining = max_retries - retries], a round is left exactly
    when [retries < max_retries], and a round moves both by one. *)
Lemma remaining_rounds (retries : Z) :
  let remaining := Z.to_nat (max_retries - retries) in
  ((retries <? max_retries)%Z = negb (Nat.eqb remaining 0))
  /\ ((retries <? max_retries)%Z = true ->
      Z.to_nat (max_retries - (retries + 1)) = Nat.pred remaining).
Proof.
  simpl. split.
  - destruct (Z.ltb_spec retries max_retries) as [H|H];
      destruct (Nat.eqb_spec (Z.to_nat (max_retries - retries)) 0);
      simpl; auto; lia.
  - intros H. apply Z.ltb_lt in H. lia.
Qed.

Local Abbreviation warnings_from :=
  (warnings_from function parameters name).

Lemma warnings_from_0 k w :
  warnings_from 0 k w = warnings function parameters name k w.
Proof. reflexivity. Qed.

Lemma warnings_from_step retries k w e :
  fst (function w parameters) = Raised e ->
  warnings_from retries (S k) w
  = log WARNING ("Attempt " ++ str_of_Z (retries + 1) ++ " failed for " ++
                 name ++ ": " ++ exc_str e)
    :: warnings_from (retries + 1) k (snd (function w parameters)).
Proof.
  intros He. unfold warnings_from.
  rewrite <- cons_seq, <- seq_shift, map_cons, map_map.
  f_equal.
  - unfold outcome_at. cbn [world_after]. rewrite He.
    now replace (retries + Z.of_nat 0 + 1)%Z with (retries + 1)%Z by lia.
  - apply map_ext. intros i.
    change (outcome_of (S i) w)
      with (outcome_of i (snd (function w parameters))).
    now replace (retries + Z.of_nat (S i) + 1)%Z
      with (retries + 1 + Z.of_nat i + 1)%Z by lia.
Qed.

(** One failed round of the loop. *)
Lemma attempt_round remaining retries last w e :
  fst (function w parameters) = Raised e ->
  exc_is_Exception e = true ->
  loop (S remaining) retries last w
  = let '(r, w', logs) :=
      loop remaining (retries + 1)%Z (Some e) (snd (function w parameters)) in
    (r, w',
     log WARNING ("Attempt " ++ str_of_Z (retries + 1) ++ " failed for " ++
                  name ++ ": " ++ exc_str e) :: logs).
Proof.
  intros He Hc. cbn [attempt].
  destruct (function w parameters) as [o w']. simpl in *. subst o.
  now rewrite Hc.
Qed.

Lemma fails_tail k w :
  (forall i, (i < S k)%nat -> fails i w) ->
  (exists e, fst (function w parameters) = Raised e
             /\ exc_is_Exception e = true)
  /\ (forall i, (i < k)%nat -> fails i (snd (function w parameters))).
Proof.
  intros Hfail. split.
  - exact (Hfail 0%nat ltac:(lia)).
  - intros i Hi. apply (Hfail (S i)). lia.
Qed.

(** The loop stops at the first attempt that returns. *)
Lemma attempt_first_success k :
  forall remaining retries last w v,
    (k < remaining)%nat ->
    (forall i, (i < k)%nat -> fails i w) ->
    outcome_of k w = Returned v ->
    loop remaining retries last w =
      (Ok v, world (S k) w,
       (warnings_from retries k w ++
        [log INFO ("Successfully called function " ++ name)])%list).
Proof.
  induction k as [|k IH]; intros remaining retries last w v Hlt Hfail Hk;
    (destruct remaining as [|remaining]; [lia|]).
  - unfold outcome_at in Hk. simpl in *.
    destruct (function w parameters) as [o w']. simpl in Hk. now subst.
  - destruct (fails_tail k w Hfail) as [(e & He & Hc) Hrest].
    change (outcome_of (S k) w)
      with (outcome_of k (snd (function w parameters))) in Hk.
    change (world (S (S k)) w)
      with (world (S k) (snd (function w parameters))).
    rewrite (attempt_round remaining retries last w e He Hc).
    rewrite (IH remaining (retries + 1)%Z (Some e) _ v); auto; [|lia].
    now rewrite (warnings_from_step retries k w e He).
Qed.

(** The loop stops at the first exception that is not an instance of
    [Exception], which leaves the method as it is. *)
Lemma attempt_first_uncaught k :
  forall remaining retries last w e,
    (k < remaining)%nat ->
    (forall i, (i < k)%nat -> fails i w) ->
    outcome_of k w = Raised e ->
    exc_is_Exception e = false ->
    loop remaining retries last w =
      (Raise (BaseException (exc_class e) (exc_str e)), world (S k) w,
       warnings_from retries k w).
Proof.
  induction k as [|k IH]; intros remaining retries last w e Hlt Hfail Hk Hc;
    (destruct remaining as [|remaining]; [lia|]).
  - unfold outcome_at in Hk. simpl in *.
    destruct (function w parameters) as [o w']. simpl in Hk. subst o.
    now rewrite Hc.
  - destruct (fails_tail k w Hfail) as [(e0 & He0 & Hc0) Hrest].
    change (outcome_of (S k) w)
      with (outcome_of k (snd (function w parameters))) in Hk.
    change (world (S (S k)) w)
      with (world (S k) (snd (function w parameters))).
    rewrite (attempt_round remaining retries last w e0 He0 Hc0).
    rewrite (IH remaining (retries + 1)%Z (Some e0) _ e); auto; [|lia].
    now rewrite (warnings_from_step retries k w e0 He0).
Qed.

(** When every attempt the loop is allowed fails, it ends with the
    terminal error, worded after the last exception alone: the one of
    the last attempt, or what the loop started with when it has no
    round. *)
Lemma attempt_all_fail n :
  forall retries last w,
    (forall i, (i < n)%nat -> fails i w) ->
    loop n retries last w =
      (Raise (RuntimeError
                ("Function execution failed: " ++
                 match n with
                 | O => str_last_error last
                 | S j =>
                     match outcome_of j w with
                     | Raised e => exc_str e
                     | Returned _ => ""
                     end
                 end)),
       world n w,
       (warnings_from retries n w ++
        [log ERROR ("Function " ++ name ++ " failed after " ++
                    str_of_Z max_retries ++ " attempts")])%list).
Proof.
  induction n as [|n IH]; intros retries last w Hfail.
  - reflexivity.
  - destruct (fails_tail n w Hfail) as [(e & He & Hc) Hrest].
    change (world (S n) w) with (world n (snd (function w parameters))).
    rewrite (attempt_round n retries last w e He Hc).
    rewrite (IH (retries + 1)%Z (Some e) _ Hrest).
    rewrite (warnings_from_step retries n w e He).
    destruct n as [|n].
    + unfold outcome_at. cbn [world_after str_last_error]. now rewrite He.
    + reflexivity.
Qed.

(** The loop never invokes the callable more often than it has
    rounds. *)
Lemma attempt_bounded remaining :
  forall retries last w,
  exists k, (k <= remaining)%nat /\
            snd (fst (loop remaining retries last w)) = world k w.
Proof.
  induction remaining as [|remaining IH]; intros retries last w.
  - exists 0%nat. split; [lia | reflexivity].
  - cbn [attempt].
    destruct (function w parameters) as [[v|e] w'] eqn:E.
    + exists 1%nat. split; [lia|]. simpl. now rewrite E.
    + destruct (exc_is_Exception e).
      * destruct (IH (retries + 1)%Z (Some e) w') as (k & Hk & Hw).
        exists (S k). split; [lia|].
        change (world (S k) w) with (world k (snd (function w parameters))).
        rewrite E. simpl. rewrite <- Hw.
        now destruct (loop remaining (retries + 1)%Z (Some e) w')
          as [[r w''] logs].
      * exists 1%nat. split; [lia|]. simpl. now rewrite E.
Qed.

Variables (self : GemmaFunctionCaller.t W) (schema : FunctionSchema.t).
Hypothesis Hfunction :
  FunctionRegistry.get_function name (registry self) = Some function.
Hypothesis Hschema :
  FunctionRegistry.get_schema name (registry self) = Some schema.

Lemma call_function_valid w :
  truth function w = true ->
  FunctionSchema.validate_parameters schema parameters = Ok tt ->
  call_function name parameters max_retries self w =
    loop (Z.to_nat max_retries) 0%Z None w.
Proof.
  intros Ht Hv. unfold call_function.
  now rewrite Hfunction, Ht, Hschema, Hv.
Qed.

Lemma call_function_falsy w :
  truth function w = false ->
  call_function name parameters max_retries self w =
    (Raise (ValueError ("Function " ++ name ++ " not found")), w, []).
Proof.
  intros Ht. unfold call_function. now rewrite Hfunction, Ht.
Qed.


(** C4. A failure of [validate_parameters] is raised by
    [call_function] as it is, before the callable is invoked: the world
    is untouched whatever [max_retries] is.  For a [ValidationError]
    the outcome is that [ValidationError], logged once, and never the
    [RuntimeError] of exhausted retries.  This is what happens for a
    registered object that is true as a truth value; one that is false
    is reported as not found, and then too nothing is invoked and no
    [RuntimeError] is raised. *)
Theorem C4_validation_failure_not_retried w e :
  FunctionSchema.validate_parameters schema parameters = Raise e ->
  let R := call_function name parameters max_retries self w in
  (truth function w = true ->
   fst (fst R) = Raise e
   /\ forall m,
        e = ValidationError m ->
        R = (Raise (ValidationError m), w,
             [log ERROR ("Parameter validation failed for " ++ name ++
                         ": " ++ m)])
        /\ forall m', Raise (A:=value) e <> Raise (RuntimeError m'))
  /\ (truth function w = false ->
      R = (Raise (ValueError ("Function " ++ name ++ " not found")), w, []))
  /\ snd (fst R) = w
  /\ (forall m m',
        e = ValidationError m -> fst (fst R) <> Raise (RuntimeError m')).
Proof.
  intros Hv R. subst R. unfold call_function. rewrite Hfunction, Hschema, Hv.
  destruct (truth function w); cbn [negb].
  - split; [intros _|split; [discriminate|split]].
    + split; [now destruct e|].
      intros m ->. split; [reflexivity | discriminate].
    + now destruct e.
    + intros m m' ->. discriminate.
  - split; [discriminate|split; [reflexivity|split]].
    + reflexivity.
    + intros m m' _. discriminate.
Qed.
End CallFacts.


(** C4 on the dispatcher test: [age = -1] violates the schema's minimum;
    the callable, which counts its calls, is never invoked. *)
Lemma C4_witness :
  GemmaFunctionCaller.call_function "test_func"
    [("name", VStr "Alice"); ("age", VInt (-1))] 3 Fixtures.test_caller 0%nat
  = (Raise (ValidationError
              "Invalid value for parameter 'age': Value -1 is less than minimum 0"),
     0%nat,
     [log ERROR
        "Parameter validation failed for test_func: Invalid value for parameter 'age': Value -1 is less than minimum 0"]).
Proof.
  apply (proj1 (proj2 (proj1
           (C4_validation_failure_not_retried (Fixtures.flaky 0) "test_func"
              [("name", VStr "Alice"); ("age", VInt (-1))] 3
              Fixtures.test_caller _ eq_refl eq_refl 0%nat _ eq_refl)
           eq_refl) _ eq_refl)).
Defined.

(** C7 on the registry test: registering ["test_func"] again raises and
    the registry is the one before; so does updating a name that is not
    there, and registering a definition without a description. *)
Lemma C7_witness :
  let reg := GemmaFunctionCaller.registry Fixtures.test_caller in
  FunctionRegistry.register "test_func" (Fixtures.flaky 1)
    Fixtures.retry_schema reg
  = (Raise (ValidationError "Function 'test_func' is already registered"),
     reg, [])
  /\ FunctionRegistry.update_function "non_existent" (Fixtures.flaky 1)
       Fixtures.retry_schema reg
     = (Raise (ValueError "Function non_existent not found in registry"),
        reg, [])
  /\ snd (fst (FunctionRegistry.register "invalid_func" (Fixtures.flaky 1)
                 [("name", VStr "invalid_func"); ("parameters", VDict [])]
                 reg))
     = reg.
Proof.
  intros reg. split; [|split].
  - apply (proj1 (C7_registry_failures_keep_state "test_func"
                    (Fixtures.flaky 1) Fixtures.retry_schema reg)).
    reflexivity.
  - apply (proj1 (proj2 (C7_registry_failures_keep_state "non_existent"
                           (Fixtures.flaky 1) Fixtures.retry_schema reg))).
    reflexivity.
  - apply (proj1 (proj2 (proj2 (C7_registry_failures_keep_state
                                  "invalid_func" (Fixtures.flaky 1)
                                  [("name", VStr "invalid_func");
                                   ("parameters", VDict [])] reg)))
             (ValidationError
                "Missing required field in function definition: description")).
    reflexivity.
Defined.

(* ------------------------------------------------------------------ *)
(** ** Regular expressions on plain patterns *)

Lemma is_meta_false c :
  is_meta c = false ->
  Ascii.eqb c "(" = false /\ Ascii.eqb c ")" = false
  /\ Ascii.eqb c "[" = false /\ Ascii.eqb c "." = false
  /\ Ascii.eqb c "^" = false /\ Ascii.eqb c "$" = false
  /\ Ascii.eqb c backslash = false /\ Ascii.eqb c "|" = false
  /\ Ascii.eqb c "*" = false /\ Ascii.eqb c "+" = false
  /\ Ascii.eqb c "?" = false /\ Ascii.eqb c "{" = false.
Proof.
  unfold is_meta. intros H.
  repeat (apply Bool.orb_false_iff in H; destruct H as [H ?]).
  repeat split; assumption.
Qed.

Lemma parse_quant_plain a p :
  plain p = true -> parse_quant a p = Parsed (a, p).
Proof.
  destruct p as [|c p]; [reflexivity|].
  cbn [plain]. intros H. apply Bool.andb_true_iff in H. destruct H as [H _].
  apply Bool.negb_true_iff, is_meta_false in H.
  destruct H as (_ & _ & _ & _ & _ & _ & _ & _ & H9 & H10 & H11 & H12).
  unfold parse_quant, quantifier. now rewrite H9, H10, H11, H12.
Qed.

Lemma parse_atom_plain fuel c rest :
  is_meta c = false ->
  parse_atom (S fuel) (String c rest) = Parsed (RChar c, rest).
Proof.
  intros Hc.
  pose proof (is_meta_false c Hc)
    as (H1 & H2 & H3 & H4 & H5 & H6 & H7 & H8 & H9 & H10 & H11 & H12).
  cbn [parse_atom]. now rewrite H1, H3, H4, H5, H6, H7, H9, H10, H11, H12.
Qed.

Lemma parse_seq_step fuel s :
  parse_seq (S fuel) s =
    if ends_branch s then Parsed (REmpty, s)
    else
      and_then (parse_atom fuel s) (fun '(a, s1) =>
        and_then (parse_quant a s1) (fun '(q, s2) =>
          and_then (parse_seq fuel s2)
            (fun '(r, s3) => Parsed (RSeq q r, s3)))).
Proof. reflexivity. Qed.

Lemma parse_seq_plain p :
  forall fuel,
    plain p = true -> (String.length p < fuel)%nat ->
    parse_seq fuel p = Parsed (literal p, "").
Proof.
  induction p as [|c p IH]; intros fuel Hp Hlen;
    (destruct fuel as [|fuel]; [simpl in Hlen; lia|]).
  - reflexivity.
  - simpl in Hp, Hlen. apply Bool.andb_true_iff in Hp.
    destruct Hp as [Hc Hp]. apply Bool.negb_true_iff in Hc.
    pose proof (is_meta_false c Hc)
      as (H1 & H2 & H3 & H4 & H5 & H6 & H7 & H8 & _).
    destruct fuel as [|fuel]; [lia|].
    rewrite parse_seq_step. cbn [ends_branch]. rewrite H8, H2. cbn [orb].
    rewrite (parse_atom_plain fuel c p Hc). cbn [and_then].
    rewrite (parse_quant_plain (RChar c) p Hp). cbn [and_then].
    rewrite (IH (S fuel) Hp ltac:(lia)). reflexivity.
Qed.

Lemma re_compile_plain p : plain p = true -> re_compile p = Parsed (literal p).
Proof.
  intros Hp. unfold re_compile.
  replace (4 * String.length p + 4)%nat
    with (S (4 * String.length p + 3))%nat by lia.
  cbn [parse_alt]. rewrite (parse_seq_plain p _ Hp) by lia. reflexivity.
Qed.

Lemma rmatch_literal p :
  forall bol s, rmatch (literal p) (fun _ _ => true) bol s = string_prefix p s.
Proof.
  induction p as [|c p IH]; intros bol s.
  - now destruct s.
  - destruct s as [|c' s]; simpl; [reflexivity|]. now rewrite IH.
Qed.

(** A plain pattern matches exactly the subjects it is a prefix of. *)
Lemma re_match_plain p s :
  plain p = true -> re_match (VStr p) s = Ok (string_prefix p s).
Proof.
  intros Hp. unfold re_match, re_match_str.
  rewrite (re_compile_plain p Hp). cbn [and_then].
  now rewrite rmatch_literal.
Qed.

(* ------------------------------------------------------------------ *)
(** ** The matcher finds what the expression matches *)

Lemma length_append (a b : string) :
  String.length (a ++ b) = (String.length a + String.length b)%nat.
Proof. induction a as [|x a IH]; simpl; [reflexivity | now rewrite IH]. Qed.

Lemma is_empty_append (a b : string) :
  is_empty (a ++ b) = is_empty a && is_empty b.
Proof. now destruct a. Qed.

Lemma is_empty_after_char (pre : string) (c : ascii) :
  is_empty (pre ++ String c "") = false.
Proof. rewrite is_empty_append. apply Bool.andb_false_r. Qed.

Section MatcherFacts.
Variable r : regex.

(** What is proved of [r] by induction: with any continuation, the
    matcher accepts exactly when [r] matches a prefix of the input and
    the continuation accepts the rest. *)
Hypothesis rmatch_r :
  forall k pre s,
    rmatch r k (is_empty pre) s = true <->
    exists u v,
      s = u ++ v /\ matches r pre u v /\ k (is_empty (pre ++ u)) v = true.

Lemma star_sound fuel :
  forall k pre s,
    star (rmatch r) k fuel (is_empty pre) s = true ->
    exists u v,
      s = u ++ v /\ matches (RStar r) pre u v
      /\ k (is_empty (pre ++ u)) v = true.
Proof.
  induction fuel as [|fuel IH]; intros k pre s H; cbn [star] in H.
  - exists "", s. rewrite append_empty_r.
    repeat split; [constructor | exact H].
  - apply Bool.orb_true_iff in H. destruct H as [H|H].
    + apply rmatch_r in H. destruct H as (u1 & v1 & -> & Hm & H).
      apply Bool.andb_true_iff in H. destruct H as [_ H].
      apply IH in H. destruct H as (u2 & v & -> & Hs & Hk).
      exists (u1 ++ u2), v. rewrite <- !append_assoc in *.
      repeat split; [|exact Hk].
      now apply matches_star_cons.
    + exists "", s. rewrite append_empty_r.
      repeat split; [constructor | exact H].
Qed.

Lemma star_complete rs pre u v :
  matches rs pre u v ->
  rs = RStar r ->
  forall fuel k,
    (String.length (u ++ v) <= fuel)%nat ->
    k (is_empty (pre ++ u)) v = true ->
    star (rmatch r) k fuel (is_empty pre) (u ++ v) = true.
Proof.
  induction 1 as [| | | | | | | | | | r0 pre v
                 | r0 pre u1 u2 v H1 _ H2 IH2 | |];
    intros Heq; try discriminate Heq; injection Heq as ->;
    intros fuel k Hlen Hk.
  - rewrite append_empty_r in Hk.
    destruct fuel as [|fuel]; cbn [star append]; [exact Hk|].
    rewrite Hk. apply Bool.orb_true_r.
  - destruct u1 as [|c u1].
    + rewrite append_empty_r in *. exact (IH2 eq_refl fuel k Hlen Hk).
    + destruct fuel as [|fuel]; [simpl in Hlen; lia|].
      cbn [star]. apply Bool.orb_true_iff. left. apply rmatch_r.
      exists (String c u1), (u2 ++ v).
      split; [apply append_assoc|]. split; [exact H1|].
      apply Bool.andb_true_iff. split.
      * apply Nat.ltb_lt. rewrite !length_append. simpl. lia.
      * apply (IH2 eq_refl).
        -- rewrite !length_append in *. simpl in Hlen. lia.
        -- now rewrite append_assoc.
Qed.
End MatcherFacts.

Lemma rmatch_matches r :
  forall k pre s,
    rmatch r k (is_empty pre) s = true <->
    exists u v,
      s = u ++ v /\ matches r pre u v /\ k (is_empty (pre ++ u)) v = true.
Proof.
  induction r as [|c| |negated items| | | |r1 IH1 r2 IH2|r1 IH1 r2 IH2
                 |r1 IH1|r1 IH1];
    intros k pre s; cbn [rmatch].
  - split.
    + intros H. exists "", s. rewrite append_empty_r.
      repeat split; [constructor | exact H].
    + intros (u & v & -> & Hm & Hk). inversion Hm; subst.
      now rewrite append_empty_r in Hk.
  - split.
    + destruct s as [|c' s]; [discriminate|]. intros H.
      apply Bool.andb_true_iff in H. destruct H as [Hc H].
      apply Ascii.eqb_eq in Hc. subst c'.
      exists (String c ""), s. rewrite is_empty_after_char.
      repeat split; [constructor | exact H].
    + intros (u & v & -> & Hm & Hk). inversion Hm; subst.
      rewrite is_empty_after_char in Hk. cbn [append].
      now rewrite Ascii.eqb_refl, Hk.
  - split.
    + destruct s as [|c' s]; [discriminate|]. intros H.
      destruct (Ascii.eqb c' newline) eqn:Hc; [discriminate|].
      exists (String c' ""), s. rewrite is_empty_after_char.
      repeat split; [now constructor | exact H].
    + intros (u & v & -> & Hm & Hk). inversion Hm; subst.
      rewrite is_empty_after_char in Hk. cbn [append].
      match goal with Hc : Ascii.eqb _ newline = false |- _ => rewrite Hc end.
      exact Hk.
  - split.
    + destruct s as [|c' s]; [discriminate|]. intros H.
      apply Bool.andb_true_iff in H. destruct H as [Hc H].
      exists (String c' ""), s. rewrite is_empty_after_char.
      repeat split; [now constructor | exact H].
    + intros (u & v & -> & Hm & Hk). inversion Hm; subst.
      rewrite is_empty_after_char in Hk. cbn [append].
      match goal with Hc : xorb _ _ = true |- _ => rewrite Hc end.
      exact Hk.
  - split.
    + intros H. apply Bool.andb_true_iff in H. destruct H as [Hb H].
      destruct pre; [|discriminate].
      exists "", s. repeat split; [constructor | exact H].
    + intros (u & v & -> & Hm & Hk). inversion Hm; subst. exact Hk.
  - split.
    + intros H. apply Bool.andb_true_iff in H. destruct H as [Hb H].
      exists "", s. rewrite append_empty_r.
      repeat split; [now constructor | exact H].
    + intros (u & v & -> & Hm & Hk). inversion Hm; subst.
      rewrite append_empty_r in Hk. cbn [append].
      apply Bool.andb_true_iff. now split.
  - split.
    + intros H. apply Bool.andb_true_iff in H. destruct H as [Hb H].
      destruct s; [|discriminate].
      exists "", "". rewrite (append_empty_r pre).
      repeat split; [constructor | exact H].
    + intros (u & v & -> & Hm & Hk). inversion Hm; subst.
      now rewrite append_empty_r in Hk.
  - split.
    + intros H. apply IH1 in H. destruct H as (u1 & v1 & -> & Hm1 & H).
      apply IH2 in H. destruct H as (u2 & v & -> & Hm2 & Hk).
      exists (u1 ++ u2), v. rewrite <- !append_assoc in *.
      repeat split; [|exact Hk].
      now constructor.
    + intros (u & v & -> & Hm & Hk). inversion Hm; subst.
      apply IH1. exists u1, (u2 ++ v).
      split; [apply append_assoc|]. split; [assumption|].
      apply IH2. exists u2, v. rewrite append_assoc. now repeat split.
  - split.
    + intros H. apply Bool.orb_true_iff in H. destruct H as [H|H].
      * apply IH1 in H. destruct H as (u & v & -> & Hm & Hk).
        exists u, v. repeat split; [now apply matches_alt_l | exact Hk].
      * apply IH2 in H. destruct H as (u & v & -> & Hm & Hk).
        exists u, v. repeat split; [now apply matches_alt_r | exact Hk].
    + intros (u & v & -> & Hm & Hk). apply Bool.orb_true_iff.
      inversion Hm; subst; [left; apply IH1 | right; apply IH2];
        exists u, v; now repeat split.
  - split.
    + apply (star_sound r1 IH1).
    + intros (u & v & -> & Hm & Hk).
      now apply (star_complete r1 IH1 (RStar r1) pre u v Hm eq_refl).
  - split.
    + intros H. apply Bool.orb_true_iff in H. destruct H as [H|H].
      * apply IH1 in H. destruct H as (u & v & -> & Hm & Hk).
        exists u, v. repeat split; [now apply matches_opt_some | exact Hk].
      * exists "", s. rewrite append_empty_r.
        repeat split; [constructor | exact H].
    + intros (u & v & -> & Hm & Hk). apply Bool.orb_true_iff.
      inversion Hm; subst.
      * right. now rewrite append_empty_r in Hk.
      * left. apply IH1. exists u, v. now repeat split.
Qed.

(** *** Quantifiers

    The expression the parser builds for a quantifier matches what [n]
    copies of the item in a row match, for the [n] the bounds allow. *)

Lemma times_times n k a :
  times n a (times k a REmpty) = times (n + k) a REmpty.
Proof. induction n as [|n IH]; simpl; [reflexivity | now rewrite IH]. Qed.

Lemma times_split n a tail :
  forall pre u v,
    matches (times n a tail) pre u v <->
    exists u1 u2,
      u = u1 ++ u2 /\ matches (times n a REmpty) pre u1 (u2 ++ v)
      /\ matches tail (pre ++ u1) u2 v.
Proof.
  induction n as [|n IH]; intros pre u v; cbn [times].
  - split.
    + intros H. exists "", u. rewrite append_empty_r.
      repeat split; [apply matches_empty | exact H].
    + intros (u1 & u2 & -> & H1 & H2). inversion H1; subst.
      now rewrite append_empty_r in H2.
  - split.
    + intros H. inversion H as [| | | | | | |? ? ? x y ? Hx Hy| | | | | |];
        subst.
      apply IH in Hy. destruct Hy as (y1 & y2 & -> & Hy1 & Hy2).
      exists (x ++ y1), y2. split; [now rewrite append_assoc|]. split.
      * apply matches_seq; [now rewrite <- append_assoc | exact Hy1].
      * now rewrite <- append_assoc.
    + intros (u1 & u2 & -> & H1 & H2).
      inversion H1 as [| | | | | | |? ? ? x y ? Hx Hy| | | | | |]; subst.
      rewrite append_assoc. apply matches_seq.
      * now rewrite append_assoc.
      * apply IH. exists y, u2. split; [reflexivity|]. split; [exact Hy|].
        now rewrite append_assoc.
Qed.

Lemma star_times a :
  forall pre u v,
    matches (RStar a) pre u v <->
    exists n, matches (times n a REmpty) pre u v.
Proof.
  intros pre u v. split.
  - intros H. remember (RStar a) as rs eqn:E.
    induction H as [| | | | | | | | | | r0 pre v
                   | r0 pre u1 u2 v H1 _ H2 IH2 | |];
      try discriminate E; injection E as ->.
    + exists 0%nat. constructor.
    + destruct (IH2 eq_refl) as (n & Hn).
      exists (S n). now constructor.
  - intros (n & Hn). revert pre u Hn.
    induction n as [|n IH]; intros pre u Hn; cbn [times] in Hn;
      inversion Hn; subst.
    + constructor.
    + constructor; [assumption | now apply IH].
Qed.

Lemma upto_times m a :
  forall pre u v,
    matches (upto m a) pre u v <->
    exists n, (n <= m)%nat /\ matches (times n a REmpty) pre u v.
Proof.
  induction m as [|m IH]; intros pre u v; cbn [upto].
  - split.
    + intros H. exists 0%nat. now split.
    + intros ([|n] & Hle & Hn); [exact Hn | lia].
  - split.
    + intros H. inversion H; subst.
      * exists 0%nat. split; [lia | constructor].
      * match goal with
        | Hs : matches (RSeq _ _) _ _ _ |- _ => inversion Hs; subst
        end.
        match goal with
        | Hu : matches (upto m a) _ _ _ |- _ =>
            apply IH in Hu; destruct Hu as (n & Hle & Hn)
        end.
        exists (S n). split; [lia | now constructor].
    + intros ([|n] & Hle & Hn); cbn [times] in Hn; inversion Hn; subst.
      * constructor.
      * apply matches_opt_some. constructor; [assumption|].
        apply IH. exists n. split; [lia | assumption].
Qed.

Lemma repeat_matches a lo hi pre u v :
  match hi with Some max => (lo <= max)%nat | None => True end ->
  (matches (repeat a lo hi) pre u v <->
   exists n,
     (lo <= n)%nat
     /\ match hi with Some max => (n <= max)%nat | None => True end
     /\ matches (times n a REmpty) pre u v).
Proof.
  intros Hhi. unfold repeat. split.
  - intros H.
    assert (Hs : exists u1 u2 k,
               u = u1 ++ u2
               /\ matches (times lo a REmpty) pre u1 (u2 ++ v)
               /\ match hi with
                  | Some max => (lo + k <= max)%nat
                  | None => True
                  end
               /\ matches (times k a REmpty) (pre ++ u1) u2 v).
    { destruct hi as [max|]; apply times_split in H;
        destruct H as (u1 & u2 & -> & H1 & H2).
      - apply upto_times in H2. destruct H2 as (k & Hle & Hk).
        exists u1, u2, k. repeat split; [exact H1 | lia | exact Hk].
      - apply star_times in H2. destruct H2 as (k & Hk).
        exists u1, u2, k. repeat split; [exact H1 | exact Hk]. }
    destruct Hs as (u1 & u2 & k & -> & H1 & Hle & Hk).
    exists (lo + k)%nat. split; [lia|]. split; [exact Hle|].
    rewrite <- times_times. apply times_split. now exists u1, u2.
  - intros (n & Hlo & Hmax & Hn).
    replace n with (lo + (n - lo))%nat in Hn by lia.
    rewrite <- times_times in Hn. apply times_split in Hn.
    destruct Hn as (u1 & u2 & -> & H1 & H2).
    destruct hi as [max|]; apply times_split; exists u1, u2;
      (split; [reflexivity|]); (split; [exact H1|]).
    + apply upto_times. exists (n - lo)%nat. split; [lia | exact H2].
    + apply star_times. now exists (n - lo)%nat.
Qed.

(** [re.match] on a pattern that compiles: a match is found exactly when
    the expression matches some prefix of the subject. *)
Lemma re_match_compiled p r s :
  re_compile p = Parsed r ->
  exists b,
    re_match (VStr p) s = Ok b /\ (b = true <-> matches_at_start r s).
Proof.
  intros Hc. unfold re_match, re_match_str. rewrite Hc. cbn [and_then].
  eexists. split; [reflexivity|].
  rewrite (rmatch_matches r (fun _ _ => true) "" s).
  unfold matches_at_start. split.
  - intros (u & v & Hs & Hm & _). now exists u, v.
  - intros (u & v & Hs & Hm). now exists u, v.
Qed.

(* ------------------------------------------------------------------ *)
(** ** [for] loops *)

Section ForEachFacts.
Context {A : Type} (body : A -> result unit).

Lemma for_each_cons_ok x xs :
  for_each body (x :: xs) = Ok tt <->
  body x = Ok tt /\ for_each body xs = Ok tt.
Proof.
  simpl. destruct (body x) as [[]|e]; simpl; split;
    solve [intuition | intros [? ?]; discriminate | discriminate].
Qed.

Lemma for_each_ok xs :
  for_each body xs = Ok tt <-> forall x, In x xs -> body x = Ok tt.
Proof.
  induction xs as [|x xs IH].
  - simpl. split; [intros _ y [] | reflexivity].
  - rewrite for_each_cons_ok, IH. simpl. split.
    + intros [Hx Hxs] y [<-|Hy]; auto.
    + intros H. split; auto.
Qed.

(** The loop raises what its first failing round raises. *)
Lemma for_each_first_failure pre x post e :
  (forall y, In y pre -> body y = Ok tt) ->
  body x = Raise e ->
  for_each body (pre ++ x :: post) = Raise e.
Proof.
  intros Hpre Hx. induction pre as [|y pre IH]; simpl.
  - now rewrite Hx.
  - rewrite (Hpre y (or_introl eq_refl)). simpl.
    apply IH. intros z Hz. apply Hpre. now right.
Qed.

Lemma is_ok_for_each xs :
  is_ok (for_each body xs) = forallb (fun x => is_ok (body x)) xs.
Proof.
  induction xs as [|x xs IH]; simpl; [reflexivity|].
  destruct (body x) as [[]|e]; simpl; auto.
Qed.
End ForEachFacts.

Lemma is_ok_bind {A : Type} (c : result A) (k : A -> result unit) :
  is_ok (bind c k) =
  match c with Ok a => is_ok (k a) | Raise _ => false end.
Proof. now destruct c. Qed.

Lemma dict_with_present {A B : Type} k (body : A -> B) default d v :
  dict_get k d = Some v -> dict_with k body default d = body v.
Proof.
  induction d as [|[k' v'] d IH]; simpl; [discriminate|].
  destruct (String.eqb k k'); [now intros [= ->] | exact IH].
Qed.

(* ------------------------------------------------------------------ *)
(** ** [ParameterSchema.validate] *)

Section ValidateFacts.
Import ParameterSchema.
Implicit Types (self : ParameterSchema.t) (k : ParameterType).

Lemma ParameterType_eqb_eq k1 k2 : ParameterType_eqb k1 k2 = true <-> k1 = k2.
Proof. destruct k1, k2; simpl; split; congruence. Qed.

Lemma type_is_inv self k : type_is self k = true -> type self = VType k.
Proof.
  unfold type_is. destruct (type self) as [| | |x| | | |t]; simpl;
    try discriminate.
  - destruct x; discriminate.
  - intros H. apply ParameterType_eqb_eq in H. now subst.
Qed.

(** A value that is not [None] and not of the Python type the kind asks
    for is refused in these words. *)
Lemma validate_type_mismatch self k v :
  type_is self k = true ->
  is_None v = false ->
  has_runtime_type k v = false ->
  validate self v =
    Raise (ValidationError
             ("Expected " ++ ParameterType_value k ++ ", got " ++
              type_repr v)).
Proof.
  intros Hk Hnone Hty. apply type_is_inv in Hk.
  destruct self as [ty d r mn mx pt ev it pr]. simpl in Hk. subst ty.
  destruct k; simpl in Hty; try discriminate;
    destruct v; simpl in Hnone, Hty; try discriminate; reflexivity.
Qed.

(** On a list, an array schema with an item schema runs the item
    validator over the elements, in order. *)
Lemma validate_array self item_validator elements :
  type_is self ARRAY = true ->
  truthy (items self) = true ->
  call (items self) = Ok item_validator ->
  validate self (VList elements) = for_each (validate item_validator) elements.
Proof.
  intros Hk Hit Hcall. apply type_is_inv in Hk.
  destruct self as [ty d r mn mx pt ev it pr]. simpl in *. subst ty.
  unfold type_is. cbn. now rewrite Hit, Hcall.
Qed.

(** On a dictionary, an object schema with properties runs over the
    listed properties, in order. *)
Lemma validate_object self props entries :
  type_is self OBJECT = true ->
  truthy (properties self) = true ->
  py_items (properties self) = Ok props ->
  validate self (VDict entries) = for_each (check_property entries) props.
Proof.
  intros Hk Hpr Hitems. apply type_is_inv in Hk.
  destruct self as [ty d r mn mx pt ev it pr]. simpl in *. subst ty.
  unfold type_is. cbn. now rewrite Hpr, Hitems.
Qed.

(** On a string, a string schema with a pattern asks [re.match]. *)
Lemma validate_string_pattern self p s b :
  type_is self STRING = true ->
  pattern self = VStr p -> p <> "" ->
  re_match (VStr p) s = Ok b ->
  validate self (VStr s) =
    if b then Ok tt
    else Raise (ValidationError ("String does not match pattern: " ++ p)).
Proof.
  intros Hk Hpat Hne Hm. apply type_is_inv in Hk.
  destruct self as [ty d r mn mx pt ev it pr]. simpl in Hk, Hpat.
  subst ty pt. unfold type_is. cbn -[re_match]. rewrite Hm.
  destruct (String.eqb_spec p "") as [->|_]; [contradiction|].
  now destruct b.
Qed.

(** The type test of the number kind lets every boolean through: with
    no bounds set, [True] and [False] validate. *)
Lemma validate_number_boolean self b :
  type_is self NUMBER = true ->
  minimum self = VNone -> maximum self = VNone ->
  validate self (VBool b) = Ok tt.
Proof.
  intros Hk Hmin Hmax. apply type_is_inv in Hk.
  destruct self as [ty d r mn mx pt ev it pr]. simpl in *. subst.
  reflexivity.
Qed.

(** [None] passes every schema whose own [required] flag is false. *)
Lemma validate_none self :
  truthy (required self) = false -> validate self VNone = Ok tt.
Proof. intros H. simpl. now rewrite H. Qed.
End ValidateFacts.

(* ------------------------------------------------------------------ *)
(** ** Claims on [ParameterSchema.validate] *)

(** C1. The code does not do what the claim says: the [Number] branch
    tests [isinstance(value, (int, float))], which [True] passes, so
    [True] validates against [{kind: Number, minimum: 0}] (and against a
    [Number] schema without bounds).  The other places that tell the two
    kinds apart do keep them apart: the [Boolean] branch refuses the
    integer [1], and [create_schema_from_parameters] tests [bool] before
    [(int, float)] and infers ["boolean"] for [True]. *)
Theorem C1_number_accepts_true :
  ParameterSchema.validate (Fixtures.number_schema (VInt 0)) (VBool true)
  = Ok tt
  /\ ParameterSchema.validate (Fixtures.schema_of NUMBER) (VBool false)
     = Ok tt
  /\ ParameterSchema.validate (Fixtures.schema_of BOOLEAN) (VInt 1)
     = Raise (ValidationError "Expected boolean, got <class 'int'>")
  /\ FunctionValidator.create_schema_from_parameters [("flag", VBool true)]
     = Ok [("flag",
            VDict [("type", VStr "boolean");
                   ("description", VStr "Parameter: flag")])].
Proof. repeat split; reflexivity. Qed.

(** C2 as stated does not hold: the pattern ["abc"] does not validate
    ["xabcx"].  [re.match] looks for a match at position 0 only, and
    ["xabcx"] starts with ["x"]. *)
Lemma C2_counterexample :
  ParameterSchema.validate (Fixtures.string_schema "abc") (VStr "xabcx")
  = Raise (ValidationError "String does not match pattern: abc")
  /\ ParameterSchema.validate (Fixtures.string_schema "abc") (VStr "xabcx")
     <> Ok tt.
Proof. split; [reflexivity | discriminate]. Qed.

(** C2, amended. A string validates against a pattern when the regular
    expression matches starting at the beginning of the value: for
    every pattern that compiles, the value is accepted exactly when the
    expression matches some prefix of it, at position 0; the match is
    neither anchored at the end nor searched for inside the value, and a
    value that is not accepted is refused in the words of the code.
    For a pattern of plain characters this means that the value starts
    with the pattern.  So ["^[A-Za-z]+$"] refuses ["Hello123"] and
    ["abc"] refuses ["xabcx"], while ["abc"] accepts ["abcx"]; and
    ["[a-z]+"] refuses ["1abc"], which a search would accept, and
    accepts ["abc1"], which a match of the whole value would refuse. *)
Theorem C2_pattern_matches_from_start :
  (forall (self : ParameterSchema.t) (p : string) (r : regex) (s : string),
      ParameterSchema.type_is self STRING = true ->
      ParameterSchema.pattern self = VStr p ->
      re_compile p = Parsed r ->
      (ParameterSchema.validate self (VStr s) = Ok tt <->
       matches_at_start r s)
      /\ (~ matches_at_start r s ->
          ParameterSchema.validate self (VStr s) =
            Raise (ValidationError ("String does not match pattern: " ++ p))))
  /\ (forall (self : ParameterSchema.t) (p s : string),
        ParameterSchema.type_is self STRING = true ->
        ParameterSchema.pattern self = VStr p ->
        p <> "" ->
        plain p = true ->
        (ParameterSchema.validate self (VStr s) = Ok tt <->
         string_prefix p s = true)
        /\ (string_prefix p s = false ->
            ParameterSchema.validate self (VStr s) =
              Raise (ValidationError
                       ("String does not match pattern: " ++ p))))
  /\ re_compile "^[A-Za-z]+$"
     = Parsed
         (RSeq RBol
            (RSeq (RSeq (RSet false [Range "A" "Z"; Range "a" "z"])
                     (RStar (RSet false [Range "A" "Z"; Range "a" "z"])))
               (RSeq REol REmpty)))
  /\ ParameterSchema.validate (Fixtures.string_schema "^[A-Za-z]+$")
       (VStr "Hello123")
     = Raise (ValidationError "String does not match pattern: ^[A-Za-z]+$")
  /\ ParameterSchema.validate (Fixtures.string_schema "^[A-Za-z]+$")
       (VStr "Hello")
     = Ok tt
  /\ ParameterSchema.validate (Fixtures.string_schema "abc") (VStr "xabcx")
     = Raise (ValidationError "String does not match pattern: abc")
  /\ ParameterSchema.validate (Fixtures.string_schema "abc") (VStr "abcx")
     = Ok tt
  /\ ParameterSchema.validate (Fixtures.string_schema "[a-z]+") (VStr "1abc")
     = Raise (ValidationError "String does not match pattern: [a-z]+")
  /\ ParameterSchema.validate (Fixtures.string_schema "[a-z]+") (VStr "abc1")
     = Ok tt.
Proof.
  split; [|split; [|repeat split; reflexivity]].
  - intros self p r s Hk Hpat Hc.
    destruct (String.eqb_spec p "") as [->|Hne].
    + injection Hc as <-.
      assert (Hv : ParameterSchema.validate self (VStr s) = Ok tt).
      { apply type_is_inv in Hk.
        destruct self as [ty d rq mn mx pt ev it pr]. simpl in Hk, Hpat.
        subst ty pt. reflexivity. }
      assert (Hm : matches_at_start REmpty s).
      { exists "", s. split; [reflexivity | constructor]. }
      split; [now split | contradiction].
    + destruct (re_match_compiled p r s Hc) as (b & Hb & Hiff).
      rewrite (validate_string_pattern self p s b Hk Hpat Hne Hb).
      destruct b.
      * split; [split; [intros _; now apply Hiff | reflexivity]|].
        intros Hn. exfalso. apply Hn. now apply Hiff.
      * split; [|reflexivity].
        split; [discriminate|]. intros Hm. apply Hiff in Hm. discriminate.
  - intros self p s Hk Hpat Hne Hplain.
    rewrite (validate_string_pattern self p s (string_prefix p s) Hk Hpat Hne
               (re_match_plain p s Hplain)).
    destruct (string_prefix p s); split; try split; congruence.
Qed.

(** The amended C2 at work: ["[a-z]+"] accepts ["abc1"] because the
    expression matches a prefix of it; ["abc"] is a prefix of ["abcx"],
    not of ["xabcx"]. *)
Lemma C2_witness :
  (ParameterSchema.validate (Fixtures.string_schema "[a-z]+") (VStr "abc1")
   = Ok tt <->
   matches_at_start
     (RSeq (RSeq (RSet false [Range "a" "z"])
              (RStar (RSet false [Range "a" "z"]))) REmpty) "abc1")
  /\ (ParameterSchema.validate (Fixtures.string_schema "abc") (VStr "abcx")
      = Ok tt <-> string_prefix "abc" "abcx" = true)
  /\ ParameterSchema.validate (Fixtures.string_schema "abc") (VStr "xabcx")
     = Raise (ValidationError ("String does not match pattern: " ++ "abc")).
Proof.
  split; [|split].
  - apply (proj1 C2_pattern_matches_from_start
             (Fixtures.string_schema "[a-z]+") "[a-z]+" _ "abc1");
      reflexivity.
  - apply (proj1 (proj2 C2_pattern_matches_from_start)
             (Fixtures.string_schema "abc") "abc" "abcx");
      [reflexivity | reflexivity | discriminate | reflexivity].
  - apply (proj1 (proj2 C2_pattern_matches_from_start)
             (Fixtures.string_schema "abc") "abc" "xabcx");
      [reflexivity | reflexivity | discriminate | reflexivity | reflexivity].
Defined.

(** C9 as stated does not hold.  A failing element or property is not
    identified: the array schema raises the same message whether element
    0 or element 1 is the one that fails, so that no reading of the
    message tells which; the object schema raises it for its property
    [name], and it is the message the item schema raises for the bare
    value.  And not every message names a kind or a value: the one for a
    missing required value names none of the six kinds. *)
Lemma C9_counterexample :
  ParameterSchema.validate Fixtures.array_of_strings (VList [VInt 1])
  = Raise (ValidationError "Expected string, got <class 'int'>")
  /\ ParameterSchema.validate Fixtures.array_of_strings
       (VList [VStr "a"; VInt 1])
     = Raise (ValidationError "Expected string, got <class 'int'>")
  /\ ParameterSchema.validate Fixtures.object_with_name
       (VDict [("name", VInt 123)])
     = Raise (ValidationError "Expected string, got <class 'int'>")
  /\ ParameterSchema.validate (Fixtures.schema_of STRING) (VInt 1)
     = Raise (ValidationError "Expected string, got <class 'int'>")
  /\ ParameterSchema.validate Fixtures.required_string VNone
     = Raise (ValidationError "Required parameter is missing")
  /\ existsb
       (fun k =>
          is_substring (ParameterType_value k) "Required parameter is missing")
       [STRING; NUMBER; BOOLEAN; ARRAY; OBJECT; ENUM]
     = false
  /\ ~ (exists which : string -> nat,
          (forall m,
              ParameterSchema.validate Fixtures.array_of_strings
                (VList [VInt 1]) = Raise (ValidationError m) ->
              which m = 0%nat)
          /\ (forall m,
                ParameterSchema.validate Fixtures.array_of_strings
                  (VList [VStr "a"; VInt 1]) = Raise (ValidationError m) ->
                which m = 1%nat)).
Proof.
  repeat split; try reflexivity.
  intros (which & H0 & H1).
  specialize (H0 _ eq_refl). specialize (H1 _ eq_refl). congruence.
Qed.

(** C9, amended. A value that is not null and not of the runtime type
    its kind asks for (string, number, boolean, array, object) is refused
    with the message [Expected <kind>, got <runtime type>], which names
    the expected kind and the actual type.  A nested failure is raised
    as it is: an array raises what its first failing element raises, an
    object what the first listed property with a failing value raises,
    with no index, property name or wrapping added. *)
Theorem C9_messages_and_nesting (self : ParameterSchema.t) :
  (forall k v,
      ParameterSchema.type_is self k = true ->
      is_None v = false ->
      has_runtime_type k v = false ->
      ParameterSchema.validate self v =
        Raise (ValidationError
                 ("Expected " ++ ParameterType_value k ++ ", got " ++
                  type_repr v)))
  /\ (forall item_validator pre x post e,
        ParameterSchema.type_is self ARRAY = true ->
        truthy (ParameterSchema.items self) = true ->
        ParameterSchema.call (ParameterSchema.items self)
        = Ok item_validator ->
        (forall y, In y pre ->
                   ParameterSchema.validate item_validator y = Ok tt) ->
        ParameterSchema.validate item_validator x = Raise e ->
        ParameterSchema.validate self (VList (pre ++ x :: post)) = Raise e)
  /\ (forall entries pre name schema post prop_validator prop_value e,
        ParameterSchema.type_is self OBJECT = true ->
        truthy (ParameterSchema.properties self) = true ->
        py_items (ParameterSchema.properties self)
        = Ok (pre ++ (name, schema) :: post)%list ->
        (forall p, In p pre -> check_property entries p = Ok tt) ->
        dict_get name entries = Some prop_value ->
        ParameterSchema.call schema = Ok prop_validator ->
        ParameterSchema.validate prop_validator prop_value = Raise e ->
        ParameterSchema.validate self (VDict entries) = Raise e).
Proof.
  split; [|split].
  - intros k v. apply validate_type_mismatch.
  - intros iv pre x post e Hk Hit Hcall Hpre Hx.
    rewrite (validate_array self iv _ Hk Hit Hcall).
    now apply for_each_first_failure.
  - intros entries pre name schema post pv pval e Hk Hpr Hitems Hpre Hget
      Hcall Hval.
    rewrite (validate_object self _ entries Hk Hpr Hitems).
    apply for_each_first_failure; [assumption|].
    unfold check_property. simpl fst. simpl snd.
    rewrite (dict_with_present name _ _ entries pval Hget), Hcall.
    exact Hval.
Qed.

(** The amended C9 on the arrays and the object of the counterexample. *)
Lemma C9_witness :
  ParameterSchema.validate (Fixtures.schema_of BOOLEAN) (VInt 1)
  = Raise (ValidationError
             ("Expected " ++ ParameterType_value BOOLEAN ++ ", got " ++
              type_repr (VInt 1)))
  /\ ParameterSchema.validate Fixtures.array_of_strings
       (VList ([VStr "a"] ++ VInt 1 :: [VStr "b"]))
     = Raise (ValidationError "Expected string, got <class 'int'>")
  /\ ParameterSchema.validate Fixtures.object_with_name
       (VDict [("extra", VInt 999); ("name", VInt 123)])
     = Raise (ValidationError "Expected string, got <class 'int'>").
Proof.
  split; [|split].
  - apply (proj1 (C9_messages_and_nesting (Fixtures.schema_of BOOLEAN)));
      reflexivity.
  - apply (proj1 (proj2 (C9_messages_and_nesting Fixtures.array_of_strings))
             (ParameterSchema.mk (VType STRING) (VStr "Array item")
                (VBool false) VNone VNone VNone VNone VNone VNone)
             [VStr "a"] (VInt 1) [VStr "b"]).
    all: try reflexivity.
    intros y [<-|[]]. reflexivity.
  - apply (proj2 (proj2 (C9_messages_and_nesting Fixtures.object_with_name))
             [("extra", VInt 999); ("name", VInt 123)] [] "name"
             (VDict [("type", VStr "string");
                     ("description", VStr "Name field")])
             []
             (ParameterSchema.mk (VType STRING) (VStr "Name field")
                (VBool false) VNone VNone VNone VNone VNone VNone)
             (VInt 123)).
    all: try reflexivity.
    intros p [].
Defined.

(* ------------------------------------------------------------------ *)
(** ** [FunctionSchema.validate_parameters] *)

Section ValidateParametersFacts.
Import FunctionSchema.
Implicit Types (self : FunctionSchema.t) (params : dict value).

Lemma validate_parameters_ok self params :
  validate_parameters self params = Ok tt <->
  exists names,
    py_iter (required self) = Ok names
    /\ for_each (check_required params) names = Ok tt
    /\ for_each (check_provided self) params = Ok tt.
Proof.
  unfold validate_parameters.
  destruct (py_iter (required self)) as [names|e]; simpl.
  - destruct (for_each (check_required params) names) as [[]|e] eqn:E; simpl.
    + split; [eauto | now intros (names' & [= <-] & _ & H)].
    + split; [discriminate|]. intros (names' & [= <-] & H & _).
      congruence.
  - split; [discriminate | now intros (names' & H & _)].
Qed.

Lemma check_required_ok params x :
  check_required params x = Ok tt <->
  exists s, x = VStr s /\ dict_has s params = true.
Proof.
  unfold check_required, key_in.
  destruct x; simpl; try (split; [discriminate | now intros (s & H & _)]).
  split.
  - destruct (dict_has s params) eqn:E; simpl; [eauto | discriminate].
  - intros (s' & [= <-] & H). now rewrite H.
Qed.

Lemma check_required_missing params n :
  dict_has n params = false ->
  check_required params (VStr n) =
    Raise (ValidationError ("Required parameter '" ++ n ++ "' is missing")).
Proof. intros H. unfold check_required. simpl. now rewrite H. Qed.

Lemma check_provided_unknown self k v :
  dict_has k (parameters self) = false ->
  check_provided self (k, v) =
    Raise (ValidationError ("Unknown parameter: " ++ k)).
Proof. intros H. unfold check_provided. now rewrite H. Qed.

Lemma check_provided_known self k v schema :
  dict_get k (parameters self) = Some schema ->
  check_provided self (k, v) =
    match ParameterSchema.validate schema v with
    | Raise (ValidationError e) =>
        Raise (ValidationError
                 ("Invalid value for parameter '" ++ k ++ "': " ++ e))
    | other => other
    end.
Proof.
  intros H. unfold check_provided, dict_getitem, dict_has. now rewrite H.
Qed.

(** The code's single pass and the specification's two passes over the
    argument map accept the same entries. *)
Lemma is_ok_check_provided self item :
  is_ok (check_provided self item) =
  is_ok (check_known self item) && is_ok (check_value self item).
Proof.
  destruct item as [k v].
  destruct (dict_get k (parameters self)) as [schema|] eqn:E.
  - rewrite (check_provided_known self k v schema E).
    unfold check_known, check_value, dict_has. simpl. rewrite E. simpl.
    now destruct (ParameterSchema.validate schema v) as [[]|[]].
  - rewrite check_provided_unknown by (unfold dict_has; now rewrite E).
    unfold check_known, dict_has. simpl. now rewrite E.
Qed.

Lemma forallb_ext {A : Type} (f g : A -> bool) :
  (forall x, f x = g x) -> forall xs, forallb f xs = forallb g xs.
Proof.
  intros H xs. induction xs as [|x xs IH]; simpl; [reflexivity|].
  now rewrite H, IH.
Qed.

Lemma forallb_andb {A : Type} (f g : A -> bool) (xs : list A) :
  forallb (fun x => f x && g x) xs = forallb f xs && forallb g xs.
Proof.
  induction xs as [|x xs IH]; simpl; [reflexivity|].
  rewrite IH. destruct (f x), (g x), (forallb f xs); reflexivity.
Qed.

Lemma same_acceptance self params :
  is_ok (validate_parameters self params) =
  is_ok (validate_parameters_in_three_passes self params).
Proof.
  unfold validate_parameters, validate_parameters_in_three_passes.
  destruct (py_iter (required self)) as [names|e]; simpl; [|reflexivity].
  destruct (for_each (check_required params) names) as [[]|e]; simpl;
    [|reflexivity].
  rewrite is_ok_for_each.
  rewrite (forallb_ext _ _ (fun item => is_ok_check_provided self item)).
  rewrite forallb_andb, <- !is_ok_for_each.
  now destruct (for_each (check_known self) params) as [[]|e].
Qed.
End ValidateParametersFacts.

(** The schema the registry builds from the test definition is the one
    the examples below use. *)
Example test_function_schema_built :
  FunctionRegistry.build_schema Fixtures.test_schema
  = Ok Fixtures.test_function_schema.
Proof. reflexivity. Qed.

(** C5 as stated does not hold: the code has no pass over the keys that
    precedes the validation of the values.  With the invalid [age]
    before the unknown key in the argument map, the code reports the
    invalid value, where the three passes of the claim would report the
    unknown key. *)
Lemma C5_counterexample :
  FunctionSchema.validate_parameters Fixtures.test_function_schema
    [("name", VStr "Alice"); ("age", VInt (-1)); ("unknown", VInt 1)]
  = Raise (ValidationError
             "Invalid value for parameter 'age': Value -1 is less than minimum 0")
  /\ validate_parameters_in_three_passes Fixtures.test_function_schema
       [("name", VStr "Alice"); ("age", VInt (-1)); ("unknown", VInt 1)]
     = Raise (ValidationError "Unknown parameter: unknown")
  /\ FunctionSchema.validate_parameters Fixtures.test_function_schema
       [("name", VStr "Alice"); ("age", VInt (-1)); ("unknown", VInt 1)]
     <> validate_parameters_in_three_passes Fixtures.test_function_schema
          [("name", VStr "Alice"); ("age", VInt (-1)); ("unknown", VInt 1)].
Proof. repeat split; try reflexivity. discriminate. Qed.

Section ValidateParametersClaims.
Import FunctionSchema.
Variables (self : FunctionSchema.t) (params : dict value).

(** C5, amended. [validate_parameters] first goes through the required
    list in its order and fails on the first name that is not a key of
    the argument map.  It then goes once through the argument map in
    insertion order and fails on the first entry that is not in order:
    with an unknown-parameter error when the key is not in the
    parameters mapping, and otherwise, when the value does not validate,
    with the nested message wrapped in an error naming the parameter.
    The check of a key precedes the validation of its own value only;
    the map is accepted exactly when the three passes of the original
    claim would accept it. *)
Theorem C5_checks_in_order :
  (forall names pre n post,
      py_iter (required self) = Ok names ->
      names = (pre ++ VStr n :: post)%list ->
      (forall y, In y pre -> check_required params y = Ok tt) ->
      dict_has n params = false ->
      validate_parameters self params =
        Raise (ValidationError
                 ("Required parameter '" ++ n ++ "' is missing")))
  /\ (forall names pre k v post,
        py_iter (required self) = Ok names ->
        for_each (check_required params) names = Ok tt ->
        params = (pre ++ (k, v) :: post)%list ->
        (forall item, In item pre -> check_provided self item = Ok tt) ->
        (dict_has k (parameters self) = false ->
         validate_parameters self params =
           Raise (ValidationError ("Unknown parameter: " ++ k)))
        /\ (forall schema m,
              dict_get k (parameters self) = Some schema ->
              ParameterSchema.validate schema v = Raise (ValidationError m) ->
              validate_parameters self params =
                Raise (ValidationError
                         ("Invalid value for parameter '" ++ k ++ "': " ++
                          m))))
  /\ is_ok (validate_parameters self params) =
     is_ok (validate_parameters_in_three_passes self params).
Proof.
  split; [|split].
  - intros names pre n post Hiter -> Hpre Hmiss.
    unfold validate_parameters. rewrite Hiter. simpl.
    rewrite (for_each_first_failure _ pre (VStr n) post _ Hpre
               (check_required_missing params n Hmiss)).
    reflexivity.
  - intros names pre k v post Hiter Hreq Hparams Hpre.
    unfold validate_parameters. rewrite Hiter. simpl. rewrite Hreq. simpl.
    rewrite Hparams in *. split.
    + intros Hunk.
      apply for_each_first_failure; [assumption|].
      now apply check_provided_unknown.
    + intros schema m Hget Hval.
      apply for_each_first_failure; [assumption|].
      rewrite (check_provided_known self k v schema Hget). now rewrite Hval.
  - apply same_acceptance.
Qed.

(** C10. When a name is in the required list and its own
    [ParameterSchema] has the [required] flag at its default [False],
    binding the name to [None] is accepted: [None] passes the schema; an
    accepted argument map binds the name and stays accepted when the
    name is rebound to [None]; and when the name is the only required
    one, the map that binds just it to [None] is accepted. *)
Theorem C10_required_name_accepts_none
    (n : string) (schema : ParameterSchema.t) (names : list value) :
  py_iter (required self) = Ok names ->
  In (VStr n) names ->
  dict_get n (parameters self) = Some schema ->
  ParameterSchema.required schema = VBool false ->
  ParameterSchema.validate schema VNone = Ok tt
  /\ (validate_parameters self params = Ok tt ->
      dict_has n params = true
      /\ validate_parameters self (dict_set n VNone params) = Ok tt)
  /\ (names = [VStr n] ->
      validate_parameters self [(n, VNone)] = Ok tt).
Proof.
  intros Hiter Hin Hget Hflag.
  assert (Hnone : ParameterSchema.validate schema VNone = Ok tt).
  { apply validate_none. now rewrite Hflag. }
  assert (Hbound : check_provided self (n, VNone) = Ok tt).
  { rewrite (check_provided_known self n VNone schema Hget). now rewrite Hnone. }
  split; [assumption | split].
  - intros Hok. apply validate_parameters_ok in Hok.
    destruct Hok as (names' & Hiter' & Hreq & Hprov).
    rewrite Hiter in Hiter'. injection Hiter' as <-.
    rewrite for_each_ok in Hreq. rewrite for_each_ok in Hprov.
    split.
    + destruct (proj1 (check_required_ok params (VStr n)) (Hreq _ Hin))
        as (s & [= <-] & Hs). exact Hs.
    + apply validate_parameters_ok. exists names.
      split; [assumption | split]; apply for_each_ok.
      * intros x Hx. apply check_required_ok.
        destruct (proj1 (check_required_ok params x) (Hreq x Hx))
          as (s & -> & Hs).
        exists s. split; [reflexivity|].
        unfold dict_has in *.
        destruct (String.eqb_spec n s) as [->|Hne].
        -- now rewrite dict_get_set_same.
        -- now rewrite dict_get_set_other.
      * intros item Hitem.
        assert (Hcases : In item params \/ item = (n, VNone)).
        { clear - Hitem. induction params as [|[k v] d IH]; simpl in *.
          - destruct Hitem as [<-|[]]. now right.
          - destruct (String.eqb_spec n k) as [->|Hne]; simpl in Hitem.
            + destruct Hitem as [<-|H]; [now right | left; now right].
            + destruct Hitem as [<-|H]; [left; now left|].
              destruct (IH H) as [H'|H']; [left; now right | now right]. }
        destruct Hcases as [H| ->]; [now apply Hprov | exact Hbound].
  - intros ->. apply validate_parameters_ok. exists [VStr n].
    split; [assumption | split]; apply for_each_ok.
    + intros x [<-|[]]. apply check_required_ok. exists n.
      split; [reflexivity|]. unfold dict_has. simpl.
      now rewrite String.eqb_refl.
    + intros item [<-|[]]. exact Hbound.
Qed.
End ValidateParametersClaims.

(** The amended C5 on the test schema: a missing required name is
    reported before anything else, and the entry [age], the first that is
    not in order, decides the error although an unknown key follows. *)
Lemma C5_witness :
  FunctionSchema.validate_parameters Fixtures.test_function_schema
    [("unknown", VInt 1)]
  = Raise (ValidationError "Required parameter 'name' is missing")
  /\ FunctionSchema.validate_parameters Fixtures.test_function_schema
       [("name", VStr "Alice"); ("age", VInt (-1)); ("unknown", VInt 1)]
     = Raise (ValidationError
                ("Invalid value for parameter 'age': " ++
                 "Value -1 is less than minimum 0")).
Proof.
  split.
  - apply (proj1 (C5_checks_in_order Fixtures.test_function_schema
                    [("unknown", VInt 1)])
             [VStr "name"] [] "name" []);
      [reflexivity | reflexivity | intros y [] | reflexivity].
  - apply (proj2 (proj1 (proj2 (C5_checks_in_order
                                  Fixtures.test_function_schema
                                  [("name", VStr "Alice");
                                   ("age", VInt (-1));
                                   ("unknown", VInt 1)]))
                    [VStr "name"] [("name", VStr "Alice")] "age" (VInt (-1))
                    [("unknown", VInt 1)] eq_refl eq_refl eq_refl
                    ltac:(intros item [<-|[]]; reflexivity))
             (ParameterSchema.mk (VType NUMBER) (VStr "The age parameter")
                (VBool false) (VInt 0) VNone VNone VNone VNone VNone)
             "Value -1 is less than minimum 0");
      reflexivity.
Defined.

(** C10 on the test schema, whose required list is [["name"]]: binding
    [name] to [None] is accepted, alone or next to a valid [age]. *)
Lemma C10_witness :
  FunctionSchema.validate_parameters Fixtures.test_function_schema
    [("name", VNone)] = Ok tt
  /\ FunctionSchema.validate_parameters Fixtures.test_function_schema
       (dict_set "name" VNone [("name", VStr "Alice"); ("age", VInt 25)])
     = Ok tt.
Proof.
  split.
  - apply (proj2 (proj2 (C10_required_name_accepts_none
                           Fixtures.test_function_schema [] "name"
                           (ParameterSchema.mk (VType STRING)
                              (VStr "The name parameter") (VBool false)
                              VNone VNone VNone VNone VNone VNone)
                           [VStr "name"] eq_refl (or_introl eq_refl)
                           eq_refl eq_refl))).
    reflexivity.
  - apply (proj1 (proj2 (C10_required_name_accepts_none
                           Fixtures.test_function_schema
                           [("name", VStr "Alice"); ("age", VInt 25)] "name"
                           (ParameterSchema.mk (VType STRING)
                              (VStr "The name parameter") (VBool false)
                              VNone VNone VNone VNone VNone VNone)
                           [VStr "name"] eq_refl (or_introl eq_refl)
                           eq_refl eq_refl))).
    reflexivity.
Defined.

(* ------------------------------------------------------------------ *)
(** ** The repository's tests, replayed on the model *)

Section Tests.
Import ParameterSchema Fixtures.

(** [test_parameter_schema_validation] *)
Example test_string_validation :
  validate (Fixtures.string_schema "^[A-Za-z]+$") (VStr "Hello") = Ok tt
  /\ validate (Fixtures.string_schema "^[A-Za-z]+$") (VInt 123)
     = Raise (ValidationError "Expected string, got <class 'int'>")
  /\ is_ok (validate (Fixtures.string_schema "^[A-Za-z]+$") (VStr "Hello123"))
     = false.
Proof. repeat split; reflexivity. Qed.

Example test_number_validation :
  validate percent_schema (VInt 50) = Ok tt
  /\ validate percent_schema (VStr "50")
     = Raise (ValidationError "Expected number, got <class 'str'>")
  /\ validate percent_schema (VInt (-1))
     = Raise (ValidationError "Value -1 is less than minimum 0")
  /\ validate percent_schema (VInt 101)
     = Raise (ValidationError "Value 101 is greater than maximum 100")
  /\ validate percent_schema (VFloat (S754_finite false 201 (-1)))
     = Raise (ValidationError "Value 100.5 is greater than maximum 100").
Proof. repeat split; reflexivity. Qed.

Example test_boolean_validation :
  validate (Fixtures.schema_of BOOLEAN) (VBool true) = Ok tt
  /\ validate (Fixtures.schema_of BOOLEAN) (VBool false) = Ok tt
  /\ is_ok (validate (Fixtures.schema_of BOOLEAN) (VStr "true")) = false
  /\ is_ok (validate (Fixtures.schema_of BOOLEAN) (VInt 1)) = false.
Proof. repeat split; reflexivity. Qed.

Example test_array_validation :
  validate Fixtures.array_of_strings
    (VList [VStr "one"; VStr "two"; VStr "three"]) = Ok tt
  /\ is_ok (validate Fixtures.array_of_strings (VStr "not an array")) = false
  /\ is_ok (validate Fixtures.array_of_strings
              (VList [VInt 1; VInt 2; VInt 3])) = false.
Proof. repeat split; reflexivity. Qed.

Example test_object_validation :
  validate Fixtures.object_with_name (VDict [("name", VStr "test")]) = Ok tt
  /\ is_ok (validate Fixtures.object_with_name (VStr "not an object")) = false
  /\ is_ok (validate Fixtures.object_with_name (VDict [("name", VInt 123)]))
     = false
  /\ validate Fixtures.object_with_name
       (VDict [("name", VStr "x"); ("extra", VInt 999)]) = Ok tt.
Proof. repeat split; reflexivity. Qed.

Example test_enum_validation :
  validate enum_schema (VStr "red") = Ok tt
  /\ validate enum_schema (VStr "yellow")
     = Raise (ValidationError
                "Value yellow not in enum values: ['red', 'green', 'blue']").
Proof. split; reflexivity. Qed.

(** [test_function_schema_validation] and the examples of the
    specification *)
Example test_function_schema_validation :
  let check := FunctionSchema.validate_parameters
                 Fixtures.test_function_schema in
  check [("name", VStr "Alice"); ("age", VInt 25)] = Ok tt
  /\ check [("name", VStr "Alice")] = Ok tt
  /\ check [] = Raise (ValidationError "Required parameter 'name' is missing")
  /\ check [("age", VInt 42)]
     = Raise (ValidationError "Required parameter 'name' is missing")
  /\ check [("name", VStr "Alice"); ("age", VStr "not a number")]
     = Raise (ValidationError
                "Invalid value for parameter 'age': Expected number, got <class 'str'>")
  /\ check [("name", VStr "Alice"); ("unknown", VInt 1)]
     = Raise (ValidationError "Unknown parameter: unknown")
  /\ check [("name", VStr "Alice"); ("age", VInt (-1))]
     = Raise (ValidationError
                "Invalid value for parameter 'age': Value -1 is less than minimum 0").
Proof. repeat split; reflexivity. Qed.

(** [test_function_validator] *)
Example test_function_validator :
  FunctionValidator.validate_function_definition
    [("name", VStr "test_function");
     ("description", VStr "A test function");
     ("parameters",
      VDict [("param1", VDict [("type", VStr "string");
                               ("description", VStr "First parameter")])])]
  = Ok tt
  /\ FunctionValidator.validate_function_definition
       [("name", VStr "test_function"); ("parameters", VDict [])]
     = Raise (ValidationError
                "Missing required field in function definition: description")
  /\ FunctionValidator.validate_function_definition
       [("name", VStr "test_function");
        ("description", VStr "A test function");
        ("parameters",
         VDict [("param1", VDict [("type", VStr "invalid_type");
                                  ("description", VStr "First parameter")])])]
     = Raise (ValidationError
                "Invalid parameter type for 'param1': invalid_type").
Proof. repeat split; reflexivity. Qed.

(** [test_create_schema_from_parameters] *)
Example test_create_schema_from_parameters :
  FunctionValidator.create_schema_from_parameters
    [("string_param", VStr "test"); ("number_param", VInt 42);
     ("boolean_param", VBool true);
     ("array_param", VList [VInt 1; VInt 2; VInt 3]);
     ("object_param", VDict [("key", VStr "value")])]
  = Ok [("string_param",
         VDict [("type", VStr "string");
                ("description", VStr "Parameter: string_param")]);
        ("number_param",
         VDict [("type", VStr "number");
                ("description", VStr "Parameter: number_param")]);
        ("boolean_param",
         VDict [("type", VStr "boolean");
                ("description", VStr "Parameter: boolean_param")]);
        ("array_param",
         VDict [("type", VStr "array");
                ("description", VStr "Parameter: array_param")]);
        ("object_param",
         VDict [("type", VStr "object");
                ("description", VStr "Parameter: object_param")])]
  /\ FunctionValidator.create_schema_from_parameters [("invalid", VNone)]
     = Raise (ValidationError
                "Unsupported parameter type for 'invalid': <class 'NoneType'>").
Proof. split; reflexivity. Qed.

(** [test_function_registry_unregistration] and
    [test_system_prompt_updates] *)
Example test_system_prompt_updates :
  let added :=
    snd (fst (GemmaFunctionCaller.register_function "test_func"
                (Fixtures.flaky 0) Fixtures.test_schema
                Fixtures.empty_caller)) in
  let removed :=
    snd (fst (GemmaFunctionCaller.unregister_function "test_func" added)) in
  GemmaFunctionCaller.init (W:=nat) FunctionRegistry.init
  = Ok Fixtures.empty_caller
  /\ GemmaFunctionCaller.get_system_prompt added
     = "Available functions:" ++ GemmaFunctionCaller.nl ++
       GemmaFunctionCaller.nl ++ "- test_func: A test function" ++
       GemmaFunctionCaller.nl
  /\ GemmaFunctionCaller.get_system_prompt removed
     = "No functions are currently available."
  /\ FunctionRegistry.get_function "test_func"
       (GemmaFunctionCaller.registry removed) = None
  /\ FunctionRegistry.get_schema "test_func"
       (GemmaFunctionCaller.registry removed) = None
  /\ fst (fst (GemmaFunctionCaller.call_function "test_func"
                 [("name", VStr "Alice")] 3 removed 0%nat))
     = Raise (ValueError "Function test_func not found").
Proof. repeat split; reflexivity. Qed.

(** The models of the built-ins on a few inputs, with what CPython
    prints or answers for them. *)
Example repr_examples :
  float_repr (S754_finite false 3602879701896397 (-55)) = "0.1"
  /\ float_repr (S754_finite false 3 (-1)) = "1.5"
  /\ float_repr (S754_finite true 5 2) = "-20.0"
  /\ float_repr (S754_finite false 4882812500000000 11) = "1e+19"
  /\ float_repr (S754_finite false 5 (-20)) = "4.76837158203125e-06"
  /\ py_str (VList [VInt 1; VStr "a"; VNone; VBool true;
                    VDict [("k", VList [VFloat (S754_zero false)])]])
     = "[1, 'a', None, True, {'k': [0.0]}]"
  /\ py_str (VType STRING) = "ParameterType.STRING"
  /\ type_repr (VBool true) = "<class 'bool'>".
Proof. repeat split; reflexivity. Qed.

Example comparison_examples :
  py_eq (VInt 1) (VBool true) = true
  /\ py_eq (VInt 1) (VFloat (S754_finite false 1 0)) = true
  /\ py_eq (VStr "1") (VInt 1) = false
  /\ py_eq (VDict [("a", VInt 1); ("b", VInt 2)])
           (VDict [("b", VInt 2); ("a", VInt 1)]) = true
  /\ py_lt (VInt 9007199254740993)
       (VFloat (S754_finite false 4503599627370497 1)) = Ok true
  /\ py_lt (VFloat S754_nan) (VInt 1) = Ok false
  /\ py_lt (VInt 1) (VStr "a") = Raise TypeError
  /\ py_in (VInt 1) (VList [VStr "a"; VBool true]) = Ok true
  /\ py_in (VStr "bc") (VStr "abcd") = Ok true
  /\ py_in (VInt 1) (VStr "abcd") = Raise TypeError.
Proof. repeat split; reflexivity. Qed.

(** [re.match] on the patterns of the claims and on patterns that use
    the rest of the modelled syntax. *)
Example re_match_examples :
  re_match_str "abc" "xabcx" = Parsed false
  /\ re_match_str "abc" "abcx" = Parsed true
  /\ re_match_str "^[A-Za-z]+$" "Hello123" = Parsed false
  /\ re_match_str "^[A-Za-z]+$" "Hello" = Parsed true
  /\ re_match_str "[A-Za-z]+" "Hello123" = Parsed true
  /\ re_match_str "a{2}" "aa" = Parsed true
  /\ re_match_str "a{2}" "a" = Parsed false
  /\ re_match_str "a{2,3}$" "aaaa" = Parsed false
  /\ re_match_str "a{,2}b" "aab" = Parsed true
  /\ re_match_str "a+?b" "aab" = Parsed true
  /\ re_match_str "x{" "x{" = Parsed true
  /\ re_match_str "a|b+" "bb" = Parsed true
  /\ re_match_str "\d{3}-\d{4}" "555-1234" = Parsed true
  /\ re_match_str "\w+@\w+\.com" "bob@example.com" = Parsed true
  /\ re_match_str "\s" (String (ascii_of_nat 28) "") = Parsed true
  /\ re_match_str "^\d+$" ("12" ++ GemmaFunctionCaller.nl) = Parsed true
  /\ re_match_str "\d+\Z" ("12" ++ GemmaFunctionCaller.nl) = Parsed false
  /\ re_match_str "(ab)*c" "ababc" = Parsed true
  /\ re_match_str "[^\W\d]" "7" = Parsed false
  /\ re_match_str "(a|)*b" "aab" = Parsed true
  /\ re_match_str "a.c" "abc" = Parsed true
  /\ re_match_str "a.c" ("a" ++ GemmaFunctionCaller.nl ++ "c") = Parsed false
  /\ re_match_str "^a.\d[^b-c\s]$|\A\Z" "ax7d" = Parsed true
  /\ re_match_str "^a.\d[^b-c\s]$|\A\Z" "ax7c" = Parsed false
  /\ re_match_str "^a.\d[^b-c\s]$|\A\Z" "" = Parsed true.
Proof. repeat split; reflexivity. Qed.

(** Patterns [re] refuses, and patterns outside the model. *)
Example re_compile_examples :
  re_compile "(" = Malformed
  /\ re_compile "a)" = Malformed
  /\ re_compile "a**" = Malformed
  /\ re_compile "[a" = Malformed
  /\ re_compile "*a" = Malformed
  /\ re_compile "a{2,1}" = Malformed
  /\ re_compile "[z-a]" = Malformed
  /\ re_compile "(?i)abc" = Unsupported
  /\ re_compile "a*+" = Unsupported
  /\ re_compile "(?=a)" = Unsupported
  /\ re_compile "\bword" = Unsupported
  /\ re_compile "(a)\1" = Unsupported
  /\ re_compile "a{2,3}"
     = Parsed (RSeq (RSeq (RChar "a")
                       (RSeq (RChar "a")
                          (ROpt (RSeq (RChar "a") REmpty))))
                 REmpty)
  /\ re_compile "(?:a|b)*\."
     = Parsed (RSeq (RStar (RAlt (RSeq (RChar "a") REmpty)
                              (RSeq (RChar "b") REmpty)))
                 (RSeq (RChar ".") REmpty))
  /\ re_compile "^a.\d[^b-c\s]$|\A\Z"
     = Parsed
         (RAlt
            (RSeq RBol
               (RSeq (RChar "a")
                  (RSeq RAny
                     (RSeq (RSet false [Class false Digit])
                        (RSeq (RSet true [Range "b" "c"; Class false Space])
                           (RSeq REol REmpty))))))
            (RSeq RBol (RSeq REnd REmpty))).
Proof. repeat split; reflexivity. Qed.
End Tests.

(* ================================================================== *)
(** * Further properties of the two modules *)

(** ** More on dictionaries *)

Section DictMore.
Context {A : Type}.
Implicit Types (d : dict A) (k : string).

Lemma dict_set_absent k (v : A) d :
  dict_has k d = false -> dict_set k v d = (d ++ [(k, v)])%list.
Proof.
  unfold dict_has. induction d as [|[k0 v0] d IH]; simpl; [reflexivity|].
  destruct (String.eqb k k0); [discriminate|].
  intros H. now rewrite IH.
Qed.

Lemma dict_del_set_absent k (v : A) d :
  dict_has k d = false -> dict_del k (dict_set k v d) = d.
Proof.
  unfold dict_has. induction d as [|[k0 v0] d IH]; simpl.
  - now rewrite String.eqb_refl.
  - destruct (String.eqb k k0) eqn:E; [discriminate|].
    intros H. simpl. rewrite E. now rewrite IH.
Qed.

Lemma dict_get_del_other k k' d :
  k <> k' -> dict_get k' (dict_del k d) = dict_get k' d.
Proof.
  intros Hne. induction d as [|[k0 v0] d IH]; simpl; [reflexivity|].
  destruct (String.eqb_spec k k0) as [->|Hk]; simpl.
  - destruct (String.eqb_spec k' k0); congruence.
  - now rewrite IH.
Qed.

Lemma dict_get_del_same k d :
  NoDup (dict_keys d) -> dict_get k (dict_del k d) = None.
Proof.
  induction d as [|[k0 v0] d IH]; simpl; [reflexivity|].
  intros H. inversion H as [|? ? Hnotin Hd]; subst.
  destruct (String.eqb_spec k k0) as [->|Hk]; simpl.
  - apply dict_has_false_In in Hnotin. unfold dict_has in Hnotin.
    now destruct (dict_get k0 d).
  - destruct (String.eqb_spec k k0); [congruence | now apply IH].
Qed.

Lemma dict_get_In k (v : A) d : dict_get k d = Some v -> In (k, v) d.
Proof.
  induction d as [|[k0 v0] d IH]; simpl; [discriminate|].
  destruct (String.eqb_spec k k0) as [->|Hk].
  - intros [= ->]. now left.
  - intros H. right. now apply IH.
Qed.

Lemma dict_get_NoDup_In k (v : A) d :
  NoDup (dict_keys d) -> In (k, v) d -> dict_get k d = Some v.
Proof.
  induction d as [|[k0 v0] d IH]; simpl; [contradiction|].
  intros H Hin. inversion H as [|? ? Hnotin Hd]; subst.
  destruct Hin as [[= -> ->]|Hin].
  - now rewrite String.eqb_refl.
  - destruct (String.eqb_spec k k0) as [->|Hk]; [|now apply IH].
    exfalso. apply Hnotin. apply (in_map fst) in Hin. exact Hin.
Qed.

Lemma dict_with_set_other {B : Type} k k' (v : A) (body : A -> B) default d :
  k <> k' ->
  dict_with k' body default (dict_set k v d) = dict_with k' body default d.
Proof.
  intros Hne. induction d as [|[k0 v0] d IH]; simpl.
  - destruct (String.eqb_spec k' k); congruence.
  - destruct (String.eqb_spec k k0) as [->|Hk]; simpl.
    + destruct (String.eqb_spec k' k0); congruence.
    + now rewrite IH.
Qed.
End DictMore.

Lemma for_each_ext {A : Type} (f g : A -> result unit) (xs : list A) :
  (forall x, In x xs -> f x = g x) -> for_each f xs = for_each g xs.
Proof.
  induction xs as [|x xs IH]; intros H; simpl; [reflexivity|].
  rewrite (H x (or_introl eq_refl)), IH; [reflexivity|].
  intros y Hy. apply H. now right.
Qed.

(* ------------------------------------------------------------------ *)
(** ** The registry life cycle *)

Section RegistryMore.
Context {W : Type}.
Import FunctionRegistry RegistryOps.
Implicit Types (self : FunctionRegistry.t W).

Lemma list_functions_names self :
  map (dict_get "name") (list_functions self)
  = map (fun k => Some (VStr k)) (dict_keys (_schemas self)).
Proof.
  unfold list_functions, dict_keys. rewrite !map_map.
  apply map_ext. intros [k s]. reflexivity.
Qed.

(** X1. Registering a name that is not taken, with a definition from
    which a schema can be built, returns and installs the pair: the
    lookups of that name find the callable and the schema, the lookups of
    every other name are as before, and the function comes last in
    [list_functions()]. *)
Theorem X1_register_installs_pair
    name (func : Callable W) schema self fs :
  dict_has name (_functions self) = false ->
  build_schema schema = Ok fs ->
  let after := snd (fst (register name func schema self)) in
  fst (fst (register name func schema self)) = Ok tt
  /\ get_function name after = Some func
  /\ get_schema name after = Some fs
  /\ (forall other,
        other <> name ->
        get_function other after = get_function other self
        /\ get_schema other after = get_schema other self)
  /\ (dict_has name (_schemas self) = false ->
      list_functions after
      = (list_functions self ++
         [[("name", VStr name);
           ("description", FunctionSchema.description fs)]])%list).
Proof.
  intros Hfree Hbuild. unfold register, get_function, get_schema.
  rewrite Hfree, Hbuild. simpl.
  split; [reflexivity|]. split; [apply dict_get_set_same|].
  split; [apply dict_get_set_same|]. split.
  - intros other Hne. split; apply dict_get_set_other; congruence.
  - intros Hs. unfold list_functions. simpl.
    rewrite (dict_set_absent name fs _ Hs), map_app. reflexivity.
Qed.

(** X2. In a registry whose two maps are paired, unregistering a
    registered name returns and removes the name from both maps, and
    from them only. *)
Theorem X2_unregister_removes_pair name self :
  paired self ->
  dict_has name (_functions self) = true ->
  let after := snd (fst (unregister name self)) in
  fst (fst (unregister name self)) = Ok tt
  /\ get_function name after = None
  /\ get_schema name after = None
  /\ (forall other,
        other <> name ->
        get_function other after = get_function other self
        /\ get_schema other after = get_schema other self).
Proof.
  intros [Hk Hn] Hhas. unfold unregister, get_function, get_schema.
  rewrite Hhas. simpl.
  rewrite <- (same_keys_has name _ _ Hk), Hhas. simpl.
  split; [reflexivity|]. split; [now apply dict_get_del_same|].
  split; [apply dict_get_del_same; now rewrite <- Hk|].
  intros other Hne. split; apply dict_get_del_other; congruence.
Qed.

(** X3. Registering a new name and unregistering it again gives back the
    registry exactly as it was, order included. *)
Theorem X3_register_unregister_restores
    name (func : Callable W) schema self fs :
  dict_has name (_functions self) = false ->
  dict_has name (_schemas self) = false ->
  build_schema schema = Ok fs ->
  unregister name (snd (fst (register name func schema self)))
  = (Ok tt, self,
     [log INFO ("Successfully unregistered function: " ++ name)]).
Proof.
  intros Hf Hs Hbuild. unfold register. rewrite Hf, Hbuild. simpl.
  unfold unregister, dict_has. simpl. rewrite !dict_get_set_same. simpl.
  rewrite (dict_del_set_absent name func _ Hf).
  rewrite (dict_del_set_absent name fs _ Hs).
  now destruct self.
Qed.

(** X4. Updating a registered name replaces its callable and its schema
    where they stand: both maps keep their names in the same order, so
    [list_functions()] lists the same names in the same order, and the
    other names keep their entries.  The name listed is the registry key,
    whatever name the new definition declares. *)
Theorem X4_update_replaces_in_place
    name (new_func : Callable W) new_schema self fs :
  dict_has name (_functions self) = true ->
  dict_has name (_schemas self) = true ->
  build_schema new_schema = Ok fs ->
  let after := snd (fst (update_function name new_func new_schema self)) in
  fst (fst (update_function name new_func new_schema self)) = Ok tt
  /\ get_function name after = Some new_func
  /\ get_schema name after = Some fs
  /\ dict_keys (_functions after) = dict_keys (_functions self)
  /\ map (dict_get "name") (list_functions after)
     = map (dict_get "name") (list_functions self)
  /\ (forall other,
        other <> name ->
        get_function other after = get_function other self
        /\ get_schema other after = get_schema other self).
Proof.
  intros Hf Hs Hbuild. unfold update_function, get_function, get_schema.
  rewrite Hf, Hbuild. simpl.
  split; [reflexivity|]. split; [apply dict_get_set_same|].
  split; [apply dict_get_set_same|].
  split; [now apply dict_keys_set_present|]. split.
  - rewrite !list_functions_names. simpl.
    now rewrite (dict_keys_set_present name fs _ Hs).
  - intros other Hne. split; apply dict_get_set_other; congruence.
Qed.
End RegistryMore.

(** X1 to X4 on the registry of the tests. *)
Lemma X1_witness :
  FunctionRegistry.get_function "retry_func"
    (snd (fst (FunctionRegistry.register "retry_func" (Fixtures.flaky 2)
                 Fixtures.retry_schema
                 (GemmaFunctionCaller.registry Fixtures.test_caller))))
  = Some (Fixtures.flaky 2).
Proof.
  apply (proj1 (proj2 (X1_register_installs_pair "retry_func"
                         (Fixtures.flaky 2) Fixtures.retry_schema
                         (GemmaFunctionCaller.registry Fixtures.test_caller)
                         _ eq_refl eq_refl))).
Defined.

Lemma X2_witness :
  FunctionRegistry.get_function "test_func"
    (snd (fst (FunctionRegistry.unregister "test_func"
                 (GemmaFunctionCaller.registry Fixtures.test_caller))))
  = None.
Proof.
  assert (Hp : RegistryOps.paired
                 (GemmaFunctionCaller.registry Fixtures.test_caller)).
  { split; [reflexivity|]. simpl. repeat constructor. intros []. }
  apply (proj1 (proj2 (X2_unregister_removes_pair "test_func"
                         (GemmaFunctionCaller.registry Fixtures.test_caller)
                         Hp eq_refl))).
Defined.

Lemma X3_witness :
  FunctionRegistry.unregister "retry_func"
    (snd (fst (FunctionRegistry.register "retry_func" (Fixtures.flaky 2)
                 Fixtures.retry_schema
                 (GemmaFunctionCaller.registry Fixtures.test_caller))))
  = (Ok tt, GemmaFunctionCaller.registry Fixtures.test_caller,
     [log INFO ("Successfully unregistered function: " ++ "retry_func")]).
Proof.
  apply (X3_register_unregister_restores "retry_func" (Fixtures.flaky 2)
           Fixtures.retry_schema
           (GemmaFunctionCaller.registry Fixtures.test_caller) _
           eq_refl eq_refl eq_refl).
Defined.

Lemma X4_witness :
  FunctionRegistry.get_function "test_func"
    (snd (fst (FunctionRegistry.update_function "test_func"
                 (Fixtures.flaky 3) Fixtures.retry_schema
                 (GemmaFunctionCaller.registry Fixtures.test_caller))))
  = Some (Fixtures.flaky 3).
Proof.
  apply (proj1 (proj2 (X4_update_replaces_in_place "test_func"
                         (Fixtures.flaky 3) Fixtures.retry_schema
                         (GemmaFunctionCaller.registry Fixtures.test_caller)
                         _ eq_refl eq_refl eq_refl))).
Defined.

(* ------------------------------------------------------------------ *)
(** ** The dispatcher over time *)

Section DispatcherMore.
Context {W : Type}.
Import GemmaFunctionCaller DispatcherCalls.
Implicit Types (self : GemmaFunctionCaller.t W).

(** The registry method behind a dispatcher entry point. *)
Lemma run_registry (c : call W) self :
  registry (snd (fst (run c self)))
  = RegistryOps.run
      (match c with
       | RegisterFunction name func schema =>
           RegistryOps.Register name func schema
       | UnregisterFunction name => RegistryOps.Unregister name
       | UpdateFunction name func schema =>
           RegistryOps.UpdateFunction name func schema
       end)
      (registry self).
Proof.
  destruct c as [name func schema|name|name func schema]; simpl;
    unfold register_function, unregister_function, update_function.
  - destruct (FunctionRegistry.register name func schema (registry self))
      as [[[[]|e] reg] logs]; [now rewrite then_update_ok | reflexivity].
  - destruct (FunctionRegistry.unregister name (registry self))
      as [[[[]|e] reg] logs]; [now rewrite then_update_ok | reflexivity].
  - destruct (FunctionRegistry.update_function name func schema
                (registry self)) as [[[[]|e] reg] logs];
      [now rewrite then_update_ok | reflexivity].
Qed.

Lemma run_keeps_sync (c : call W) self :
  in_sync self -> in_sync (snd (fst (run c self))).
Proof.
  intros Hs. destruct (fst (fst (run c self))) as [[]|e] eqn:E.
  - now apply run_success.
  - destruct (run_failure c self e E) as [Hp Hl].
    unfold in_sync in *. congruence.
Qed.

Lemma dispatcher_run_all_keeps (calls : list (call W)) self :
  in_sync self ->
  RegistryOps.paired (registry self) ->
  in_sync (dispatcher_run_all calls self)
  /\ RegistryOps.paired (registry (dispatcher_run_all calls self)).
Proof.
  unfold dispatcher_run_all. revert self.
  induction calls as [|c calls IH]; intros self Hs Hp; simpl.
  - now split.
  - apply IH; [now apply run_keeps_sync|].
    rewrite run_registry. now apply paired_run.
Qed.

(** X5. A dispatcher created on an empty registry and used through
    [register_function], [unregister_function] and [update_function]
    only, in any number and order and whether the calls return or raise,
    always has the listing of its registry as its prompt, and its
    registry keeps the callable map and the schema map paired. *)
Theorem X5_dispatcher_prompt_never_stale (calls : list (call W)) start :
  init FunctionRegistry.init = Ok start ->
  in_sync (dispatcher_run_all calls start)
  /\ RegistryOps.paired (registry (dispatcher_run_all calls start)).
Proof.
  intros Hinit. unfold init in Hinit.
  rewrite build_system_prompt_listing in Hinit. simpl in Hinit.
  injection Hinit as <-.
  apply dispatcher_run_all_keeps; [reflexivity | apply paired_init].
Qed.

(** X6. Nothing checks that what is registered can be called, and
    [call_function] tests the truth value of what it finds.  Registering
    an object that is false as a truth value ([None], for instance)
    under a free name succeeds: the registry returns the object and its
    schema and the prompt lists the function.  But [call_function]
    reports the name as not found, as it did before the registration,
    whatever the parameters and [max_retries] are; nothing is validated,
    invoked or logged. *)
Theorem X6_false_object_is_listed_but_not_found
    name (func : Callable W) schema (parameters : dict value)
    (max_retries : Z) self fs (w : W) :
  dict_has name (FunctionRegistry._functions (registry self)) = false ->
  FunctionRegistry.build_schema schema = Ok fs ->
  truth func w = false ->
  let after := snd (fst (register_function name func schema self)) in
  let not_found :=
    (Raise (A:=value) (ValueError ("Function " ++ name ++ " not found")),
     w, @nil log_record) in
  fst (fst (register_function name func schema self)) = Ok tt
  /\ FunctionRegistry.get_function name (registry after) = Some func
  /\ FunctionRegistry.get_schema name (registry after) = Some fs
  /\ get_system_prompt after = listing (registry after)
  /\ call_function name parameters max_retries after w = not_found
  /\ call_function name parameters max_retries self w = not_found.
Proof.
  intros Hfree Hbuild Hfalse after not_found. subst after not_found.
  assert (Hbefore :
            FunctionRegistry.get_function name (registry self) = None).
  { unfold FunctionRegistry.get_function. unfold dict_has in Hfree.
    now destruct (dict_get name (FunctionRegistry._functions (registry self))). }
  unfold register_function, FunctionRegistry.register.
  rewrite Hfree, Hbuild, then_update_ok. cbn [fst snd registry].
  assert (Hafter :
            FunctionRegistry.get_function name
              (FunctionRegistry.mk
                 (dict_set name func
                    (FunctionRegistry._functions (registry self)))
                 (dict_set name fs
                    (FunctionRegistry._schemas (registry self))))
            = Some func).
  { apply dict_get_set_same. }
  split; [reflexivity|]. split; [exact Hafter|].
  split; [apply dict_get_set_same|]. split; [reflexivity|]. split.
  - unfold call_function. cbn [registry]. now rewrite Hafter, Hfalse.
  - unfold call_function. now rewrite Hbefore.
Qed.

(** X7. With [max_retries] at 0 or below the loop has no round: a call
    of a registered callable with valid parameters raises the terminal
    [RuntimeError] at once, worded after [None], and the callable is not
    invoked. *)
Theorem X7_no_round_without_retries
    name (parameters : dict value) (max_retries : Z) self (w : W)
    function schema :
  FunctionRegistry.get_function name (registry self) = Some function ->
  truth function w = true ->
  FunctionRegistry.get_schema name (registry self) = Some schema ->
  FunctionSchema.validate_parameters schema parameters = Ok tt ->
  (max_retries <= 0)%Z ->
  call_function name parameters max_retries self w
  = (Raise (RuntimeError "Function execution failed: None"), w,
     [log ERROR ("Function " ++ name ++ " failed after " ++
                 str_of_Z max_retries ++ " attempts")]).
Proof.
  intros Hf Ht Hs Hv Hle.
  rewrite (call_function_valid function name parameters max_retries self
             schema Hf Hs w Ht Hv).
  replace (Z.to_nat max_retries) with 0%nat by lia. reflexivity.
Qed.
End DispatcherMore.

Lemma X5_witness :
  DispatcherCalls.in_sync
    (dispatcher_run_all
       [DispatcherCalls.RegisterFunction "f" (Fixtures.flaky 0)
          Fixtures.f_schema;
        DispatcherCalls.RegisterFunction "f" (Fixtures.flaky 1)
          Fixtures.f_schema;
        DispatcherCalls.UnregisterFunction "g"]
       Fixtures.empty_caller).
Proof.
  apply (proj1 (X5_dispatcher_prompt_never_stale
                  [DispatcherCalls.RegisterFunction "f" (Fixtures.flaky 0)
                     Fixtures.f_schema;
                   DispatcherCalls.RegisterFunction "f" (Fixtures.flaky 1)
                     Fixtures.f_schema;
                   DispatcherCalls.UnregisterFunction "g"]
                  Fixtures.empty_caller eq_refl)).
Defined.

(** X6 on [None] registered as ["retry_func"]. *)
Lemma X6_witness :
  GemmaFunctionCaller.get_system_prompt
    (Fixtures.caller_of Fixtures.none_object)
  = "Available functions:" ++ GemmaFunctionCaller.nl ++
    GemmaFunctionCaller.nl ++
    "- retry_func: A function to test retry logic" ++ GemmaFunctionCaller.nl
  /\ GemmaFunctionCaller.call_function "retry_func" [] 3
       (Fixtures.caller_of Fixtures.none_object) 0%nat
     = (Raise (ValueError "Function retry_func not found"), 0%nat, []).
Proof.
  pose proof (X6_false_object_is_listed_but_not_found "retry_func"
                Fixtures.none_object Fixtures.retry_schema [] 3
                Fixtures.empty_caller
                (FunctionSchema.mk (VStr "retry_func")
                   (VStr "A function to test retry logic") [] (VList []))
                0%nat eq_refl eq_refl eq_refl) as H.
  split.
  - exact (proj1 (proj2 (proj2 (proj2 H)))).
  - exact (proj1 (proj2 (proj2 (proj2 (proj2 H))))).
Defined.

Lemma X7_witness :
  GemmaFunctionCaller.call_function "test_func" [("name", VStr "Alice")] 0
    Fixtures.test_caller 0%nat
  = (Raise (RuntimeError "Function execution failed: None"), 0%nat,
     [log ERROR ("Function " ++ "test_func" ++ " failed after " ++
                 str_of_Z 0 ++ " attempts")]).
Proof.
  apply (X7_no_round_without_retries "test_func" [("name", VStr "Alice")] 0
           Fixtures.test_caller 0%nat (Fixtures.flaky 0)
           Fixtures.test_function_schema eq_refl eq_refl eq_refl eq_refl).
  lia.
Defined.

(* ------------------------------------------------------------------ *)
(** ** More on [ParameterSchema.validate] *)

Section ValidateMore.
Import ParameterSchema.
Implicit Types (self : ParameterSchema.t).

Lemma ParameterType_call_value t :
  ParameterType_call (VStr (ParameterType_value t)) = Ok t.
Proof. now destruct t. Qed.

(** X8. [ParameterSchema.__init__] turns a kind name into the member
    of [ParameterType]: the schema built from one of the six names is
    the schema built from the member itself.  Any other string raises
    [ValueError].  A [type] that is not a string is stored as it is,
    unchecked; if it is not a member either, no branch of [validate]
    applies and the schema accepts every value, but for [None] when the
    schema is required. *)
Theorem X8_init_normalises_the_kind
    (description required minimum maximum pattern enum_values items
       properties : value) :
  let build ty :=
    init ty description required minimum maximum pattern enum_values items
      properties in
  let stored ty :=
    mk ty description required minimum maximum pattern enum_values items
      properties in
  (forall t,
      build (VStr (ParameterType_value t)) = Ok (stored (VType t))
      /\ build (VType t) = Ok (stored (VType t)))
  /\ (forall s,
        (forall t, s <> ParameterType_value t) ->
        build (VStr s)
        = Raise (ValueError (str_repr s ++ " is not a valid ParameterType")))
  /\ (forall ty, isinstance_str ty = false -> build ty = Ok (stored ty))
  /\ (forall ty v,
        isinstance_str ty = false ->
        (forall t, ty <> VType t) ->
        validate (stored ty) v
        = if is_None v && truthy required
          then Raise (ValidationError "Required parameter is missing")
          else Ok tt).
Proof.
  intros build stored. subst build stored. unfold init.
  split; [|split; [|split]].
  - intros t. split; [|reflexivity].
    cbn [isinstance_str]. now rewrite ParameterType_call_value.
  - intros s H. cbn [isinstance_str].
    unfold ParameterType_call. cbn -[String.eqb str_repr].
    repeat match goal with
           | |- context [String.eqb ?a s] =>
               destruct (String.eqb_spec a s) as [<-|?]
           end;
      solve [reflexivity
            | exfalso; first [ apply (H STRING); reflexivity
                             | apply (H NUMBER); reflexivity
                             | apply (H BOOLEAN); reflexivity
                             | apply (H ARRAY); reflexivity
                             | apply (H OBJECT); reflexivity
                             | apply (H ENUM); reflexivity ]].
  - intros ty Hs. now rewrite Hs.
  - intros ty v Hs Hm.
    assert (Hk : forall k,
               type_is
                 (mk ty description required minimum maximum pattern
                    enum_values items properties) k = false).
    { intros k.
      destruct (type_is
                  (mk ty description required minimum maximum pattern
                     enum_values items properties) k) eqn:E;
        [|reflexivity].
      apply type_is_inv in E. simpl in E. now apply Hm in E. }
    destruct v; cbn -[type_is]; rewrite ?Hk; reflexivity.
Qed.

(** X9. A schema of kind string, number, boolean, array or object that
    sets no bound, no pattern, no item schema and no properties accepts a
    value other than [None] exactly when the value has the runtime type
    of the kind, where a boolean also counts as a number. *)
Theorem X9_unconstrained_kind_accepts_its_type self k v :
  type_is self k = true ->
  k <> ENUM ->
  minimum self = VNone -> maximum self = VNone ->
  truthy (pattern self) = false ->
  truthy (items self) = false ->
  truthy (properties self) = false ->
  is_None v = false ->
  (validate self v = Ok tt <-> has_runtime_type k v = true).
Proof.
  intros Hk Hne Hmin Hmax Hpat Hit Hpr Hv.
  destruct (has_runtime_type k v) eqn:Hty.
  - split; [reflexivity | intros _].
    apply type_is_inv in Hk.
    destruct self as [ty d r mn mx pt ev it pr]. simpl in *. subst.
    destruct k; try congruence; destruct v; simpl in Hty, Hv;
      try discriminate; unfold type_is; cbn -[re_match];
      rewrite ?Hpat, ?Hit, ?Hpr; reflexivity.
  - rewrite (validate_type_mismatch self k v Hk Hv Hty).
    split; discriminate.
Qed.

Lemma py_lt_int a b : py_lt (VInt a) (VInt b) = Ok (a <? b)%Z.
Proof.
  unfold py_lt. simpl. rewrite !Z.mul_1_r. reflexivity.
Qed.

Lemma py_gt_int a b : py_gt (VInt a) (VInt b) = Ok (b <? a)%Z.
Proof.
  unfold py_gt. simpl. rewrite !Z.mul_1_r.
  unfold Z.ltb. rewrite (Z.compare_antisym a b).
  now destruct (a ?= b)%Z.
Qed.

(** X10. Integer bounds are inclusive: a number schema with integer
    [minimum] and [maximum] accepts an integer exactly when it lies
    between them, both ends included; below the minimum it raises the
    less-than message and above the maximum the greater-than message,
    each with the value and the bound. *)
Theorem X10_integer_bounds_inclusive self (lo hi n : Z) :
  type_is self NUMBER = true ->
  minimum self = VInt lo ->
  maximum self = VInt hi ->
  (validate self (VInt n) = Ok tt <-> (lo <= n <= hi)%Z)
  /\ ((n < lo)%Z ->
      validate self (VInt n)
      = Raise (ValidationError
                 ("Value " ++ str_of_Z n ++ " is less than minimum " ++
                  str_of_Z lo)))
  /\ ((lo <= n)%Z -> (hi < n)%Z ->
      validate self (VInt n)
      = Raise (ValidationError
                 ("Value " ++ str_of_Z n ++ " is greater than maximum " ++
                  str_of_Z hi))).
Proof.
  intros Hk Hmin Hmax. apply type_is_inv in Hk.
  destruct self as [ty d r mn mx pt ev it pr]. simpl in Hk, Hmin, Hmax.
  subst ty mn mx.
  assert (E : validate (mk (VType NUMBER) d r (VInt lo) (VInt hi) pt ev it pr)
                (VInt n)
              = if (n <? lo)%Z
                then Raise (ValidationError
                              ("Value " ++ str_of_Z n ++
                               " is less than minimum " ++ str_of_Z lo))
                else if (hi <? n)%Z
                     then Raise (ValidationError
                                   ("Value " ++ str_of_Z n ++
                                    " is greater than maximum " ++
                                    str_of_Z hi))
                     else Ok tt).
  { unfold type_is. cbn -[py_lt py_gt str_of_Z].
    rewrite py_lt_int. cbn -[py_gt str_of_Z].
    destruct (n <? lo)%Z; [reflexivity|].
    rewrite py_gt_int. cbn -[str_of_Z]. now destruct (hi <? n)%Z. }
  rewrite E.
  destruct (Z.ltb_spec n lo) as [H1|H1];
    [|destruct (Z.ltb_spec hi n) as [H2|H2]];
    repeat split; intros; try reflexivity; try discriminate; try lia.
Qed.

(** X11. A NaN passes every numeric bound: it is neither less than the
    minimum nor greater than the maximum, so a number schema whose
    bounds are numbers or unset accepts it. *)
Theorem X11_nan_passes_bounds self :
  type_is self NUMBER = true ->
  (minimum self = VNone \/ exists x, num_of (minimum self) = Some x) ->
  (maximum self = VNone \/ exists x, num_of (maximum self) = Some x) ->
  validate self (VFloat S754_nan) = Ok tt.
Proof.
  intros Hk Hmin Hmax. apply type_is_inv in Hk.
  destruct self as [ty d r mn mx pt ev it pr]. simpl in Hk, Hmin, Hmax.
  subst ty. unfold type_is. cbn -[py_lt py_gt].
  assert (L : (if negb (is_None mn) then py_lt (VFloat S754_nan) mn
               else Ok false) = Ok false).
  { destruct Hmin as [->|[x Hx]]; [reflexivity|].
    unfold py_lt. rewrite Hx. simpl. now destruct (is_None mn). }
  assert (G : (if negb (is_None mx) then py_gt (VFloat S754_nan) mx
               else Ok false) = Ok false).
  { destruct Hmax as [->|[x Hx]]; [reflexivity|].
    unfold py_gt. rewrite Hx. simpl. now destruct (is_None mx). }
  rewrite L. simpl. rewrite G. reflexivity.
Qed.

(** X12. Object validation is open and asks for nothing: binding a key
    that is not among the listed properties, to any value, does not
    change the outcome, and the empty object is accepted whatever the
    listed properties are. *)
Theorem X12_object_ignores_unlisted self props entries k v :
  type_is self OBJECT = true ->
  properties self = VDict props ->
  dict_has k props = false ->
  validate self (VDict (dict_set k v entries)) = validate self (VDict entries)
  /\ validate self (VDict []) = Ok tt.
Proof.
  intros Hk Hprops Hunlisted.
  destruct props as [|p props'] eqn:Ep.
  - apply type_is_inv in Hk.
    destruct self as [ty d r mn mx pt ev it pr]. simpl in Hk, Hprops.
    subst ty pr. split; reflexivity.
  - rewrite <- Ep in *.
    assert (Ht : truthy (properties self) = true)
      by (rewrite Hprops, Ep; reflexivity).
    assert (Hi : py_items (properties self) = Ok props)
      by (rewrite Hprops; reflexivity).
    rewrite !(validate_object self props _ Hk Ht Hi). split.
    + apply for_each_ext. intros [name schema] Hin.
      unfold check_property. simpl.
      apply dict_with_set_other. intros ->.
      apply dict_has_false_In in Hunlisted. apply Hunlisted.
      apply (in_map fst) in Hin. exact Hin.
    + apply for_each_ok. reflexivity.
Qed.

(** X13. An array schema without an item schema accepts every list.
    With one, it accepts a list exactly when the item schema accepts
    every element, so the empty list passes; and when the item schema
    itself cannot be built, every list fails with that error, the empty
    one included. *)
Theorem X13_array_accepts_iff_elements self elements :
  type_is self ARRAY = true ->
  (truthy (items self) = false -> validate self (VList elements) = Ok tt)
  /\ (forall item_validator,
        truthy (items self) = true ->
        call (items self) = Ok item_validator ->
        (validate self (VList elements) = Ok tt <->
         forall x, In x elements -> validate item_validator x = Ok tt))
  /\ (forall e,
        truthy (items self) = true ->
        call (items self) = Raise e ->
        validate self (VList elements) = Raise e).
Proof.
  intros Hk. split; [|split].
  - intros Hit. apply type_is_inv in Hk.
    destruct self as [ty d r mn mx pt ev it pr]. simpl in Hk, Hit.
    subst ty. unfold type_is. cbn. now rewrite Hit.
  - intros iv Hit Hcall. rewrite (validate_array self iv _ Hk Hit Hcall).
    apply for_each_ok.
  - intros e Hit Hcall. apply type_is_inv in Hk.
    destruct self as [ty d r mn mx pt ev it pr]. simpl in Hk, Hit, Hcall.
    subst ty. unfold type_is. cbn. now rewrite Hit, Hcall.
Qed.
End ValidateMore.

(** X8 on the name ["integer"], which is not a kind, and on a schema
    whose [type] is the number 5. *)
Lemma X8_witness :
  ParameterSchema.init (VStr "integer") (VStr "A parameter") (VBool false)
    VNone VNone VNone VNone VNone VNone
  = Raise (ValueError "'integer' is not a valid ParameterType")
  /\ ParameterSchema.init (VInt 5) (VStr "A parameter") (VBool false)
       VNone VNone VNone VNone VNone VNone
     = Ok (ParameterSchema.mk (VInt 5) (VStr "A parameter") (VBool false)
             VNone VNone VNone VNone VNone VNone)
  /\ ParameterSchema.validate
       (ParameterSchema.mk (VInt 5) (VStr "A parameter") (VBool false)
          VNone VNone VNone VNone VNone VNone)
       (VList [VStr "anything"])
     = Ok tt.
Proof.
  pose proof (X8_init_normalises_the_kind (VStr "A parameter") (VBool false)
                VNone VNone VNone VNone VNone VNone) as H.
  split; [|split].
  - apply (proj1 (proj2 H) "integer"). intros []; discriminate.
  - apply (proj1 (proj2 (proj2 H)) (VInt 5)). reflexivity.
  - apply (proj2 (proj2 (proj2 H)) (VInt 5) (VList [VStr "anything"])).
    + reflexivity.
    + discriminate.
Defined.

Lemma X9_witness :
  ParameterSchema.validate (Fixtures.schema_of NUMBER) (VBool true) = Ok tt
  <-> has_runtime_type NUMBER (VBool true) = true.
Proof.
  apply (X9_unconstrained_kind_accepts_its_type (Fixtures.schema_of NUMBER)
           NUMBER (VBool true));
    solve [reflexivity | discriminate].
Defined.

Lemma X10_witness :
  ParameterSchema.validate Fixtures.percent_schema (VInt 100) = Ok tt
  <-> (0 <= 100 <= 100)%Z.
Proof.
  apply (proj1 (X10_integer_bounds_inclusive Fixtures.percent_schema 0 100
                  100 eq_refl eq_refl eq_refl)).
Defined.

Lemma X11_witness :
  ParameterSchema.validate Fixtures.percent_schema (VFloat S754_nan) = Ok tt.
Proof.
  apply (X11_nan_passes_bounds Fixtures.percent_schema eq_refl).
  - right. eexists. reflexivity.
  - right. eexists. reflexivity.
Defined.

Lemma X12_witness :
  ParameterSchema.validate Fixtures.object_with_name
    (VDict (dict_set "extra" (VInt 999) [("name", VStr "x")]))
  = ParameterSchema.validate Fixtures.object_with_name
      (VDict [("name", VStr "x")]).
Proof.
  apply (proj1 (X12_object_ignores_unlisted Fixtures.object_with_name
                  [("name",
                    VDict [("type", VStr "string");
                           ("description", VStr "Name field")])]
                  [("name", VStr "x")] "extra" (VInt 999)
                  eq_refl eq_refl eq_refl)).
Defined.

Lemma X13_witness :
  ParameterSchema.validate Fixtures.array_of_strings (VList []) = Ok tt.
Proof.
  apply (proj1 (proj2 (X13_array_accepts_iff_elements
                         Fixtures.array_of_strings [] eq_refl))
           (ParameterSchema.mk (VType STRING) (VStr "Array item")
              (VBool false) VNone VNone VNone VNone VNone VNone)
           eq_refl eq_refl).
  intros x [].
Defined.

(* ------------------------------------------------------------------ *)
(** ** More on [FunctionSchema] and [FunctionValidator] *)

Section SchemaMore.
Import FunctionSchema.
Implicit Types (self : FunctionSchema.t) (params : dict value).

(** X14. The empty argument map is accepted exactly when the required
    list is empty. *)
Theorem X14_empty_map_needs_no_required self names :
  py_iter (required self) = Ok names ->
  (validate_parameters self [] = Ok tt <-> names = []).
Proof.
  intros Hiter. rewrite validate_parameters_ok. split.
  - intros (names' & Hiter' & Hreq & _).
    rewrite Hiter in Hiter'. injection Hiter' as <-.
    destruct names as [|x names]; [reflexivity|].
    apply for_each_cons_ok in Hreq. destruct Hreq as [Hx _].
    apply check_required_ok in Hx. destruct Hx as (s & _ & Hs).
    discriminate.
  - intros ->. exists []. now repeat split.
Qed.

(** X15. Nothing ties the required list to the declared parameters, and
    a required name that is not declared cannot be satisfied: leaving it
    out fails the required check and supplying it fails the unknown-key
    check, so no argument map is accepted. *)
Theorem X15_undeclared_required_rejects_all self names n params :
  py_iter (required self) = Ok names ->
  In (VStr n) names ->
  dict_has n (parameters self) = false ->
  is_ok (validate_parameters self params) = false.
Proof.
  intros Hiter Hin Hundeclared.
  destruct (validate_parameters self params) as [[]|e] eqn:E; [|reflexivity].
  exfalso. apply validate_parameters_ok in E.
  destruct E as (names' & Hiter' & Hreq & Hprov).
  rewrite Hiter in Hiter'. injection Hiter' as <-.
  rewrite for_each_ok in Hreq. rewrite for_each_ok in Hprov.
  destruct (proj1 (check_required_ok params (VStr n)) (Hreq _ Hin))
    as (s & [= <-] & Hs).
  unfold dict_has in Hs.
  destruct (dict_get n params) as [v|] eqn:Hget; [|discriminate].
  pose proof (Hprov _ (dict_get_In n v params Hget)) as Hbad.
  rewrite (check_provided_unknown self n v Hundeclared) in Hbad.
  discriminate.
Qed.
End SchemaMore.

Lemma X14_witness :
  FunctionSchema.validate_parameters Fixtures.test_function_schema [] = Ok tt
  <-> [VStr "name"] = [].
Proof.
  apply (X14_empty_map_needs_no_required Fixtures.test_function_schema
           [VStr "name"] eq_refl).
Defined.

Lemma X15_witness :
  is_ok (FunctionSchema.validate_parameters
           (FunctionSchema.mk (VStr "f") (VStr "d") []
              (VList [VStr "ghost"]))
           [("ghost", VInt 1)])
  = false.
Proof.
  apply (X15_undeclared_required_rejects_all
           (FunctionSchema.mk (VStr "f") (VStr "d") []
              (VList [VStr "ghost"]))
           [VStr "ghost"] "ghost" [("ghost", VInt 1)] eq_refl
           (or_introl eq_refl) eq_refl).
Defined.

Section DefinitionMore.
Import FunctionValidator.

Lemma dict_has_set_other {A : Type} k k' (v : A) (d : dict A) :
  k <> k' -> dict_has k' (dict_set k v d) = dict_has k' d.
Proof. intros H. unfold dict_has. now rewrite dict_get_set_other. Qed.

(** X16. The definition check does not look at the [required] entry of a
    raw definition: giving it any value leaves the outcome of
    [validate_function_definition] as it is, and the schema built is the
    same except for its required list, which is that value as given (the
    empty list when the value is falsy). *)
Theorem X16_definition_check_ignores_required
    (schema : dict value) (r : value) :
  validate_function_definition (dict_set "required" r schema)
  = validate_function_definition schema
  /\ forall fs,
       FunctionRegistry.build_schema schema = Ok fs ->
       FunctionRegistry.build_schema (dict_set "required" r schema)
       = Ok (FunctionSchema.mk (FunctionSchema.name fs)
               (FunctionSchema.description fs)
               (FunctionSchema.parameters fs) (py_or r (VList []))).
Proof.
  assert (Hv : validate_function_definition (dict_set "required" r schema)
               = validate_function_definition schema).
  { unfold validate_function_definition, check_field, dict_getitem. simpl.
    rewrite !dict_has_set_other by discriminate.
    rewrite dict_get_set_other by discriminate. reflexivity. }
  split; [exact Hv|].
  intros fs. unfold FunctionRegistry.build_schema. rewrite Hv.
  destruct (validate_function_definition schema) as [[]|e]; simpl;
    [|discriminate].
  unfold dict_getitem.
  rewrite !dict_get_set_other by discriminate. rewrite dict_get_set_same.
  destruct (dict_get "name" schema) as [n|]; simpl; [|discriminate].
  destruct (dict_get "description" schema) as [d|]; simpl; [|discriminate].
  destruct (dict_get "parameters" schema) as [p|]; simpl; [|discriminate].
  unfold FunctionSchema.init.
  destruct (py_items p) as [entries|e]; simpl; [|discriminate].
  destruct (FunctionSchema.build_parameters entries) as [ps|e]; simpl;
    [|discriminate].
  now intros [= <-].
Qed.

(** What a parameter definition that passes the definition check is. *)
Lemma check_parameter_ok name param_schema :
  check_parameter (name, param_schema) = Ok tt ->
  exists d t,
    param_schema = VDict d
    /\ dict_has "type" d = true
    /\ dict_has "description" d = true
    /\ ParameterType_call (ParameterSchema.keyword "type" VNone d) = Ok t.
Proof.
  unfold check_parameter, py_in, key_in, py_getitem.
  destruct param_schema as [| | | |s|l|d|t]; cbn [bind]; try discriminate.
  - destruct (is_substring "type" s); cbn [negb bind]; [|discriminate].
    destruct (is_substring "description" s); discriminate.
  - destruct (existsb (py_eq (VStr "type")) l); cbn [negb bind];
      [|discriminate].
    destruct (existsb (py_eq (VStr "description")) l); discriminate.
  - destruct (dict_has "type" d) eqn:Ht; cbn [negb bind]; [|discriminate].
    destruct (dict_has "description" d) eqn:Hd; cbn [negb bind];
      [|discriminate].
    unfold dict_getitem, ParameterSchema.keyword.
    destruct (dict_get "type" d) as [ty|] eqn:Hg;
      [|unfold dict_has in Ht; rewrite Hg in Ht; discriminate].
    simpl.
    destruct (ParameterType_call ty) as [t|e] eqn:Hc.
    + intros _. exists d, t. rewrite Hg.
      repeat split; solve [assumption | reflexivity].
    + destruct e; discriminate.
Qed.

Lemma call_checked d t :
  dict_has "type" d = true ->
  dict_has "description" d = true ->
  ParameterType_call (ParameterSchema.keyword "type" VNone d) = Ok t ->
  (uses_keywords (VDict d) = true ->
   exists p, ParameterSchema.call (VDict d) = Ok p)
  /\ (uses_keywords (VDict d) = false ->
      ParameterSchema.call (VDict d) = Raise TypeError).
Proof.
  intros Ht Hd Hc. unfold ParameterSchema.call, uses_keywords.
  rewrite Ht, Hd. split; intros ->; simpl; [|reflexivity].
  unfold ParameterSchema.init. rewrite Hc.
  destruct (isinstance_str (ParameterSchema.keyword "type" VNone d));
    simpl; eauto.
Qed.

Lemma build_parameters_checked (entries : dict value) :
  (forall item, In item entries -> check_parameter item = Ok tt) ->
  (forallb (fun kv => uses_keywords (snd kv)) entries = true ->
   exists ps,
     FunctionSchema.build_parameters entries = Ok ps
     /\ dict_keys ps = dict_keys entries)
  /\ (forallb (fun kv => uses_keywords (snd kv)) entries = false ->
      FunctionSchema.build_parameters entries = Raise TypeError).
Proof.
  induction entries as [|[n ps] entries IH]; intros Hall.
  - split; [intros _; exists []; now split | discriminate].
  - destruct (check_parameter_ok n ps (Hall _ (or_introl eq_refl)))
      as (d & t & -> & Ht & Hd & Hc).
    destruct (call_checked d t Ht Hd Hc) as [Hyes Hno].
    destruct (IH (fun item H => Hall item (or_intror H))) as [IHyes IHno].
    cbn [forallb snd FunctionSchema.build_parameters].
    destruct (uses_keywords (VDict d)) eqn:Hk.
    + destruct (Hyes eq_refl) as [p Hp]. rewrite Hp. simpl. split.
      * intros Hrest. destruct (IHyes Hrest) as (ps' & -> & Hkeys).
        simpl. eexists. split; [reflexivity|]. simpl. now rewrite Hkeys.
      * intros Hrest. now rewrite (IHno Hrest).
    + rewrite (Hno eq_refl). split; [discriminate | reflexivity].
Qed.

(** X17. A raw definition that passes [validate_function_definition] can
    still fail to become a schema, and then not with a
    [ValidationError]: when every parameter definition uses only the
    keyword arguments of [ParameterSchema], the schema is built, with
    the parameters in their order; when one of them has any other key,
    building raises [TypeError]. *)
Theorem X17_unknown_attribute_is_type_error (schema : dict value) :
  validate_function_definition schema = Ok tt ->
  exists entries,
    dict_get "parameters" schema = Some (VDict entries)
    /\ (forallb (fun kv => uses_keywords (snd kv)) entries = true ->
        exists fs,
          FunctionRegistry.build_schema schema = Ok fs
          /\ dict_keys (FunctionSchema.parameters fs) = dict_keys entries)
    /\ (forallb (fun kv => uses_keywords (snd kv)) entries = false ->
        FunctionRegistry.build_schema schema = Raise TypeError).
Proof.
  intros Hv. unfold FunctionRegistry.build_schema. rewrite Hv. simpl.
  unfold validate_function_definition in Hv.
  destruct (for_each (check_field schema) ["name"; "description"; "parameters"])
    as [[]|e] eqn:Hfields; simpl in Hv; [|discriminate].
  rewrite for_each_ok in Hfields.
  assert (Hfield : forall f,
             In f ["name"; "description"; "parameters"] ->
             exists x, dict_get f schema = Some x).
  { intros f Hf. specialize (Hfields f Hf). unfold check_field, dict_has in *.
    destruct (dict_get f schema); [eauto | discriminate]. }
  destruct (Hfield "name" ltac:(simpl; auto)) as [n Hn].
  destruct (Hfield "description" ltac:(simpl; auto)) as [d Hd].
  destruct (Hfield "parameters" ltac:(simpl; auto)) as [p Hp].
  unfold dict_getitem in *. rewrite Hn, Hd, Hp in *. simpl in *.
  destruct p as [| | | | | |entries|]; simpl in Hv; try discriminate.
  rewrite for_each_ok in Hv.
  exists entries. split; [reflexivity|].
  destruct (build_parameters_checked entries Hv) as [Hyes Hno].
  unfold FunctionSchema.init. simpl. split.
  - intros H. destruct (Hyes H) as (ps & -> & Hkeys). simpl. eauto.
  - intros H. now rewrite (Hno H).
Qed.
End DefinitionMore.

Lemma X17_witness :
  FunctionRegistry.build_schema
    [("name", VStr "f"); ("description", VStr "d");
     ("parameters",
      VDict [("x", VDict [("type", VStr "string");
                          ("description", VStr "x");
                          ("default", VStr "a")])])]
  = Raise TypeError.
Proof.
  destruct (X17_unknown_attribute_is_type_error
              [("name", VStr "f"); ("description", VStr "d");
               ("parameters",
                VDict [("x", VDict [("type", VStr "string");
                                    ("description", VStr "x");
                                    ("default", VStr "a")])])]
              eq_refl) as (entries & Hentries & _ & Hno).
  injection Hentries as <-. apply Hno. reflexivity.
Defined.

Lemma X16_witness :
  FunctionRegistry.build_schema
    (dict_set "required" (VList [VStr "ghost"]) Fixtures.retry_schema)
  = Ok (FunctionSchema.mk (VStr "retry_func")
          (VStr "A function to test retry logic") []
          (py_or (VList [VStr "ghost"]) (VList []))).
Proof.
  apply (proj2 (X16_definition_check_ignores_required Fixtures.retry_schema
                  (VList [VStr "ghost"]))
           (FunctionSchema.mk (VStr "retry_func")
              (VStr "A function to test retry logic") [] (VList []))).
  reflexivity.
Defined.

(* ------------------------------------------------------------------ *)
(** ** Schemas inferred from examples *)

Section InferenceFacts.
Import FunctionValidator.

Lemma In_dict_set {A : Type} k (v : A) (d : dict A) x :
  In x (dict_set k v d) -> In x d \/ x = (k, v).
Proof.
  induction d as [|[k0 v0] d IH]; simpl.
  - intros [<-|[]]. now right.
  - destruct (String.eqb_spec k k0) as [->|Hne]; simpl.
    + intros [<-|H]; [now right | left; now right].
    + intros [<-|H]; [left; now left|].
      destruct (IH H) as [H'|H']; [left; now right | now right].
Qed.

Lemma infer_type_inferable name v :
  is_ok (infer_type name v) = inferable v.
Proof. now destruct v. Qed.

Lemma infer_type_unsupported name v :
  inferable v = false ->
  infer_type name v
  = Raise (ValidationError
             ("Unsupported parameter type for '" ++ name ++ "': " ++
              type_repr v)).
Proof. destruct v; simpl; try discriminate; reflexivity. Qed.

Lemma is_ok_infer_entries (params acc : dict value) :
  is_ok (infer_entries acc params)
  = forallb (fun kv => inferable (snd kv)) params.
Proof.
  revert acc. induction params as [|[n v] params IH]; intros acc; simpl;
    [reflexivity|].
  rewrite <- (infer_type_inferable n v).
  destruct (infer_type n v) as [t|e]; simpl; [apply IH | reflexivity].
Qed.

Lemma infer_entries_first_failure (pre post acc : dict value) n v :
  forallb (fun kv => inferable (snd kv)) pre = true ->
  inferable v = false ->
  infer_entries acc (pre ++ (n, v) :: post)%list
  = Raise (ValidationError
             ("Unsupported parameter type for '" ++ n ++ "': " ++
              type_repr v)).
Proof.
  intros Hpre Hv. revert acc.
  induction pre as [|[n0 v0] pre IH]; intros acc; simpl.
  - now rewrite (infer_type_unsupported n v Hv).
  - simpl in Hpre. apply Bool.andb_true_iff in Hpre.
    destruct Hpre as [H0 Hpre].
    rewrite <- (infer_type_inferable n0 v0) in H0.
    destruct (infer_type n0 v0) as [t|e]; [|discriminate]. simpl.
    now apply IH.
Qed.

(** What the loop of [create_schema_from_parameters] leaves in the
    schema, for parameters with distinct names that are not in the
    schema yet. *)
Lemma infer_entries_result (params : dict value) :
  forall acc schema,
    infer_entries acc params = Ok schema ->
    NoDup (dict_keys params) ->
    (forall k, In k (dict_keys params) -> dict_has k acc = false) ->
    dict_keys schema = (dict_keys acc ++ dict_keys params)%list
    /\ (forall k, dict_has k acc = true -> dict_get k schema = dict_get k acc)
    /\ (forall n v,
          In (n, v) params ->
          exists t,
            infer_type n v = Ok t
            /\ dict_get n schema = Some (inferred_entry n t))
    /\ (forall item,
          In item schema ->
          In item acc
          \/ exists t, item = (fst item, inferred_entry (fst item) t)).
Proof.
  induction params as [|[n v] params IH]; intros acc schema Hrun Hnd Hfresh.
  - simpl in Hrun. injection Hrun as <-. simpl. rewrite app_nil_r.
    repeat split; auto. intros n v [].
  - simpl in Hrun.
    destruct (infer_type n v) as [t|e] eqn:Ht; [|discriminate].
    simpl in Hrun. fold (inferred_entry n t) in Hrun.
    inversion Hnd as [|? ? Hnotin Hnd']; subst.
    assert (Hn : dict_has n acc = false) by (apply Hfresh; now left).
    destruct (IH _ _ Hrun Hnd') as (Hkeys & Hkeep & Hnew & Hall).
    { intros k Hk. unfold dict_has.
      rewrite dict_get_set_other by (intros ->; contradiction).
      apply (Hfresh k). now right. }
    split; [|split; [|split]].
    + rewrite Hkeys, (dict_keys_set_absent n _ acc Hn), <- app_assoc.
      reflexivity.
    + intros k Hk. rewrite Hkeep.
      * apply dict_get_set_other. intros ->. congruence.
      * unfold dict_has in *. destruct (String.eqb_spec n k) as [->|Hne].
        -- now rewrite dict_get_set_same.
        -- now rewrite dict_get_set_other.
    + intros n' v' [[= <- <-]|Hin].
      * exists t. split; [assumption|]. rewrite Hkeep.
        -- apply dict_get_set_same.
        -- unfold dict_has. now rewrite dict_get_set_same.
      * now apply Hnew.
    + intros item Hitem. destruct (Hall item Hitem) as [Hacc|Hinf]; auto.
      destruct (In_dict_set n _ acc item Hacc) as [H| ->]; [now left|].
      right. now exists t.
Qed.

(** X18. [create_schema_from_parameters] returns exactly when no example
    value is [None] or of another type without a kind; otherwise it
    raises for the first such value in the order of the map, naming the
    parameter and the type.  For parameters with distinct names the
    schema returned has the same names in the same order. *)
Theorem X18_inference_succeeds_iff_inferable (params : dict value) :
  is_ok (create_schema_from_parameters params)
  = forallb (fun kv => inferable (snd kv)) params
  /\ (forall pre n v post,
        params = (pre ++ (n, v) :: post)%list ->
        forallb (fun kv => inferable (snd kv)) pre = true ->
        inferable v = false ->
        create_schema_from_parameters params
        = Raise (ValidationError
                   ("Unsupported parameter type for '" ++ n ++ "': " ++
                    type_repr v)))
  /\ (forall schema,
        NoDup (dict_keys params) ->
        create_schema_from_parameters params = Ok schema ->
        dict_keys schema = dict_keys params).
Proof.
  unfold create_schema_from_parameters. split; [|split].
  - apply is_ok_infer_entries.
  - intros pre n v post -> Hpre Hv. now apply infer_entries_first_failure.
  - intros schema Hnd Hrun.
    now destruct (infer_entries_result params [] schema Hrun Hnd
                    (fun k _ => eq_refl)) as (Hkeys & _).
Qed.

Lemma call_inferred_entry n t :
  ParameterSchema.call (inferred_entry n t)
  = Ok (ParameterSchema.mk (VType t) (VStr ("Parameter: " ++ n))
          (VBool false) VNone VNone VNone VNone VNone VNone).
Proof. now destruct t. Qed.

Lemma check_parameter_inferred n t :
  check_parameter (n, inferred_entry n t) = Ok tt.
Proof. now destruct t. Qed.

Lemma inferred_kind_accepts n v t d :
  infer_type n v = Ok t ->
  ParameterSchema.validate
    (ParameterSchema.mk (VType t) d (VBool false) VNone VNone VNone VNone
       VNone VNone) v
  = Ok tt.
Proof.
  destruct v; simpl; intros H; try discriminate; injection H as <-;
    reflexivity.
Qed.

Lemma build_parameters_get (entries : dict value) :
  forall ps k e,
    FunctionSchema.build_parameters entries = Ok ps ->
    dict_get k entries = Some e ->
    exists p, ParameterSchema.call e = Ok p /\ dict_get k ps = Some p.
Proof.
  induction entries as [|[k0 e0] entries IH]; intros ps k e Hb Hget;
    simpl in *; [discriminate|].
  destruct (ParameterSchema.call e0) as [p0|x] eqn:Hc; [|discriminate].
  simpl in Hb.
  destruct (FunctionSchema.build_parameters entries) as [ps'|x] eqn:Hb';
    [|discriminate].
  simpl in Hb. injection Hb as <-. simpl.
  destruct (String.eqb k k0).
  - injection Hget as <-. eauto.
  - now apply (IH ps').
Qed.

Lemma build_parameters_inferred (entries : dict value) :
  (forall item,
      In item entries ->
      exists t, item = (fst item, inferred_entry (fst item) t)) ->
  exists ps, FunctionSchema.build_parameters entries = Ok ps.
Proof.
  induction entries as [|[k e] entries IH]; intros Hall; simpl; [eauto|].
  destruct (Hall _ (or_introl eq_refl)) as [t Ht]. simpl in Ht.
  injection Ht as ->. rewrite call_inferred_entry. simpl.
  destruct (IH (fun item H => Hall item (or_intror H))) as [ps ->].
  simpl. eauto.
Qed.

(** X19. The schema inferred from an example map accepts the examples.
    For parameters with distinct names, the entries returned by
    [create_schema_from_parameters], put under [parameters] in a raw
    definition with a name and a description, pass the definition check
    and build a schema, and [validate_parameters] of that schema accepts
    the example map itself. *)
Theorem X19_inferred_schema_accepts_examples
    (params schema : dict value) (name description : value) :
  NoDup (dict_keys params) ->
  create_schema_from_parameters params = Ok schema ->
  exists fs,
    FunctionRegistry.build_schema
      [("name", name); ("description", description);
       ("parameters", VDict schema)] = Ok fs
    /\ FunctionSchema.validate_parameters fs params = Ok tt.
Proof.
  intros Hnd Hrun. unfold create_schema_from_parameters in Hrun.
  destruct (infer_entries_result params [] schema Hrun Hnd
              (fun k _ => eq_refl)) as (_ & _ & Hnew & Hall).
  assert (Hinf : forall item,
             In item schema ->
             exists t, item = (fst item, inferred_entry (fst item) t)).
  { intros item Hitem. destruct (Hall item Hitem) as [[]|H]; exact H. }
  destruct (build_parameters_inferred schema Hinf) as [ps Hps].
  assert (Hcheck : for_each check_parameter schema = Ok tt).
  { apply for_each_ok. intros item Hitem.
    destruct (Hinf item Hitem) as [t ->]. apply check_parameter_inferred. }
  exists (FunctionSchema.mk name description ps (VList [])). split.
  - unfold FunctionRegistry.build_schema, validate_function_definition.
    cbn -[check_parameter FunctionSchema.build_parameters].
    rewrite Hcheck. cbn -[FunctionSchema.build_parameters].
    unfold FunctionSchema.init. cbn -[FunctionSchema.build_parameters].
    rewrite Hps. reflexivity.
  - apply validate_parameters_ok. exists []. split; [reflexivity|].
    split; [reflexivity|]. apply for_each_ok. intros [n v] Hin.
    destruct (Hnew n v Hin) as (t & Ht & Hget).
    destruct (build_parameters_get schema ps n _ Hps Hget) as (p & Hp & Hgp).
    rewrite call_inferred_entry in Hp. injection Hp as <-.
    rewrite (check_provided_known
               (FunctionSchema.mk name description ps (VList [])) n v _ Hgp).
    now rewrite (inferred_kind_accepts n v t _ Ht).
Qed.
End InferenceFacts.

Lemma X18_witness :
  FunctionValidator.create_schema_from_parameters
    [("a", VInt 1); ("b", VNone); ("c", VNone)]
  = Raise (ValidationError
             ("Unsupported parameter type for '" ++ "b" ++ "': " ++
              type_repr VNone)).
Proof.
  apply (proj1 (proj2 (X18_inference_succeeds_iff_inferable
                         [("a", VInt 1); ("b", VNone); ("c", VNone)]))
           [("a", VInt 1)] "b" VNone [("c", VNone)]);
    reflexivity.
Defined.

Lemma X19_witness :
  exists fs,
    FunctionRegistry.build_schema
      [("name", VStr "f"); ("description", VStr "d");
       ("parameters",
        VDict [("flag",
                VDict [("type", VStr "boolean");
                       ("description", VStr "Parameter: flag")]);
               ("n",
                VDict [("type", VStr "number");
                       ("description", VStr "Parameter: n")])])]
    = Ok fs
    /\ FunctionSchema.validate_parameters fs
         [("flag", VBool true); ("n", VInt 42)] = Ok tt.
Proof.
  apply (X19_inferred_schema_accepts_examples
           [("flag", VBool true); ("n", VInt 42)] _ (VStr "f") (VStr "d")).
  - simpl. repeat constructor; simpl; intuition discriminate.
  - reflexivity.
Defined.

(* ------------------------------------------------------------------ *)
(** ** Acceptance of an argument map, and the listing after a
    registration *)

Section AcceptanceFacts.
Import FunctionSchema.

(** X20. [validate_parameters] accepts an argument map exactly when
    every element of the required list is a string that is a key of the
    map, and every key of the map is a declared parameter whose schema
    accepts the value bound to it. *)
Theorem X20_accepted_argument_maps
    (self : FunctionSchema.t) (params : dict value) (names : list value) :
  py_iter (required self) = Ok names ->
  (validate_parameters self params = Ok tt <->
   (forall x, In x names ->
              exists s, x = VStr s /\ dict_has s params = true)
   /\ (forall k v,
         In (k, v) params ->
         exists schema,
           dict_get k (parameters self) = Some schema
           /\ ParameterSchema.validate schema v = Ok tt)).
Proof.
  intros Hiter. rewrite validate_parameters_ok. split.
  - intros (names' & Hiter' & Hreq & Hprov).
    rewrite Hiter in Hiter'. injection Hiter' as <-.
    rewrite for_each_ok in Hreq. rewrite for_each_ok in Hprov. split.
    + intros x Hx. now apply check_required_ok, Hreq.
    + intros k v Hin. specialize (Hprov _ Hin).
      destruct (dict_get k (parameters self)) as [schema|] eqn:Hget.
      * exists schema. split; [reflexivity|].
        rewrite (check_provided_known self k v schema Hget) in Hprov.
        now destruct (ParameterSchema.validate schema v) as [[]|[]].
      * rewrite check_provided_unknown in Hprov; [discriminate|].
        unfold dict_has. now rewrite Hget.
  - intros [Hreq Hprov]. exists names. split; [assumption|].
    split; apply for_each_ok.
    + intros x Hx. now apply check_required_ok, Hreq.
    + intros [k v] Hin. destruct (Hprov k v Hin) as (schema & Hget & Hval).
      rewrite (check_provided_known self k v schema Hget). now rewrite Hval.
Qed.
End AcceptanceFacts.

Lemma concat_empty_app (xs : list string) (x : string) :
  String.concat "" (xs ++ [x]) = String.concat "" xs ++ x.
Proof.
  induction xs as [|y xs IH]; [reflexivity|].
  change ((y :: xs) ++ [x])%list with (y :: (xs ++ [x]))%list.
  rewrite !concat_empty_cons, IH, append_assoc. reflexivity.
Qed.

Section ListingGrowth.
Context {W : Type}.
Import GemmaFunctionCaller DispatcherCalls.

(** X21. A registration through the dispatcher that returns adds one
    line to the prompt: on a dispatcher in step with a paired registry,
    registering a new name turns the sentinel into the header followed
    by the line of the function, and a listing into the same listing
    followed by that line. *)
Theorem X21_registration_appends_a_line
    name (func : Callable W) schema (self : GemmaFunctionCaller.t W) fs :
  in_sync self ->
  RegistryOps.paired (registry self) ->
  dict_has name (FunctionRegistry._functions (registry self)) = false ->
  FunctionRegistry.build_schema schema = Ok fs ->
  get_system_prompt (snd (fst (register_function name func schema self)))
  = match FunctionRegistry._schemas (registry self) with
    | [] => "Available functions:" ++ nl ++ nl ++ listing_line (name, fs)
    | _ => get_system_prompt self ++ listing_line (name, fs)
    end.
Proof.
  intros Hs [Hk _] Hfree Hbuild.
  assert (Hfree' : dict_has name (FunctionRegistry._schemas (registry self))
                   = false)
    by now rewrite <- (same_keys_has name _ _ Hk).
  unfold register_function, FunctionRegistry.register.
  rewrite Hfree, Hbuild, then_update_ok.
  unfold in_sync, get_system_prompt in *.
  cbn [snd fst _system_prompt]. rewrite Hs. unfold listing.
  cbn [FunctionRegistry._schemas registry].
  rewrite (dict_set_absent name fs _ Hfree').
  destruct (FunctionRegistry._schemas (registry self)) as [|e es].
  - reflexivity.
  - cbn [app].
    change (e :: (es ++ [(name, fs)]))%list
      with ((e :: es) ++ [(name, fs)])%list.
    rewrite map_app. cbn [map].
    rewrite concat_empty_app, !append_assoc. reflexivity.
Qed.
End ListingGrowth.

Lemma X20_witness :
  FunctionSchema.validate_parameters Fixtures.test_function_schema
    [("name", VStr "Alice"); ("age", VInt 25)] = Ok tt.
Proof.
  apply (proj2 (X20_accepted_argument_maps Fixtures.test_function_schema
                  [("name", VStr "Alice"); ("age", VInt 25)] [VStr "name"]
                  eq_refl)).
  split.
  - intros x [<-|[]]. exists "name". split; reflexivity.
  - intros k v [[= <- <-]|[[= <- <-]|[]]]; eexists; split; reflexivity.
Defined.

Lemma X21_witness :
  GemmaFunctionCaller.get_system_prompt
    (snd (fst (GemmaFunctionCaller.register_function "retry_func"
                 (Fixtures.flaky 2) Fixtures.retry_schema
                 Fixtures.test_caller)))
  = GemmaFunctionCaller.get_system_prompt Fixtures.test_caller ++
    DispatcherCalls.listing_line
      ("retry_func",
       FunctionSchema.mk (VStr "retry_func")
         (VStr "A function to test retry logic") [] (VList [])).
Proof.
  assert (Hp : RegistryOps.paired
                 (GemmaFunctionCaller.registry Fixtures.test_caller)).
  { split; [reflexivity|]. simpl. repeat constructor. intros []. }
  apply (X21_registration_appends_a_line "retry_func" (Fixtures.flaky 2)
           Fixtures.retry_schema Fixtures.test_caller _ eq_refl Hp eq_refl
           eq_refl).
Defined.
